(** * news_sentiment: the synchronisation core, embedded and verified

    A shallow embedding of [datastorage.py] (class [DataStorage]) and of
    [fmp.py] (class [FMP]): the pandas-backed table store, the paginated
    rate-limited fetch loop, the upsert merge, the date sort and the
    multi-table intersection.

    Conventions of the embedding.
    - A pandas [DataFrame] is a record of column names and labelled rows;
      a cell is null (NaN / None), a number, a text or a timestamp.
    - A Python method that mutates [self] and may raise is a function from
      the state to an outcome ([Ok v] or [Raise e]) paired with the state
      it leaves behind, so that what an exception leaves half-done is
      visible.
    - What the program takes from outside (the API key, the directory of the
      module, the date formats of [dateoperations], the remote endpoint, the
      clock, the iteration order of a Python [set], the tie order of pandas'
      sort) is gathered in the record [Env]; theorems quantify over it.
    - Console output ([printcontrol], the [verbose] flag) is not modelled. *)

From Stdlib Require Import List String Ascii Bool Arith ZArith QArith Qminmax Lia Lqa.
From Stdlib Require Import Permutation Sorted DecimalString.
Import ListNotations.

Local Open Scope string_scope.
Local Open Scope list_scope.
Local Open Scope nat_scope.

(* ================================================================== *)
(** * Part I: definitions *)
(* ================================================================== *)

(** ** Cells, exceptions, outcomes *)

(** A scalar held by a table cell, a row label or a JSON field.  [NaN]
    stands for every null of the source ([None], [math.nan], JSON [null],
    an empty CSV field). *)
Inductive cell : Type :=
| NaN
| Num (z : Z)
| Str (s : string)
| Ts (t : Z).

Definition cell_eq_dec (a b : cell) : {a = b} + {a <> b}.
Proof. decide equality; try apply Z.eq_dec; apply string_dec. Defined.

Definition cell_eqb (a b : cell) : bool :=
  if cell_eq_dec a b then true else false.

Definition isna (c : cell) : bool :=
  match c with NaN => true | _ => false end.

Definition notna (c : cell) : bool := negb (isna c).

(** The exceptions the modelled code raises, by Python class.  [OutOfFuel]
    is not a Python exception: it marks a run of the model that was given
    too little fuel for the [while True] loop of [_read_entries]. *)
Inductive exn : Type :=
| NoData                               (* ValueError("Could not obtain data. ...") *)
| MissingKey (first_row : list cell)   (* KeyError("Incorrect data format ... First row: {}") *)
| KeyError (label : string)
| ValueError (why : string)
| TypeError
| IndexError
| UnboundLocalError (name : string)
| AttributeError (name : string)
| OutOfFuel.

Inductive result (A : Type) : Type :=
| Ok (a : A)
| Raise (e : exn).
Arguments Ok {A} a.
Arguments Raise {A} e.

Definition rbind {A B} (r : result A) (k : A -> result B) : result B :=
  match r with Ok a => k a | Raise e => Raise e end.

Definition raises {A} (r : result A) : Prop := exists e, r = Raise e.

(** State-and-exception monad: the state survives a raise. *)
Definition M (S A : Type) : Type := S -> result A * S.

Definition ret {S A} (a : A) : M S A := fun s => (Ok a, s).
Definition throw {S A} (e : exn) : M S A := fun s => (Raise e, s).
Definition bind {S A B} (m : M S A) (k : A -> M S B) : M S B :=
  fun s => match m s with
           | (Ok a, s') => k a s'
           | (Raise e, s') => (Raise e, s')
           end.
Definition get {S} : M S S := fun s => (Ok s, s).
Definition put {S} (s : S) : M S unit := fun _ => (Ok tt, s).
Definition lift {S A} (r : result A) : M S A := fun s => (r, s).

Declare Scope py_scope.
Delimit Scope py_scope with py.
Notation "x <- m ;; k" := (bind m (fun x => k))
  (at level 61, m at next level, right associativity) : py_scope.
Notation "m ;;; k" := (bind m (fun _ => k))
  (at level 61, right associativity) : py_scope.

(** ** Python strings *)

Definition is_upper (c : ascii) : bool :=
  let n := nat_of_ascii c in (65 <=? n) && (n <=? 90).
Definition is_lower (c : ascii) : bool :=
  let n := nat_of_ascii c in (97 <=? n) && (n <=? 122).
Definition to_lower (c : ascii) : ascii :=
  if is_upper c then ascii_of_nat (nat_of_ascii c + 32) else c.
Definition to_upper (c : ascii) : ascii :=
  if is_lower c then ascii_of_nat (nat_of_ascii c - 32) else c.

(** [str.lower()], on the ASCII letters. *)
Fixpoint lower (s : string) : string :=
  match s with
  | EmptyString => EmptyString
  | String c s' => String (to_lower c) (lower s')
  end.

(** [str.capitalize()]: first character upper case, the rest lower case. *)
Definition capitalize (s : string) : string :=
  match s with
  | EmptyString => EmptyString
  | String c s' => String (to_upper c) (lower s')
  end.

(** [s.find(c)] for a one-character needle: the first position, or -1. *)
Fixpoint find_from (c : ascii) (s : string) (pos : Z) : Z :=
  match s with
  | EmptyString => (-1)%Z
  | String d s' => if Ascii.eqb d c then pos else find_from c s' (pos + 1)%Z
  end.
Definition find (s : string) (c : ascii) : Z := find_from c s 0%Z.

(** [s[:n]] for [n >= 0]. *)
Definition slice_to (s : string) (n : Z) : string :=
  substring 0 (Z.to_nat n) s.

(** [s.replace(old, new)]: every non-overlapping occurrence, left to right.
    [skip] counts the characters of a matched occurrence still to drop. *)
Fixpoint replace_from (old new : string) (skip : nat) (s : string) : string :=
  match s with
  | EmptyString => EmptyString
  | String c s' =>
      match skip with
      | S k => replace_from old new k s'
      | O => if prefix old s
             then new ++ replace_from old new (String.length old - 1) s'
             else String c (replace_from old new 0 s')
      end
  end.

Fixpoint intersperse (new s : string) : string :=
  match s with
  | EmptyString => new
  | String c s' => new ++ String c (intersperse new s')
  end.

Definition replace (s old new : string) : string :=
  match old with
  | EmptyString => intersperse new s
  | _ => replace_from old new 0 s
  end.

(** [s.split(sep)] for a one-character separator. *)
Fixpoint split_on (sep : ascii) (s : string) : list string :=
  match s with
  | EmptyString => [EmptyString]
  | String c s' =>
      if Ascii.eqb c sep then EmptyString :: split_on sep s'
      else match split_on sep s' with
           | w :: ws => String c w :: ws
           | [] => [String c EmptyString]
           end
  end.

(** [str(n)] for an integer. *)
Definition str_of_Z (z : Z) : string := NilZero.string_of_int (Z.to_int z).

(** [os.path.join(a, b)] (POSIX). *)
Definition ends_with_slash (s : string) : bool :=
  match String.get (String.length s - 1) s with
  | Some c => Ascii.eqb c "/"
  | None => false
  end.
Definition path_join (a b : string) : string :=
  if prefix "/" b then b
  else if (String.eqb a EmptyString) || ends_with_slash a then a ++ b
  else a ++ "/" ++ b.

(** The substitution of line 302 of fmp.py,
    [re.sub(r'(?<!^)(?=[A-Z])', '_', name).lower()]: an underscore before
    every upper-case letter that is not the first character, then lower
    case. *)
Fixpoint underscore_before_upper (s : string) : string :=
  match s with
  | EmptyString => EmptyString
  | String c s' =>
      if is_upper c then String "_" (String c (underscore_before_upper s'))
      else String c (underscore_before_upper s')
  end.
Definition camel_case_to_snake_case (name : string) : string :=
  match name with
  | EmptyString => EmptyString
  | String c s' => lower (String c (underscore_before_upper s'))
  end.

(** ** Files

    A CSV file is its lines, a line its fields; the file system maps paths
    to files (directories are implicit). *)

Definition csv : Type := list (list cell).
Definition filesystem : Type := list (string * csv).

Fixpoint read_file (path : string) (fs : filesystem) : option csv :=
  match fs with
  | [] => None
  | (p, f) :: fs' => if String.eqb p path then Some f else read_file path fs'
  end.

Fixpoint write_file (path : string) (f : csv) (fs : filesystem) : filesystem :=
  match fs with
  | [] => [(path, f)]
  | (p, g) :: fs' =>
      if String.eqb p path then (p, f) :: fs' else (p, g) :: write_file path f fs'
  end.

Module pd.

(** ** pandas: the DataFrame and the operations the program calls

    A frame keeps its column names and its rows; a row is its index label
    and its cells, one per column, in column order.  Labels and column
    names may repeat, as in pandas.  Where pandas answers a label that is
    not unique with something other than a Series, the model raises
    (see [get_col]).  Dtypes are not modelled: a column is the list of its
    cells. *)

Definition row : Type := (cell * list cell)%type.

Record DataFrame : Type := mkDF {
  index_name : option string;
  columns : list string;
  rows : list row
}.

Definition index (d : DataFrame) : list cell := map fst (rows d).

(** Every row has one cell per column. *)
Definition well_formed (d : DataFrame) : Prop :=
  Forall (fun r : row => List.length (snd r) = List.length (columns d)) (rows d).

(** [pd.DataFrame(columns = columns)] *)
Definition new_frame (cols : option (list string)) : DataFrame :=
  mkDF None (match cols with Some cs => cs | None => [] end) [].

Definition mem_name (c : string) (l : list string) : bool :=
  existsb (String.eqb c) l.
Definition mem_cell (c : cell) (l : list cell) : bool :=
  existsb (cell_eqb c) l.

Fixpoint position (c : string) (cols : list string) : option nat :=
  match cols with
  | [] => None
  | d :: ds => if String.eqb d c then Some 0 else option_map S (position c ds)
  end.

Fixpoint has_dup_names (l : list string) : bool :=
  match l with
  | [] => false
  | x :: l' => mem_name x l' || has_dup_names l'
  end.
Fixpoint has_dup_cells (l : list cell) : bool :=
  match l with
  | [] => false
  | x :: l' => mem_cell x l' || has_dup_cells l'
  end.

Definition list_eqb {A} (eqb : A -> A -> bool) : list A -> list A -> bool :=
  fix go l1 l2 :=
    match l1, l2 with
    | [], [] => true
    | x :: l1', y :: l2' => eqb x y && go l1' l2'
    | _, _ => false
    end.

(** The cell of a row under the column at position [j]; a short row reads
    as null. *)
Definition cell_of (r : row) (j : nat) : cell := nth j (snd r) NaN.

(** The cell at row position [i], column position [j]. *)
Definition cell_at (d : DataFrame) (i j : nat) : option cell :=
  match nth_error (rows d) i with
  | Some r => nth_error (snd r) j
  | None => None
  end.

(** [df[c]] as a Series: its values in row order.  A missing column is a
    [KeyError]; a column name held by two columns selects a sub-frame in
    pandas, which none of the callers handles: the model raises. *)
Definition get_col (d : DataFrame) (c : string) : result (list cell) :=
  match position c (columns d) with
  | None => Raise (KeyError c)
  | Some j =>
      if 1 <? count_occ string_dec (columns d) c
      then Raise (ValueError "column label is not unique")
      else Ok (map (fun r => cell_of r j) (rows d))
  end.

(** [df[mask]] for a boolean Series aligned with the rows. *)
Definition select_rows (mask : list bool) (d : DataFrame) : DataFrame :=
  mkDF (index_name d) (columns d)
       (map snd (filter fst (combine mask (rows d)))).

(** [df.drop(labels)]: every row whose label is listed goes. *)
Definition drop_rows (labels : list cell) (d : DataFrame) : DataFrame :=
  mkDF (index_name d) (columns d)
       (filter (fun r : row => negb (mem_cell (fst r) labels)) (rows d)).

Fixpoint remove_nth {A} (j : nat) (l : list A) : list A :=
  match l, j with
  | [], _ => []
  | _ :: l', O => l'
  | x :: l', S k => x :: remove_nth k l'
  end.

(** The cells of a list kept where the parallel list of names passes [keep]. *)
Fixpoint keep_where {A} (keep : string -> bool) (names : list string)
         (l : list A) : list A :=
  match names, l with
  | n :: names', x :: l' =>
      if keep n then x :: keep_where keep names' l' else keep_where keep names' l'
  | _, _ => []
  end.

(** [df.drop(columns = names)]: a listed name that is no column is a
    [KeyError]; every column so named goes. *)
Definition drop_columns (names : list string) (d : DataFrame) : result DataFrame :=
  match filter (fun n => negb (mem_name n (columns d))) names with
  | n :: _ => Raise (KeyError n)
  | [] =>
      let keep := fun c => negb (mem_name c names) in
      Ok (mkDF (index_name d) (filter keep (columns d))
               (map (fun r : row => (fst r, keep_where keep (columns d) (snd r)))
                    (rows d)))
  end.

(** [df[name] = value] for a scalar: a new column at the end, or an
    existing one overwritten. *)
Fixpoint set_nth {A} (j : nat) (v : A) (l : list A) : list A :=
  match l, j with
  | [], _ => []
  | _ :: l', O => v :: l'
  | x :: l', S k => x :: set_nth k v l'
  end.

Definition set_column (c : string) (v : cell) (d : DataFrame) : DataFrame :=
  match position c (columns d) with
  | Some j =>
      mkDF (index_name d) (columns d)
           (map (fun r : row => (fst r, set_nth j v (snd r))) (rows d))
  | None =>
      mkDF (index_name d) (columns d ++ [c])
           (map (fun r : row => (fst r, snd r ++ [v])) (rows d))
  end.

(** [df.set_index(name, inplace = True)]: the column becomes the index and
    leaves the columns; a missing column is a [KeyError]. *)
Definition set_index (c : string) (d : DataFrame) : result DataFrame :=
  match position c (columns d) with
  | None => Raise (KeyError c)
  | Some j =>
      Ok (mkDF (Some c) (remove_nth j (columns d))
               (map (fun r : row => (cell_of r j, remove_nth j (snd r))) (rows d)))
  end.

(** [df.rename(columns = f, inplace = True)] *)
Definition rename_columns (f : string -> string) (d : DataFrame) : DataFrame :=
  mkDF (index_name d) (map f (columns d)) (rows d).

(** [df.loc[label, :] = v]: every row so labelled is overwritten; a label
    the index lacks gets a new last row. *)
Definition loc_set_row (label : cell) (v : cell) (d : DataFrame) : DataFrame :=
  if mem_cell label (index d)
  then mkDF (index_name d) (columns d)
            (map (fun r : row =>
                    if cell_eqb (fst r) label
                    then (fst r, map (fun _ => v) (snd r)) else r) (rows d))
  else mkDF (index_name d) (columns d)
            (rows d ++ [(label, repeat v (List.length (columns d)))]).

(** [df.loc[:, c] = v]: an existing column is overwritten; a new column on
    a frame without rows is pandas' "cannot set a frame with no defined
    index and a scalar"; otherwise the column is added last. *)
Definition loc_set_col (c : string) (v : cell) (d : DataFrame) : result DataFrame :=
  if mem_name c (columns d) then Ok (set_column c v d)
  else match rows d with
       | [] => Raise (ValueError "cannot set a frame with no defined index and a scalar")
       | _ => Ok (set_column c v d)
       end.

(** The first row with a given label. *)
Fixpoint find_row (label : cell) (rs : list row) : option row :=
  match rs with
  | [] => None
  | r :: rs' => if cell_eqb (fst r) label then Some r else find_row label rs'
  end.

(** [df.reindex(index = target)]: no-op on an equal index; refused on an
    index with repeated labels; otherwise one row per target label, null
    where the frame has none. *)
Definition reindex_rows (target : list cell) (d : DataFrame) : result DataFrame :=
  if list_eqb cell_eqb (index d) target then Ok d
  else if has_dup_cells (index d) && negb (Nat.eqb (List.length target) 0)
  then Raise (ValueError "cannot reindex from a duplicate axis")
  else Ok (mkDF (index_name d) (columns d)
             (map (fun k => match find_row k (rows d) with
                            | Some r => (k, snd r)
                            | None => (k, repeat NaN (List.length (columns d)))
                            end) target)).

(** [df.reindex(columns = target)], likewise along the columns. *)
Definition reindex_columns (target : list string) (d : DataFrame) : result DataFrame :=
  if list_eqb String.eqb (columns d) target then Ok d
  else if has_dup_names (columns d) && negb (Nat.eqb (List.length target) 0)
  then Raise (ValueError "cannot reindex from a duplicate axis")
  else Ok (mkDF (index_name d) target
             (map (fun r : row =>
                     (fst r, map (fun c => match position c (columns d) with
                                           | Some j => cell_of r j
                                           | None => NaN
                                           end) target)) (rows d))).

(** [other.reindex_like(self)] *)
Definition reindex_like (other self : DataFrame) : result DataFrame :=
  rbind (reindex_rows (index self) other) (reindex_columns (columns self)).

(** One cell of [DataFrame.update]: [where(isna(that), this, that)]. *)
Definition overlay_cell (this that : cell) : cell :=
  if isna that then this else that.

Fixpoint overlay_cells (this that : list cell) : list cell :=
  match this, that with
  | x :: this', y :: that' => overlay_cell x y :: overlay_cells this' that'
  | _, [] => this
  | [], _ => []
  end.

Fixpoint overlay_rows (this that : list row) : list row :=
  match this, that with
  | r :: this', o :: that' =>
      (fst r, overlay_cells (snd r) (snd o)) :: overlay_rows this' that'
  | _, [] => this
  | [], _ => []
  end.

(** [self.update(other)]: [other] is aligned on the labels and columns of
    [self]; where it holds a value that is not null, the value replaces the
    cell of [self]. *)
Definition update (other self : DataFrame) : result DataFrame :=
  rbind (reindex_like other self) (fun aligned =>
    Ok (mkDF (index_name self) (columns self)
             (overlay_rows (rows self) (rows aligned)))).

(** Elementwise comparison of a Series with a scalar.  [None] as the scalar
    is [None] here; a null cell compares false; values of different kinds
    are never equal and cannot be ordered. *)
Definition py_eq (x v : cell) : bool :=
  notna x && notna v && cell_eqb x v.

Definition py_gt (x : cell) (v : option cell) : result bool :=
  match x, v with
  | _, None => Raise TypeError
  | NaN, Some _ => Ok false
  | _, Some NaN => Ok false
  | Num a, Some (Num b) => Ok (b <? a)%Z
  | Ts a, Some (Ts b) => Ok (b <? a)%Z
  | Str a, Some (Str b) => Ok (String.ltb b a)
  | _, Some _ => Raise TypeError
  end.

Definition py_lt (x : cell) (v : option cell) : result bool :=
  match x, v with
  | _, None => Raise TypeError
  | NaN, Some _ => Ok false
  | _, Some NaN => Ok false
  | Num a, Some (Num b) => Ok (a <? b)%Z
  | Ts a, Some (Ts b) => Ok (a <? b)%Z
  | Str a, Some (Str b) => Ok (String.ltb a b)
  | _, Some _ => Raise TypeError
  end.

Fixpoint map_result {A B} (f : A -> result B) (l : list A) : result (list B) :=
  match l with
  | [] => Ok []
  | x :: l' => rbind (f x) (fun y => rbind (map_result f l') (fun ys => Ok (y :: ys)))
  end.

(** [series.eq(v).any()] *)
Definition eq_any (series : list cell) (v : cell) : bool :=
  existsb (fun x => py_eq x v) series.

(** [series.isin(values)]: membership, a null being a member when the
    values hold a null. *)
Definition isin (series values : list cell) : list bool :=
  map (fun x => mem_cell x values) series.

(** [to_csv] writes the header line when asked and the index label in
    front of each row when asked; [read_csv] is its inverse, field types
    surviving the round trip. *)

Definition to_csv (d : DataFrame) (with_index with_header : bool) : csv :=
  let label := match index_name d with Some n => n | None => EmptyString end in
  let head := (if with_index then [Str label] else []) ++ map Str (columns d) in
  let body := map (fun r : row => (if with_index then [fst r] else []) ++ snd r)
                  (rows d) in
  if with_header then head :: body else body.

Definition field_name (c : cell) : string :=
  match c with
  | Str s => s
  | Num z => str_of_Z z
  | Ts t => str_of_Z t
  | NaN => "Unnamed"
  end.

Fixpoint range_from (start : Z) (n : nat) : list cell :=
  match n with
  | O => []
  | S k => Num start :: range_from (start + 1)%Z k
  end.

(** The frame of a list of rows under given column names: a range index
    without [index_col], the named column as index with it. *)
Definition frame_of_lines (names : list string) (lines : list (list cell))
           (index_col : option string) : result DataFrame :=
  let plain := mkDF None names
                    (combine (range_from 0 (List.length lines)) lines) in
  match index_col with
  | None => Ok plain
  | Some c => set_index c plain
  end.

(** [pd.read_csv(path, header = 0, index_col = ...)] and
    [pd.read_csv(path, names = ..., index_col = ...)] *)
Definition read_csv (f : csv) (names : option (list string))
           (index_col : option string) : result DataFrame :=
  match names with
  | Some ns => frame_of_lines ns f index_col
  | None =>
      match f with
      | [] => Raise (ValueError "No columns to parse from file")
      | head :: body => frame_of_lines (map field_name head) body index_col
      end
  end.

(** [df.loc[mask, cols] = v]: the listed columns the frame lacks are first
    added as null columns, then [v] is written in the rows the mask
    selects. *)
Definition loc_set_mask (mask : list bool) (cols : list string) (v : cell)
           (d : DataFrame) : DataFrame :=
  let d1 := fold_left (fun acc c =>
                         if mem_name c (columns acc) then acc
                         else set_column c NaN acc) cols d in
  mkDF (index_name d1) (columns d1)
       (map (fun mr : bool * row =>
               let (m, r) := mr in
               if m then
                 (fst r, map (fun nc : string * cell =>
                                if mem_name (fst nc) cols then v else snd nc)
                             (combine (columns d1) (snd r)))
               else r)
            (combine (mask ++ repeat false (List.length (rows d1))) (rows d1))).

(** *** Ordering of cells, for the key column of an ordered merge *)

Definition kind (c : cell) : nat :=
  match c with NaN => 0 | Num _ => 1 | Str _ => 2 | Ts _ => 3 end.

(** All the values that are not null are of one kind. *)
Fixpoint one_kind (l : list cell) : bool :=
  match l with
  | [] => true
  | x :: l' =>
      forallb (fun y => isna x || isna y || Nat.eqb (kind x) (kind y)) l'
      && one_kind l'
  end.

(** Ascending order within a kind, nulls last. *)
Definition cell_leb (a b : cell) : bool :=
  match a, b with
  | _, NaN => true
  | NaN, _ => false
  | Num x, Num y => (x <=? y)%Z
  | Ts x, Ts y => (x <=? y)%Z
  | Str x, Str y => String.leb x y
  | _, _ => Nat.leb (kind a) (kind b)
  end.

Fixpoint insert_cell (x : cell) (l : list cell) : list cell :=
  match l with
  | [] => [x]
  | y :: l' => if cell_leb x y then x :: l else y :: insert_cell x l'
  end.
Definition sort_cells (l : list cell) : list cell := fold_right insert_cell [] l.

Fixpoint uniq_cells (seen l : list cell) : list cell :=
  match l with
  | [] => []
  | x :: l' => if mem_cell x seen then uniq_cells seen l'
               else x :: uniq_cells (x :: seen) l'
  end.

(** [pd.merge_ordered(left, right, how = "inner", on = c)]: the rows of
    [left] and [right] that agree on column [c], paired, by ascending key;
    key columns of different kinds are refused; a column name the two sides
    share besides [c] gets the suffix [_x] on the left and [_y] on the
    right; the result has a fresh range index. *)
Definition merge_ordered (left right : DataFrame) (c : string) : result DataFrame :=
  rbind (get_col left c) (fun lk =>
  rbind (get_col right c) (fun rk =>
    if negb (one_kind (lk ++ rk))
    then Raise (ValueError "You are trying to merge on columns of different types")
    else
      match position c (columns left), position c (columns right) with
      | Some jl, Some jr =>
          let lothers := remove_nth jl (columns left) in
          let rothers := remove_nth jr (columns right) in
          let lname := fun n =>
            if negb (String.eqb n c) && mem_name n rothers then (n ++ "_x")%string else n in
          let rname := fun n =>
            if mem_name n lothers then (n ++ "_y")%string else n in
          let keys := sort_cells (uniq_cells [] (filter (fun k => mem_cell k rk) lk)) in
          let with_key := fun (j : nat) (k : cell) (rs : list row) =>
            filter (fun r : row => cell_eqb (cell_of r j) k) rs in
          let paired :=
            flat_map (fun k =>
              flat_map (fun l : row =>
                map (fun r : row => snd l ++ remove_nth jr (snd r))
                    (with_key jr k (rows right)))
                (with_key jl k (rows left))) keys in
          Ok (mkDF None (map lname (columns left) ++ map rname rothers)
                   (combine (range_from 0 (List.length paired)) paired))
      | _, _ => Raise (KeyError c)
      end)).

(** *** Sorting by a datetime index *)

(** [index.is_monotonic_decreasing] *)
Fixpoint is_monotonic_decreasing (l : list Z) : bool :=
  match l with
  | [] => true
  | x :: l' =>
      match l' with
      | [] => true
      | y :: _ => (y <=? x)%Z && is_monotonic_decreasing l'
      end
  end.

(** [df.sort_index(ascending = False, inplace = True)] on rows keyed by
    their timestamp: pandas returns at once when the index is already
    monotonic decreasing, and otherwise sorts with an algorithm that is not
    stable, [sorter] here. *)
Definition sort_index_descending (sorter : list (Z * list cell) -> list (Z * list cell))
           (keyed : list (Z * list cell)) : list (Z * list cell) :=
  if is_monotonic_decreasing (map fst keyed) then keyed else sorter keyed.

(** *** Tabulating JSON *)

(** A flat JSON object: its fields in order. *)
Definition record : Type := list (string * cell).

Fixpoint field (r : record) (k : string) : option cell :=
  match r with
  | [] => None
  | (n, v) :: r' => if String.eqb n k then Some v else field r' k
  end.

Fixpoint uniq_names (seen l : list string) : list string :=
  match l with
  | [] => []
  | x :: l' => if mem_name x seen then uniq_names seen l'
               else x :: uniq_names (x :: seen) l'
  end.

(** [pd.json_normalize(records)] on flat objects: a range index, one column
    per field name in order of first appearance, null where a record lacks
    the field. *)
Definition json_normalize (rl : list record) : DataFrame :=
  let cols := uniq_names [] (flat_map (map fst) rl) in
  mkDF None cols
       (combine (range_from 0 (List.length rl))
                (map (fun r => map (fun c => match field r c with
                                             | Some v => v
                                             | None => NaN
                                             end) cols) rl)).

(** [df.iloc[0, :].values] *)
Definition first_row_values (d : DataFrame) : result (list cell) :=
  match rows d with
  | [] => Raise IndexError
  | r :: _ => Ok (snd r)
  end.

(** *** Index and column conversions, single cells, new frames *)

(** [df.reset_index(...)]: the index becomes the first column, named after
    the index ([index], or [level_0] when [index] is taken, for an index
    without a name); a name already among the columns is pandas'
    "cannot insert ..., already exists"; the rows get a range index. *)
Definition reset_index (d : DataFrame) : result DataFrame :=
  let name := match index_name d with
              | Some n => n
              | None => if mem_name "index" (columns d) then "level_0" else "index"
              end in
  if mem_name name (columns d)
  then Raise (ValueError "cannot insert, already exists")
  else Ok (mkDF None (name :: columns d)
                (combine (range_from 0 (List.length (rows d)))
                         (map (fun r : row => fst r :: snd r) (rows d)))).

(** [df.loc[label, c] = v] for a label of the index: the cell under [c] in
    every row so labelled; a column the frame lacks is first added, null
    elsewhere. *)
Definition loc_set_cell (label : cell) (c : string) (v : cell) (d : DataFrame)
  : DataFrame :=
  let d1 := if mem_name c (columns d) then d else set_column c NaN d in
  mkDF (index_name d1) (columns d1)
       (map (fun r : row =>
               if cell_eqb (fst r) label
               then (fst r, map (fun nc : string * cell =>
                                   if String.eqb (fst nc) c then v else snd nc)
                                (combine (columns d1) (snd r)))
               else r) (rows d1)).

Fixpoint pad {A} (n : nat) (x : A) (l : list A) : list A :=
  match n, l with
  | O, _ => l
  | S k, [] => x :: pad k x []
  | S k, y :: l' => y :: pad k x l'
  end.

Fixpoint range_names (start : Z) (n : nat) : list string :=
  match n with
  | O => []
  | S k => str_of_Z start :: range_names (start + 1)%Z k
  end.

(** [pd.DataFrame(rows, columns = ..., index = ...)] on a list of lists:
    short rows are filled with nulls up to the longest; without [columns]
    the columns are numbered (a number stands here as its decimal text);
    a width other than that of [columns], or a number of labels other
    than that of the rows, is a [ValueError]; without any row the frame has
    a null row per label. *)
Definition frame_of_rows (data : list (list cell)) (cols : option (list string))
           (labels : option (list cell)) : result DataFrame :=
  let width := fold_right (fun r w => Nat.max (List.length r) w) 0 data in
  let names := match cols with
               | Some cs => cs
               | None => range_names 0 width
               end in
  if negb (Nat.eqb (List.length data) 0) && negb (Nat.eqb width (List.length names))
  then Raise (ValueError "columns passed do not match the data")
  else
    let body := map (pad width NaN) data in
    match labels with
    | None => Ok (mkDF None names (combine (range_from 0 (List.length data)) body))
    | Some ls =>
        if Nat.eqb (List.length data) 0
        then Ok (mkDF None names
                      (map (fun l => (l, repeat NaN (List.length names))) ls))
        else if Nat.eqb (List.length ls) (List.length data)
        then Ok (mkDF None names (combine ls body))
        else Raise (ValueError "length of index does not match the data")
    end.

(** The cells of a row under other columns: by name, null where the row
    has no such column. *)
Definition cells_under (target : list string) (cols : list string) (r : row)
  : list cell :=
  map (fun c => match position c cols with
                | Some j => cell_of r j
                | None => NaN
                end) target.

(** [df.append(other, ignore_index = ...)]: the rows of both under the
    columns of [df] followed by the new columns of [other]; with
    [ignore_index] every row is relabelled by position; otherwise the
    labels are kept, and the name of the index only when the two indexes
    have the same (a frame without rows and columns is left out of the
    concatenation when the other is not such a frame). *)
Definition append (d other : DataFrame) (ignore_index : bool) : DataFrame :=
  let cols := (columns d
               ++ uniq_names (columns d) (columns other))%list in
  let body := (map (fun r : row => (fst r, cells_under cols (columns d) r)) (rows d)
               ++ map (fun r : row => (fst r, cells_under cols (columns other) r))
                      (rows other))%list in
  let void := fun x : DataFrame =>
    Nat.eqb (List.length (rows x) + List.length (columns x)) 0 in
  let name :=
    if void other && negb (void d) then index_name d
    else if void d && negb (void other) then index_name other
    else match index_name d, index_name other with
         | Some n, Some n' => if String.eqb n n' then Some n else None
         | _, _ => None
         end in
  mkDF (if ignore_index then None else name) cols
       (if ignore_index
        then combine (range_from 0 (List.length body)) (map snd body)
        else body).

End pd.

(** [sorted(names)] on strings: ascending by character code. *)
Fixpoint insert_name (x : string) (l : list string) : list string :=
  match l with
  | [] => [x]
  | y :: l' => if String.leb x y then x :: l else y :: insert_name x l'
  end.
Definition sorted (l : list string) : list string := fold_right insert_name [] l.

(** [response_list[-1][key]] *)
Definition field_of_last (response_list : list pd.record) (key : string) : result cell :=
  match rev response_list with
  | [] => Raise IndexError
  | r :: _ => match pd.field r key with
              | Some v => Ok v
              | None => Raise (KeyError key)
              end
  end.

(** [a_list.remove(x)] on a list that holds [x]: the first occurrence goes. *)
Fixpoint list_remove (x : string) (l : list string) : list string :=
  match l with
  | [] => []
  | y :: l' => if String.eqb y x then l' else y :: list_remove x l'
  end.

(** [for x in l: body(x)] *)
Fixpoint for_each {S A} (l : list A) (body : A -> M S unit) : M S unit :=
  match l with
  | [] => ret tt
  | x :: l' => bind (body x) (fun _ => for_each l' body)
  end.

(** ** The environment of a run *)

Record Env : Type := mkEnv {
  (** [config.fmp_api_key] *)
  fmp_api_key : string;
  (** [os.path.dirname(os.path.realpath(__file__))] of fmp.py *)
  module_dir : string;
  (** the two formats of [dateoperations] *)
  DEFAULT_DATE_FORMAT : string;
  DEFAULT_DATETIME_FORMAT : string;
  (** parsing and printing a timestamp under a format *)
  strptime : string -> string -> option Z;
  strftime : string -> Z -> string;
  (** [list(a_set)]: the order in which a set gives up its elements *)
  list_of_label_set : list cell -> list cell;
  list_of_name_set : list string -> list string;
  (** the sort under [sort_index] *)
  sorter : list (Z * list cell) -> list (Z * list cell);
  (** [requests.get(url).json()] *)
  http_get : string -> list pd.record;
  (** seconds the request for page [p] takes, and seconds [time.sleep]
      oversleeps after it *)
  request_seconds : Z -> Q;
  oversleep : Z -> Q
}.

(** ** datastorage.py: class DataStorage *)

Module DataStorage.

Local Open Scope py_scope.

(** Storage file extension *)
Definition EXT : string := ".csv".

Record t : Type := mk {
  _name : string;
  file_path : string;
  columns : option (list string);
  column_types : option (list string);
  df : pd.DataFrame
}.

Definition with_df (self : t) (d : pd.DataFrame) : t :=
  mk (_name self) (file_path self) (columns self) (column_types self) d.

Definition set_df (d : pd.DataFrame) : M t unit :=
  fun self => (Ok tt, with_df self d).

(** [DataStorage(file_name, base_dir, columns, column_types)] *)
Definition __init__ (file_name base_dir : string)
           (columns column_types : option (list string)) : t :=
  mk (String.concat " " (map capitalize (split_on "_" file_name)))
     (path_join base_dir (file_name ++ EXT))
     columns column_types
     (pd.new_frame columns).

Definition get_name (self : t) : string := _name self.

(** [read_data(index_col = ...)], with the default [header = 0]. *)
Definition read_data (fs : filesystem) (index_col : option string) : M t bool :=
  fun self =>
    match read_file (file_path self) fs with
    | None => (Ok false, self)
    | Some f =>
        match pd.read_csv f (columns self) index_col with
        | Ok d => (Ok true, with_df self d)
        | Raise e => (Raise e, self)
        end
    end.

(** [save_data(save_index, file_path)]: the file system after the call. *)
Definition save_data (self : t) (save_index : bool) (path : option string)
           (fs : filesystem) : filesystem :=
  let file_path := match path with Some p => p | None => file_path self end in
  match columns self with
  | Some _ => write_file file_path (pd.to_csv (df self) save_index false) fs
  | None => write_file file_path (pd.to_csv (df self) save_index true) fs
  end.

(** [add_column(column_name, default_value)] *)
Definition add_column (column_name : string) (default_value : cell) : M t unit :=
  fun self => (Ok tt, with_df self (pd.set_column column_name default_value (df self))).

(** The chain of [if]/[elif] the three methods below open with: the
    filter it assigns to [bool_filter], or [None] when [condition] is none
    of the four operators and no branch of the chain is taken. *)
Definition condition_filter (d : pd.DataFrame) (column condition : string)
           (value : option cell) : result (option (list bool)) :=
  if String.eqb condition "gt" then
    rbind (pd.get_col d column) (fun s =>
    rbind (pd.map_result (fun x => pd.py_gt x value) s) (fun m => Ok (Some m)))
  else if String.eqb condition "lt" then
    rbind (pd.get_col d column) (fun s =>
    rbind (pd.map_result (fun x => pd.py_lt x value) s) (fun m => Ok (Some m)))
  else if String.eqb condition "eq" then
    match value with
    | Some v => rbind (pd.get_col d column) (fun s =>
                  Ok (Some (map (fun x => pd.py_eq x v) s)))
    | None => rbind (pd.get_col d column) (fun s => Ok (Some (map isna s)))
    end
  else if String.eqb condition "neq" then
    match value with
    | Some v => rbind (pd.get_col d column) (fun s =>
                  Ok (Some (map (fun x => negb (pd.py_eq x v)) s)))
    | None => rbind (pd.get_col d column) (fun s => Ok (Some (map notna s)))
    end
  else Ok None.

(** [update_rows]: its chain has no [else]; with another operator the last
    statement reads [bool_filter] before any assignment. *)
Definition update_rows (condition_column condition : string)
           (condition_value : option cell) (columns_to_update : list string)
           (update_value : cell) : M t unit :=
  self <- get ;;
  f <- lift (condition_filter (df self) condition_column condition condition_value) ;;
  match f with
  | Some bool_filter =>
      set_df (pd.loc_set_mask bool_filter columns_to_update update_value (df self))
  | None => throw (UnboundLocalError "bool_filter")
  end.

(** [get_rows_by_condition]: [else: return], that is [None]. *)
Definition get_rows_by_condition (column condition : string) (value : option cell)
  : M t (option pd.DataFrame) :=
  self <- get ;;
  f <- lift (condition_filter (df self) column condition value) ;;
  match f with
  | Some bool_filter => ret (Some (pd.select_rows bool_filter (df self)))
  | None => ret None
  end.

(** [remove_rows_by_condition]: [else: return]. *)
Definition remove_rows_by_condition (column condition : string) (value : option cell)
  : M t unit :=
  self <- get ;;
  f <- lift (condition_filter (df self) column condition value) ;;
  match f with
  | Some bool_filter =>
      set_df (pd.drop_rows (pd.index (pd.select_rows bool_filter (df self))) (df self))
  | None => ret tt
  end.

(** [pd.to_datetime(label, format = date_format)] on one label.  A text is
    parsed; a timestamp is kept.  (A null label would become NaT in pandas;
    the model stops there.) *)
Definition to_datetime (env : Env) (date_format : string) (label : cell) : result Z :=
  match label with
  | Str s => match strptime env date_format s with
             | Some t => Ok t
             | None => Raise (ValueError "time data does not match format")
             end
  | Ts t => Ok t
  | _ => Raise (ValueError "time data does not match format")
  end.

(** [sort_ds_dates(ds, date_format)], statement by statement; [ds] is
    mutated in place, so a raise leaves what the earlier statements did. *)
Definition sort_ds_dates (env : Env) (date_format : string) : M t unit :=
  ds <- get ;;
  (* ds.df.index = pd.to_datetime(ds.df.index, format = date_format) *)
  stamps <- lift (pd.map_result (to_datetime env date_format) (pd.index (df ds))) ;;
  let keyed := combine stamps (map snd (pd.rows (df ds))) in
  set_df (pd.mkDF (pd.index_name (df ds)) (pd.columns (df ds))
                  (map (fun kr : Z * list cell => (Ts (fst kr), snd kr)) keyed)) ;;;
  (* ds.df.sort_index(ascending = False, inplace = True) *)
  let ordered := pd.sort_index_descending (sorter env) keyed in
  set_df (pd.mkDF (pd.index_name (df ds)) (pd.columns (df ds))
                  (map (fun kr : Z * list cell => (Ts (fst kr), snd kr)) ordered)) ;;;
  (* ds.df.index = ds.df.index.strftime(date_format) *)
  let printed := pd.mkDF (pd.index_name (df ds)) (pd.columns (df ds))
                   (map (fun kr : Z * list cell =>
                           (Str (strftime env date_format (fst kr)), snd kr)) ordered) in
  set_df printed ;;;
  (* ds.df = ds.df.reindex(sorted(ds.df.columns), axis = 1) *)
  d <- lift (pd.reindex_columns (sorted (pd.columns printed)) printed) ;;
  set_df d.

(** [intersect_on_column(dataframes, column_name)] *)
Definition intersect_on_column (dataframes : list pd.DataFrame) (column_name : string)
  : result (list pd.DataFrame) :=
  match dataframes with
  | df0 :: df1 :: others =>
      (* find the intersected dataframe *)
      rbind (pd.merge_ordered df0 df1 column_name) (fun first =>
      rbind (fold_left (fun acc dfi =>
               rbind acc (fun intersection_df =>
               rbind (pd.merge_ordered intersection_df dfi column_name) (fun merged =>
                 let columns_to_remove :=
                   list_remove column_name (pd.columns merged) in
                 pd.drop_columns columns_to_remove merged)))
             others (Ok first)) (fun intersection_df =>
      (* filter the given dataframes with the intersection_df column_name *)
      pd.map_result (fun d =>
        rbind (pd.get_col d column_name) (fun own =>
        rbind (pd.get_col intersection_df column_name) (fun common =>
          Ok (pd.select_rows (pd.isin own common) d)))) dataframes))
  | _ => Raise IndexError
  end.

(** [set_dataframe(df, columns, column_types)] *)
Definition set_dataframe (d : pd.DataFrame) (columns column_types : option (list string))
  : M t unit :=
  fun self => (Ok tt, mk (_name self) (file_path self) columns column_types d).

(** [index_to_column(inplace)]: [None] and the frame changed in place, or
    the new frame and the frame of the storage as it was. *)
Definition index_to_column (inplace : bool) : M t (option pd.DataFrame) :=
  self <- get ;;
  d <- lift (pd.reset_index (df self)) ;;
  if inplace then set_df d ;;; ret None else ret (Some d).

(** [column_to_index(column_name, inplace)] *)
Definition column_to_index (column_name : string) (inplace : bool)
  : M t (option pd.DataFrame) :=
  self <- get ;;
  d <- lift (pd.set_index column_name (df self)) ;;
  if inplace then set_df d ;;; ret None else ret (Some d).

(** [add_rows(rows, indices)] *)
Definition add_rows (rows : list (list cell)) (indices : option (list cell))
  : M t unit :=
  self <- get ;;
  let columns :=
    if Nat.eqb (List.length (pd.columns (df self))) 0 then None
    else Some (pd.columns (df self)) in
  match indices with
  | None =>
      df_new <- lift (pd.frame_of_rows rows columns None) ;;
      set_df (pd.append (df self) df_new true)
  | Some labels =>
      df_new <- lift (pd.frame_of_rows rows columns (Some labels)) ;;
      set_df (pd.append (df self) df_new false)
  end.

End DataStorage.

(** ** fmp.py: class FMP *)

Module FMP.

Local Open Scope py_scope.

Definition _SYMBOL_PLACEHOLDER : string := "###".
Definition _API_KEY_PLACEHOLDER : string := "@@@".
Definition _PAGE_PLACEHOLDER : string := "$$$".
Definition _BASE_URL (v : Z) : string :=
  "https://financialmodelingprep.com/api/v" ++ str_of_Z v ++ "/".

Definition _NEWS_BASE_URL : string := _BASE_URL 3 ++ "stock_news".
Definition _NEWS_URL : string :=
  _NEWS_BASE_URL ++ "?tickers=" ++ _SYMBOL_PLACEHOLDER
                 ++ "&apikey=" ++ _API_KEY_PLACEHOLDER
                 ++ "&page=" ++ _PAGE_PLACEHOLDER.

Definition BASE_DIR (env : Env) : string := path_join (module_dir env) "fmp".
Definition _NEWS_DATA_DIR (env : Env) : string := path_join (BASE_DIR env) "news".
Definition _SOCIAL_SENTIMENT_DATA_DIR (env : Env) : string :=
  path_join (BASE_DIR env) "social_sentiment".

(** Delay between api calls in seconds: [60 / 300], as an exact rational. *)
Definition CALL_DELAY : Q := (60 / 300)%Q.

Record t : Type := mk {
  symbol : string;
  news_ds : DataStorage.t;
  social_sentiment_ds : DataStorage.t
}.

(** A method of [self.news_ds] run on [self]. *)
Definition on_news {A} (m : M DataStorage.t A) : M t A :=
  fun self =>
    let (r, ds) := m (news_ds self) in
    (r, mk (symbol self) ds (social_sentiment_ds self)).

Definition on_social_sentiment {A} (m : M DataStorage.t A) : M t A :=
  fun self =>
    let (r, ds) := m (social_sentiment_ds self) in
    (r, mk (symbol self) (news_ds self) ds).

(** [ds.df.set_index("date", inplace = True)] *)
Definition set_index_inplace (c : string) : M DataStorage.t unit :=
  ds <- get ;;
  d <- lift (pd.set_index c (DataStorage.df ds)) ;;
  DataStorage.set_df d.

(** [_load_data()] *)
Definition _load_data (fs : filesystem) : M t unit :=
  loaded <- on_news (DataStorage.read_data fs (Some "date")) ;;
  (if negb loaded then
     on_news (DataStorage.add_column "date" NaN) ;;;
     on_news (set_index_inplace "date") ;;;
     on_news (DataStorage.add_column "sentiment" NaN) ;;;
     on_news (DataStorage.add_column "sentiment_probability" NaN)
   else ret tt) ;;;
  loaded <- on_social_sentiment (DataStorage.read_data fs (Some "date")) ;;
  (if negb loaded then
     on_social_sentiment (DataStorage.add_column "date" NaN) ;;;
     on_social_sentiment (set_index_inplace "date")
   else ret tt).

(** [FMP(symbol)]: the object built, or the exception of [_load_data]. *)
Definition __init__ (env : Env) (fs : filesystem) (symbol : string) : result t :=
  (* remove symbol extension *)
  let dot_index := find symbol "." in
  let symbol := if (dot_index >? -1)%Z then slice_to symbol dot_index else symbol in
  let self :=
    mk symbol
       (DataStorage.__init__ symbol (_NEWS_DATA_DIR env) None None)
       (DataStorage.__init__ symbol (_SOCIAL_SENTIMENT_DATA_DIR env) None None) in
  match _load_data fs self with
  | (Ok _, self') => Ok self'
  | (Raise e, _) => Raise e
  end.

(** The [cross_check] dictionary: its ["series"] and its ["dict_key"]. *)
Record cross_check_t : Type := mkCrossCheck {
  series : list cell;
  dict_key : string
}.

(** How the [while True] loop of [_read_entries] ended: at its first
    [break], at its second [break], or on an exception. *)
Inductive stop : Type :=
| EMPTY_PAGE
| CROSS_CHECK_HIT
| LOOP_RAISED (e : exn).

Record loop_end : Type := mkLoopEnd {
  why : stop;
  response_list : list pd.record;
  curr_page : Z;
  (** the value of [loop_start_time] in each iteration, in order *)
  loop_starts : list Q;
  (** the clock when the loop is left *)
  clock_after : Q
}.

(** The loop of [_read_entries] (lines 254 to 280).  The clock only moves
    during [requests.get] and during [time.sleep]; the other statements
    take no time. *)
Fixpoint paging (env : Env) (url : string) (cross_check : option cross_check_t)
         (fuel : nat) (curr_page : Z) (response_list : list pd.record)
         (clock : Q) (starts : list Q) : loop_end :=
  match fuel with
  | O => mkLoopEnd (LOOP_RAISED OutOfFuel) response_list curr_page starts clock
  | S fuel' =>
      let loop_start_time := clock in
      let starts := starts ++ [loop_start_time] in
      let curr_page := (curr_page + 1)%Z in
      let curr_url := replace url _PAGE_PLACEHOLDER (str_of_Z curr_page) in
      let curr_response_list := http_get env curr_url in
      let clock := (clock + request_seconds env curr_page)%Q in
      if Nat.eqb (List.length curr_response_list) 0
      then mkLoopEnd EMPTY_PAGE response_list curr_page starts clock
      else
        let response_list := response_list ++ curr_response_list in
        let next := fun _ : unit =>
          (* delay after each call (except for the last call) *)
          let loop_end_time := clock in
          let loop_total_time := (loop_end_time - loop_start_time)%Q in
          let loop_delay := (CALL_DELAY - loop_total_time)%Q in
          let clock := if Qle_bool loop_delay 0 then clock
                       else (clock + (loop_delay + oversleep env curr_page))%Q in
          paging env url cross_check fuel' curr_page response_list clock starts in
        match cross_check with
        | None => next tt
        | Some cc =>
            match field_of_last response_list (dict_key cc) with
            | Raise e =>
                mkLoopEnd (LOOP_RAISED e) response_list curr_page starts clock
            | Ok v =>
                if pd.eq_any (series cc) v
                then mkLoopEnd CROSS_CHECK_HIT response_list curr_page starts clock
                else next tt
            end
        end
  end.

(** The url [_read_entries] requests for page [p]. *)
Definition page_url (env : Env) (url : string) (p : Z) : string :=
  replace (replace url _API_KEY_PLACEHOLDER (fmp_api_key env))
          _PAGE_PLACEHOLDER (str_of_Z p).

(** The values a cross-check can match: those of its series that are not
    null (a null equals nothing under [Series.eq]). *)
Definition referenceValues (cc : cross_check_t) : list cell :=
  filter notna (series cc).

(** The statements of [_read_entries] after the loop (lines 282 to 305). *)
Definition tabulate (is_news : bool) (response_list : list pd.record)
  : result pd.DataFrame :=
  if Nat.eqb (List.length response_list) 0 then Raise NoData
  else
    (* convert response to pandas dataframe *)
    let response_df := pd.json_normalize response_list in
    (* rename date column from the news endpoint *)
    let response_df :=
      if is_news
      then pd.rename_columns
             (fun n => if String.eqb n "publishedDate" then "date" else n) response_df
      else response_df in
    (* set date as index *)
    match pd.set_index "date" response_df with
    | Raise _ =>
        rbind (pd.first_row_values response_df) (fun values =>
          Raise (MissingKey values))
    | Ok response_df =>
        (* convert column names from camelCase to snake_case *)
        Ok (pd.rename_columns camel_case_to_snake_case response_df)
    end.

(** [_read_entries(url, cross_check)], with the loop run from clock 0. *)
Definition _read_entries (env : Env) (fuel : nat) (url : string)
           (cross_check : option cross_check_t) : result pd.DataFrame :=
  let url := replace url _API_KEY_PLACEHOLDER (fmp_api_key env) in
  let is_news := prefix _NEWS_BASE_URL url in
  let e := paging env url cross_check fuel (-1) [] 0 [] in
  match why e with
  | LOOP_RAISED x => Raise x
  | _ => tabulate is_news (response_list e)
  end.

(** [list(set(a) - set(b))] *)
Definition missing_labels (env : Env) (a b : list cell) : list cell :=
  list_of_label_set env
    (pd.uniq_cells [] (filter (fun x => negb (pd.mem_cell x b)) a)).
Definition missing_names (env : Env) (a b : list string) : list string :=
  list_of_name_set env
    (pd.uniq_names [] (filter (fun x => negb (pd.mem_name x b)) a)).

(** [_add_entries_to_ds(ds, entries)]; [ds.df] is mutated in place. *)
Definition _add_entries_to_ds (env : Env) (entries : pd.DataFrame)
  : M DataStorage.t unit :=
  ds <- get ;;
  (* find rows and columns in entries that are not in ds *)
  let missing_rows :=
    missing_labels env (pd.index entries) (pd.index (DataStorage.df ds)) in
  let missing_columns :=
    missing_names env (pd.columns entries) (pd.columns (DataStorage.df ds)) in
  (* add missing rows and columns to ds *)
  for_each missing_rows (fun row =>
    ds <- get ;;
    DataStorage.set_df (pd.loc_set_row row NaN (DataStorage.df ds))) ;;;
  for_each missing_columns (fun column =>
    ds <- get ;;
    d <- lift (pd.loc_set_col column NaN (DataStorage.df ds)) ;;
    DataStorage.set_df d) ;;;
  (* update ds *)
  ds <- get ;;
  d <- lift (pd.update entries (DataStorage.df ds)) ;;
  DataStorage.set_df d.

(** The object and the files it persists to. *)
Record world : Type := mkWorld {
  self : t;
  files : filesystem
}.

Definition on_self {A} (m : M t A) : M world A :=
  fun w => let (r, s) := m (self w) in (r, mkWorld s (files w)).

(** The first statements of [read_news] (lines 77 to 82): the url of the
    symbol, and the cross-check on the titles already stored. *)
Definition news_url (self : t) : string :=
  replace _NEWS_URL _SYMBOL_PLACEHOLDER (symbol self).

Definition news_cross_check (news : pd.DataFrame) : result (option cross_check_t) :=
  if 0 <? List.length (pd.rows news)
  then rbind (pd.get_col news "title") (fun s => Ok (Some (mkCrossCheck s "title")))
  else Ok None.

(** [read_news()] *)
Definition read_news (env : Env) (fuel : nat) : M world unit :=
  w <- get ;;
  let url := news_url (self w) in
  cross_check <- lift (news_cross_check (DataStorage.df (news_ds (self w)))) ;;
  entries <- lift (_read_entries env fuel url cross_check) ;;
  (* remove non-required columns *)
  let columns_to_remove := ["symbol"; "image"] in
  entries <- lift (pd.drop_columns columns_to_remove entries) ;;
  (* add entries to ds *)
  on_self (on_news (_add_entries_to_ds env entries)) ;;;
  (* sort and save the downloaded data *)
  on_self (on_news (DataStorage.sort_ds_dates env (DEFAULT_DATE_FORMAT env))) ;;;
  w <- get ;;
  put (mkWorld (self w)
               (DataStorage.save_data (news_ds (self w)) true None (files w))).

(** [read_social_sentiment()]: its first statement reads
    [FMP._SOCIAL_SENTIMENT_URL], which the class does not define. *)
Definition read_social_sentiment (env : Env) (fuel : nat) : M world unit :=
  throw (AttributeError "_SOCIAL_SENTIMENT_URL").

(** [get_news_data_dir()] *)
Definition get_news_data_dir (env : Env) : string := _NEWS_DATA_DIR env.

(** What [SentimentIntensityAnalyzer.polarity_scores] returns: the three
    shares, kept as the cells they are stored as, and the compound score. *)
Record scores : Type := mkScores {
  neg : cell;
  neu : cell;
  pos : cell;
  compound : Q
}.

(** [row[c]] of a row of [iterrows]: the cell, or no value when the frame
    has no such column (a [KeyError]). *)
Definition row_field (d : pd.DataFrame) (r : pd.row) (c : string) : option cell :=
  match pd.position c (pd.columns d) with
  | Some j => Some (pd.cell_of r j)
  | None => None
  end.

(** The two nested [try] of lines 118 to 127: the scores of the text, else
    of the title, else nothing.  [polarity_scores] answers [None] where the
    analyzer raises. *)
Definition scores_of_row (polarity_scores : cell -> option scores)
           (d : pd.DataFrame) (r : pd.row) : option scores :=
  let attempt := fun c =>
    match row_field d r c with
    | Some text => polarity_scores text
    | None => None
    end in
  match attempt "text" with
  | Some s => Some s
  | None => attempt "title"
  end.

(** Lines 134 to 142: the sentiment and its probability. *)
Definition overall (s : scores) : cell * cell :=
  if Qle_bool (5 # 100) (compound s) then (Num 1, pos s)
  else if Qle_bool (compound s) (- (5 # 100)) then (Num (-1), neg s)
  else (Num 0, neu s).

(** The body of the loop of [add_sentiment_to_news] for one row of
    [partial_df]. *)
Definition add_sentiment_to_row (polarity_scores : cell -> option scores)
           (partial_df : pd.DataFrame) (r : pd.row) : M DataStorage.t unit :=
  let idx := fst r in
  let (overall_sentiment, sentiment_probability) :=
    match scores_of_row polarity_scores partial_df r with
    | Some s => overall s
    | None => (Num 0, Num 0)
    end in
  ds <- get ;;
  DataStorage.set_df
    (pd.loc_set_cell idx "sentiment_probability" sentiment_probability
       (pd.loc_set_cell idx "sentiment" overall_sentiment (DataStorage.df ds))).

(** [add_sentiment_to_news()] *)
Definition add_sentiment_to_news (polarity_scores : cell -> option scores)
  : M world unit :=
  w <- get ;;
  let news := DataStorage.df (news_ds (self w)) in
  if Nat.eqb (List.length (pd.rows news)) 0 then ret tt
  else
    (* extract and update rows that have no sentiment *)
    sentiment <- lift (pd.get_col news "sentiment") ;;
    let partial_df := pd.select_rows (map isna sentiment) news in
    on_self (on_news (for_each (pd.rows partial_df)
                        (add_sentiment_to_row polarity_scores partial_df))) ;;;
    (* save the dataset *)
    w <- get ;;
    put (mkWorld (self w)
                 (DataStorage.save_data (news_ds (self w)) true None (files w))).

End FMP.

(** ** printcontrol.py *)

Module printcontrol.

Local Open Scope py_scope.

(** The two module variables, and what was written to [stdout] so far. *)
Record t : Type := mk {
  _last_line_length : nat;
  last_line : string;
  stdout : list string
}.

Definition initial : t := mk 0 EmptyString [].

Definition write (text : string) : M t unit :=
  fun s => (Ok tt, mk (_last_line_length s) (last_line s) (stdout s ++ [text])).

Fixpoint spaces (n : nat) : string :=
  match n with
  | O => EmptyString
  | S k => String " " (spaces k)
  end.

Definition carriage_return : string := String (ascii_of_nat 13) EmptyString.
Definition line_feed : string := String (ascii_of_nat 10) EmptyString.

(** [reprint(text)] *)
Definition reprint (text : string) : M t unit :=
  s <- get ;;
  (* clear line *)
  write carriage_return ;;;
  write (spaces (_last_line_length s)) ;;;
  (* return to start *)
  write carriage_return ;;;
  (* write updated line *)
  write text ;;;
  (* update last line length *)
  s <- get ;;
  put (mk (String.length text) text (stdout s)).

(** [new_line()] *)
Definition new_line : M t unit :=
  write line_feed ;;;
  s <- get ;;
  put (mk 0 EmptyString (stdout s)).

End printcontrol.

(* ------------------------------------------------------------------ *)
(** ** Notions used in the statements *)
(* ------------------------------------------------------------------ *)

Local Open Scope string_scope.

(** *** Symbols *)

(** The text holds no ['.']. *)
Definition no_dot (s : string) : Prop := ~ In "."%char (list_ascii_of_string s).

(** Actions on a storage that leave its file path alone. *)
Definition keeps_path {A} (m : M DataStorage.t A) : Prop :=
  forall ds r ds', m ds = (r, ds') ->
    DataStorage.file_path ds' = DataStorage.file_path ds.

(** Two objects of the same symbol and the same two storage files. *)
Definition same_identity (a b : FMP.t) : Prop :=
  FMP.symbol a = FMP.symbol b /\
  DataStorage.file_path (FMP.news_ds a) = DataStorage.file_path (FMP.news_ds b) /\
  DataStorage.file_path (FMP.social_sentiment_ds a)
  = DataStorage.file_path (FMP.social_sentiment_ds b).

Definition keeps_identity {A} (m : M FMP.t A) : Prop :=
  forall s r s', m s = (r, s') -> same_identity s' s.

(** *** Comparison operators *)

Definition known_operator (condition : string) : bool :=
  String.eqb condition "gt" || String.eqb condition "lt"
  || String.eqb condition "eq" || String.eqb condition "neq".

(** The specification's reading of section 7: whichever of the three
    methods is given another operator, the caller gets an exception. *)
Definition unknown_operator_always_raises : Prop :=
  forall (ds : DataStorage.t) (column condition : string) (value : option cell)
         (columns_to_update : list string) (update_value : cell),
    known_operator condition = false ->
    raises (fst (DataStorage.get_rows_by_condition column condition value ds)) /\
    raises (fst (DataStorage.update_rows column condition value
                   columns_to_update update_value ds)) /\
    raises (fst (DataStorage.remove_rows_by_condition column condition value ds)).

(** *** The fetch *)

(** Whether [_read_entries] takes [url] for the news endpoint. *)
Definition is_news_url (env : Env) (url : string) : bool :=
  prefix FMP._NEWS_BASE_URL (replace url FMP._API_KEY_PLACEHOLDER (fmp_api_key env)).

(** The loop of [_read_entries] as that method starts it. *)
Definition fetched (env : Env) (fuel : nat) (url : string)
           (cc : option FMP.cross_check_t) : FMP.loop_end :=
  FMP.paging env (replace url FMP._API_KEY_PLACEHOLDER (fmp_api_key env))
             cc fuel (-1) [] 0%Q [].

(** The field names of a response once normalised: the rename of the news
    endpoint, then lower case with underscores. *)
Definition rename_published (is_news : bool) (n : string) : string :=
  if is_news && String.eqb n "publishedDate" then "date" else n.

Definition normalized_names (is_news : bool) (rl : list pd.record) : list string :=
  map camel_case_to_snake_case
      (map (rename_published is_news) (pd.columns (pd.json_normalize rl))).

Definition value_or_null (r : pd.record) (c : string) : cell :=
  match pd.field r c with Some v => v | None => NaN end.

(** *** The clock *)

(** What [time.sleep] is asked for after a request of [t] seconds. *)
Definition sleep_requested (t : Q) : Q := Qmax 0 (FMP.CALL_DELAY - t).

(** The clock at the start of the iteration after the one that started at
    [clock] and fetched page [p] without leaving the loop. *)
Definition next_start (env : Env) (p : Z) (clock : Q) : Q :=
  let after := (clock + request_seconds env p)%Q in
  let loop_delay := (FMP.CALL_DELAY - (after - clock))%Q in
  if Qle_bool loop_delay 0 then after
  else (after + (loop_delay + oversleep env p))%Q.

(** The starts of [n] successive iterations, the first at [clock] on
    page [p]. *)
Fixpoint schedule (env : Env) (p : Z) (clock : Q) (n : nat) : list Q :=
  match n with
  | O => []
  | S n' => clock :: schedule env (p + 1)%Z (next_start env p clock) n'
  end.

(** *** The merge *)

(** [list(a_set)] gives every element of the set once, in some order. *)
Definition enumerates_sets (env : Env) : Prop :=
  (forall l, Permutation (list_of_label_set env l) l) /\
  (forall l, Permutation (list_of_name_set env l) l).

(** The two loops of [_add_entries_to_ds] as functions of the frame. *)
Definition add_rows (labels : list cell) (d : pd.DataFrame) : pd.DataFrame :=
  fold_left (fun d l => pd.loc_set_row l NaN d) labels d.

Fixpoint add_columns (names : list string) (d : pd.DataFrame)
  : result unit * pd.DataFrame :=
  match names with
  | [] => (Ok tt, d)
  | c :: names' =>
      match pd.loc_set_col c NaN d with
      | Ok d' => add_columns names' d'
      | Raise e => (Raise e, d)
      end
  end.

(** [_add_entries_to_ds] as a function of the frame of the storage. *)
Definition merged (env : Env) (entries d : pd.DataFrame) : result unit * pd.DataFrame :=
  let d1 := add_rows (FMP.missing_labels env (pd.index entries) (pd.index d)) d in
  match add_columns (FMP.missing_names env (pd.columns entries) (pd.columns d)) d1 with
  | (Raise e, d2) => (Raise e, d2)
  | (Ok _, d2) =>
      match pd.update entries d2 with
      | Ok d3 => (Ok tt, d3)
      | Raise e => (Raise e, d2)
      end
  end.

(** [entries] holds a value that is not null at label [k] under a column
    named [c]. *)
Definition has_value (entries : pd.DataFrame) (k : cell) (c : string) : Prop :=
  exists (r : pd.row) (p : nat) (v : cell),
    In r (pd.rows entries) /\ fst r = k /\
    nth_error (pd.columns entries) p = Some c /\
    nth_error (snd r) p = Some v /\ v <> NaN.

(** The label, the column name and the cell at a position of a frame. *)
Definition at_position (d : pd.DataFrame) (i j : nat) (k : cell) (c : string)
           (x : cell) : Prop :=
  nth_error (pd.index d) i = Some k /\
  nth_error (pd.columns d) j = Some c /\
  pd.cell_at d i j = Some x.

(** *** The date sort *)

(** The sort under [sort_index] returns its input reordered, latest first. *)
Definition sorts_descending (f : list (Z * list cell) -> list (Z * list cell)) : Prop :=
  forall l, Permutation (f l) l /\ pd.is_monotonic_decreasing (map fst (f l)) = true.

(** Every label of the frame is read as a timestamp under the format. *)
Definition keys_parse (env : Env) (date_format : string) (d : pd.DataFrame) : Prop :=
  Forall (fun k => exists t, DataStorage.to_datetime env date_format k = Ok t)
         (pd.index d).

(** Printing the timestamp read from a label of the frame and reading the
    print again gives the timestamp. *)
Definition prints_back (env : Env) (date_format : string) (d : pd.DataFrame) : Prop :=
  forall k t, In k (pd.index d) ->
    DataStorage.to_datetime env date_format k = Ok t ->
    strptime env date_format (strftime env date_format t) = Some t.

(** The frame of [sort_ds_dates] before its columns are put in order. *)
Definition printed_frame (env : Env) (date_format : string) (d : pd.DataFrame)
           (stamps : list Z) : pd.DataFrame :=
  pd.mkDF (pd.index_name d) (pd.columns d)
    (map (fun kr : Z * list cell => (Str (strftime env date_format (fst kr)), snd kr))
         (pd.sort_index_descending (sorter env)
            (combine stamps (map snd (pd.rows d))))).

(** The order of [sorted] on names. *)
Definition name_le (a b : string) : Prop := String.leb a b = true.

(** *** The intersection *)

(** The values of column [c], or nothing when [df[c]] is no Series. *)
Definition column_values (d : pd.DataFrame) (c : string) : list cell :=
  match pd.get_col d c with Ok s => s | Raise _ => [] end.

(** The rows of [d] whose value under [c] is in [common], in the order of
    [d]. *)
Definition rows_with_key_in (common : list cell) (c : string) (d : pd.DataFrame)
  : pd.DataFrame :=
  match pd.position c (pd.columns d) with
  | Some j =>
      pd.mkDF (pd.index_name d) (pd.columns d)
              (filter (fun r : pd.row => pd.mem_cell (pd.cell_of r j) common) (pd.rows d))
  | None => d
  end.

(** A column name that is not another name with the suffix of a merge. *)
Definition plain_name (c : string) : Prop :=
  forall n, c <> n ++ "_x" /\ c <> n ++ "_y".

(** The values that are not null are pairwise of one kind. *)
Definition same_kinds (l : list cell) : Prop :=
  forall x y, In x l -> In y l ->
    isna x = true \/ isna y = true \/ pd.kind x = pd.kind y.

(** *** Runs of the fetch loop *)

(** What the remote answers for page [p] of [url] (the url after the API
    key is in). *)
Definition page_of (env : Env) (url : string) (p : Z) : list pd.record :=
  http_get env (replace url FMP._PAGE_PLACEHOLDER (str_of_Z p)).

(** The pages [from], [from + 1], ... ([n] of them), one after the other. *)
Fixpoint pages_from (env : Env) (url : string) (from : Z) (n : nat) : list pd.record :=
  match n with
  | O => []
  | S k => (page_of env url from ++ pages_from env url (from + 1)%Z k)%list
  end.

(** A page after which the loop goes on: it holds a record and, under a
    cross-check, its last record has the field and the field matches
    nothing of the series. *)
Definition goes_on (cc : option FMP.cross_check_t) (records : list pd.record) : Prop :=
  records <> [] /\
  match cc with
  | None => True
  | Some c => exists v, field_of_last records (FMP.dict_key c) = Ok v /\
                        pd.eq_any (FMP.series c) v = false
  end.

(** *** Names *)

(** No character of the text is an upper-case ASCII letter. *)
Fixpoint no_upper (s : string) : bool :=
  match s with
  | EmptyString => true
  | String c s' => negb (is_upper c) && no_upper s'
  end.

(** *** Conditions *)

(** What a known operator asks of one cell. *)
Definition operator_test (condition : string) (value : option cell) (x : cell)
  : result bool :=
  if String.eqb condition "gt" then pd.py_gt x value
  else if String.eqb condition "lt" then pd.py_lt x value
  else if String.eqb condition "eq" then
    Ok (match value with Some v => pd.py_eq x v | None => isna x end)
  else
    Ok (match value with Some v => negb (pd.py_eq x v) | None => notna x end).

(** The cell of a row under the column named [c] of the frame [d]. *)
Definition under (d : pd.DataFrame) (c : string) (r : pd.row) : cell :=
  match pd.position c (pd.columns d) with
  | Some j => pd.cell_of r j
  | None => NaN
  end.

(** A label as [sort_ds_dates] prints it back. *)
Definition reprinted (env : Env) (date_format : string) (k : cell) : cell :=
  match DataStorage.to_datetime env date_format k with
  | Ok t => Str (strftime env date_format t)
  | Raise _ => k
  end.

(** *** Sentiments *)

(** The sentiment and its probability that the loop of
    [add_sentiment_to_news] writes for a row of [partial_df]. *)
Definition verdict (polarity_scores : cell -> option FMP.scores)
           (partial_df : pd.DataFrame) (r : pd.row) : cell * cell :=
  match FMP.scores_of_row polarity_scores partial_df r with
  | Some s => FMP.overall s
  | None => (Num 0, Num 0)
  end.

(** The table after the two assignments of the loop for one row. *)
Definition sentiment_step (polarity_scores : cell -> option FMP.scores)
           (partial_df : pd.DataFrame) (d : pd.DataFrame) (r : pd.row)
  : pd.DataFrame :=
  pd.loc_set_cell (fst r) "sentiment_probability"
    (snd (verdict polarity_scores partial_df r))
    (pd.loc_set_cell (fst r) "sentiment"
       (fst (verdict polarity_scores partial_df r)) d).

(** *** Printing *)

(** A sequence of calls of the module: [Some text] for [reprint(text)],
    [None] for [new_line()]. *)
Definition print_calls (calls : list (option string)) : M printcontrol.t unit :=
  for_each calls (fun c => match c with
                           | Some text => printcontrol.reprint text
                           | None => printcontrol.new_line
                           end).

(* ------------------------------------------------------------------ *)
(** ** A concrete environment and concrete tables, for the examples *)
(* ------------------------------------------------------------------ *)

(** Dates written [YYYY-MM-DD], read as the number [YYYYMMDD]. *)
Definition digit_of (c : ascii) : option Z :=
  let n := nat_of_ascii c in
  if (48 <=? n)%nat && (n <=? 57)%nat then Some (Z.of_nat (n - 48)) else None.

Fixpoint digits_value (s : string) (acc : Z) : option Z :=
  match s with
  | EmptyString => Some acc
  | String c s' =>
      if Ascii.eqb c "-" then digits_value s' acc
      else match digit_of c with
           | Some d => digits_value s' (acc * 10 + d)%Z
           | None => None
           end
  end.

Definition demo_strptime (date_format text : string) : option Z :=
  if String.eqb text EmptyString then None else digits_value text 0.

Definition demo_strftime (date_format : string) (t : Z) : string :=
  let d := str_of_Z t in
  substring 0 4 d ++ "-" ++ substring 4 2 d ++ "-" ++ substring 6 2 d.

(** Insertion sort, latest first. *)
Fixpoint insert_descending (x : Z * list cell) (l : list (Z * list cell))
  : list (Z * list cell) :=
  match l with
  | [] => [x]
  | y :: l' => if (fst y <=? fst x)%Z then x :: l else y :: insert_descending x l'
  end.
Definition demo_sorter (l : list (Z * list cell)) : list (Z * list cell) :=
  fold_right insert_descending [] l.

(** A remote that knows the symbol BMW (two pages of news) and the symbol
    ODD (one page without any date field). *)
Definition demo_page (symbol page : string) : string :=
  "https://financialmodelingprep.com/api/v3/stock_news?tickers=" ++ symbol
    ++ "&apikey=KEY&page=" ++ page.

Definition demo_article (date title : string) : pd.record :=
  [("symbol", Str "BMW"); ("publishedDate", Str date); ("title", Str title);
   ("image", NaN); ("text", Str "...")].

Definition demo_http_get (url : string) : list pd.record :=
  if String.eqb url (demo_page "BMW" "0")
  then [demo_article "2021-05-04" "New model"; demo_article "2021-05-03" "Results"]
  else if String.eqb url (demo_page "BMW" "1")
  then [demo_article "2021-05-02" "Recall"; demo_article "2021-05-01" "Strike"]
  else if String.eqb url (demo_page "ODD" "0")
  then [[("symbol", Str "ODD"); ("title", Str "No date here")];
        [("symbol", Str "ODD"); ("title", Str "Nor here"); ("headline", Str "x")]]
  else [].

Definition demo_env : Env :=
  mkEnv "KEY" "/srv/app" "%Y-%m-%d" "%Y-%m-%d %H:%M:%S"
        demo_strptime demo_strftime
        (fun l => l) (fun l => l) demo_sorter
        demo_http_get
        (fun p => if (p =? 0)%Z then (1 # 10)%Q else (3 # 10)%Q)
        (fun _ => (1 # 100)%Q).

(** A store of two articles, and a batch that overlaps it. *)
Definition demo_table : pd.DataFrame :=
  pd.mkDF (Some "date") ["title"; "sentiment"]
    [(Str "2021-05-01", [Str "Strike"; Num 1]);
     (Str "2021-05-03", [Str "Results"; NaN])].

Definition demo_storage : DataStorage.t :=
  DataStorage.mk "Bmw" "/srv/app/fmp/news/BMW.csv" None None demo_table.

Definition demo_batch : pd.DataFrame :=
  pd.mkDF (Some "date") ["title"; "text"]
    [(Str "2021-05-03", [NaN; Str "..."]);
     (Str "2021-05-04", [Str "New model"; Str "..."])].

Definition demo_object : FMP.t :=
  FMP.mk "BMW" demo_storage
         (DataStorage.mk "Bmw" "/srv/app/fmp/social_sentiment/BMW.csv" None None
                         (pd.mkDF (Some "date") [] [])).

Definition demo_world (symbol : string) : FMP.world :=
  FMP.mkWorld (FMP.mk symbol demo_storage (FMP.social_sentiment_ds demo_object)) [].

(** Three tables sharing the column [date]. *)
Definition demo_prices : pd.DataFrame :=
  pd.mkDF None ["date"; "close"]
    [(Num 0, [Str "2021-05-03"; Num 80]); (Num 1, [Str "2021-05-01"; Num 79]);
     (Num 2, [Str "2021-05-02"; Num 78])].
Definition demo_scores : pd.DataFrame :=
  pd.mkDF None ["score"; "date"]
    [(Num 0, [Num 1; Str "2021-05-01"]); (Num 1, [Num 0; Str "2021-05-03"]);
     (Num 2, [Num 1; Str "2021-05-03"]); (Num 3, [Num 1; Str "2021-04-30"])].
Definition demo_volumes : pd.DataFrame :=
  pd.mkDF None ["date"; "close"]
    [(Num 0, [Str "2021-05-03"; Num 5]); (Num 1, [Str "2021-05-05"; Num 7])].

(* ================================================================== *)
(** * Part II: lemmas and theorems *)
(* ================================================================== *)

(* ------------------------------------------------------------------ *)
(** ** The upsert merge: [FMP._add_entries_to_ds] *)
(* ------------------------------------------------------------------ *)

Lemma with_df_df ds : DataStorage.with_df ds (DataStorage.df ds) = ds.
Proof. destruct ds; reflexivity. Qed.

Lemma with_df_with_df ds d d' :
  DataStorage.with_df (DataStorage.with_df ds d) d' = DataStorage.with_df ds d'.
Proof. reflexivity. Qed.

Lemma df_with_df ds d : DataStorage.df (DataStorage.with_df ds d) = d.
Proof. reflexivity. Qed.

Lemma for_each_rows labels : forall ds,
  for_each labels (fun row : cell =>
    bind get (fun ds : DataStorage.t =>
      DataStorage.set_df (pd.loc_set_row row NaN (DataStorage.df ds)))) ds
  = (Ok tt, DataStorage.with_df ds (add_rows labels (DataStorage.df ds))).
Proof.
  induction labels as [|l labels IH]; intros ds.
  - simpl. unfold ret. now rewrite with_df_df.
  - cbn [for_each]. unfold bind at 1. unfold bind at 1. unfold get at 1.
    unfold DataStorage.set_df at 1. rewrite IH. reflexivity.
Qed.

Lemma for_each_columns names : forall ds,
  for_each names (fun column : string =>
    bind get (fun ds : DataStorage.t =>
      bind (lift (pd.loc_set_col column NaN (DataStorage.df ds)))
           (fun d => DataStorage.set_df d))) ds
  = (fst (add_columns names (DataStorage.df ds)),
     DataStorage.with_df ds (snd (add_columns names (DataStorage.df ds)))).
Proof.
  induction names as [|c names IH]; intros ds.
  - simpl. unfold ret. now rewrite with_df_df.
  - cbn [for_each add_columns]. unfold bind at 1. unfold bind at 1.
    unfold get at 1. unfold bind at 1. unfold lift at 1.
    destruct (pd.loc_set_col c NaN (DataStorage.df ds)) as [d'|e].
    + unfold DataStorage.set_df at 1. rewrite IH. reflexivity.
    + simpl. now rewrite with_df_df.
Qed.


Lemma add_entries_merged env entries ds :
  FMP._add_entries_to_ds env entries ds
  = (fst (merged env entries (DataStorage.df ds)),
     DataStorage.with_df ds (snd (merged env entries (DataStorage.df ds)))).
Proof.
  unfold FMP._add_entries_to_ds, merged.
  unfold bind at 1. unfold get at 1.
  unfold bind at 1. rewrite for_each_rows.
  unfold bind at 1. rewrite for_each_columns. rewrite df_with_df.
  destruct (add_columns _ _) as [[u|e] d2]; cbn [fst snd]; [|reflexivity].
  unfold bind, get, lift. rewrite df_with_df.
  destruct (pd.update entries d2); reflexivity.
Qed.

(** *** Membership *)

Lemma cell_eqb_eq a b : cell_eqb a b = true <-> a = b.
Proof. unfold cell_eqb. destruct (cell_eq_dec a b); split; congruence. Qed.

Lemma cell_eqb_refl a : cell_eqb a a = true.
Proof. now apply cell_eqb_eq. Qed.

Lemma mem_cell_In c l : pd.mem_cell c l = true <-> In c l.
Proof.
  unfold pd.mem_cell. rewrite existsb_exists. split.
  - intros (x & Hx & He). apply cell_eqb_eq in He. now subst.
  - intros H. exists c. split; [exact H|apply cell_eqb_refl].
Qed.

Lemma mem_cell_false c l : pd.mem_cell c l = false <-> ~ In c l.
Proof.
  rewrite <- mem_cell_In. destruct (pd.mem_cell c l); split; intros; congruence.
Qed.

Lemma mem_name_In c l : pd.mem_name c l = true <-> In c l.
Proof.
  unfold pd.mem_name. rewrite existsb_exists. split.
  - intros (x & Hx & He). apply String.eqb_eq in He. now subst.
  - intros H. exists c. split; [exact H|apply String.eqb_refl].
Qed.

Lemma mem_name_false c l : pd.mem_name c l = false <-> ~ In c l.
Proof.
  rewrite <- mem_name_In. destruct (pd.mem_name c l); split; intros; congruence.
Qed.

Lemma uniq_cells_In l : forall seen x,
  In x (pd.uniq_cells seen l) <-> In x l /\ ~ In x seen.
Proof.
  induction l as [|y l IH]; intros seen x; simpl; [tauto|].
  destruct (pd.mem_cell y seen) eqn:E.
  - apply mem_cell_In in E. rewrite IH. split.
    + tauto.
    + intros [[->|H] Hn]; [contradiction|tauto].
  - apply mem_cell_false in E. simpl. rewrite IH. simpl. split.
    + intros [->|[H Hn]]; [tauto|]. split; [tauto|]. intro; apply Hn; auto.
    + intros [[->|H] Hn]; [tauto|].
      destruct (cell_eq_dec y x); [tauto|]. right. split; [exact H|].
      intros [h|h]; congruence.
Qed.

Lemma uniq_cells_NoDup l : forall seen, NoDup (pd.uniq_cells seen l).
Proof.
  induction l as [|y l IH]; intros seen; simpl; [constructor|].
  destruct (pd.mem_cell y seen); [apply IH|].
  constructor; [|apply IH]. rewrite uniq_cells_In. simpl. tauto.
Qed.

Lemma uniq_names_In l : forall seen x,
  In x (pd.uniq_names seen l) <-> In x l /\ ~ In x seen.
Proof.
  induction l as [|y l IH]; intros seen x; simpl; [tauto|].
  destruct (pd.mem_name y seen) eqn:E.
  - apply mem_name_In in E. rewrite IH. split.
    + tauto.
    + intros [[->|H] Hn]; [contradiction|tauto].
  - apply mem_name_false in E. simpl. rewrite IH. simpl. split.
    + intros [->|[H Hn]]; [tauto|]. split; [tauto|]. intro; apply Hn; auto.
    + intros [[->|H] Hn]; [tauto|].
      destruct (string_dec y x); [tauto|]. right. split; [exact H|].
      intros [h|h]; congruence.
Qed.

Lemma uniq_names_NoDup l : forall seen, NoDup (pd.uniq_names seen l).
Proof.
  induction l as [|y l IH]; intros seen; simpl; [constructor|].
  destruct (pd.mem_name y seen); [apply IH|].
  constructor; [|apply IH]. rewrite uniq_names_In. simpl. tauto.
Qed.

Section MissingSets.
Variable env : Env.
Hypothesis Henum : enumerates_sets env.

Lemma missing_labels_In a b x :
  In x (FMP.missing_labels env a b) <-> In x a /\ ~ In x b.
Proof.
  unfold FMP.missing_labels. destruct Henum as [Hl _]. split.
  - intros H. apply (Permutation_in _ (Hl _)) in H.
    apply uniq_cells_In in H. destruct H as [H _].
    apply filter_In in H. destruct H as [H1 H2].
    split; [exact H1|]. apply mem_cell_false. now destruct (pd.mem_cell x b).
  - intros [H1 H2]. apply (Permutation_in _ (Permutation_sym (Hl _))).
    apply uniq_cells_In. split; [|tauto]. apply filter_In. split; [exact H1|].
    apply mem_cell_false in H2. now rewrite H2.
Qed.

Lemma missing_labels_NoDup a b : NoDup (FMP.missing_labels env a b).
Proof.
  unfold FMP.missing_labels. destruct Henum as [Hl _].
  eapply Permutation_NoDup; [apply Permutation_sym, Hl|apply uniq_cells_NoDup].
Qed.

Lemma missing_names_In a b x :
  In x (FMP.missing_names env a b) <-> In x a /\ ~ In x b.
Proof.
  unfold FMP.missing_names. destruct Henum as [_ Hl]. split.
  - intros H. apply (Permutation_in _ (Hl _)) in H.
    apply uniq_names_In in H. destruct H as [H _].
    apply filter_In in H. destruct H as [H1 H2].
    split; [exact H1|]. apply mem_name_false. now destruct (pd.mem_name x b).
  - intros [H1 H2]. apply (Permutation_in _ (Permutation_sym (Hl _))).
    apply uniq_names_In. split; [|tauto]. apply filter_In. split; [exact H1|].
    apply mem_name_false in H2. now rewrite H2.
Qed.

Lemma missing_names_NoDup a b : NoDup (FMP.missing_names env a b).
Proof.
  unfold FMP.missing_names. destruct Henum as [_ Hl].
  eapply Permutation_NoDup; [apply Permutation_sym, Hl|apply uniq_names_NoDup].
Qed.

Lemma missing_labels_covered a b :
  (forall x, In x a -> In x b) -> FMP.missing_labels env a b = [].
Proof.
  intros H. destruct (FMP.missing_labels env a b) as [|x l] eqn:E; [reflexivity|].
  assert (Hx : In x (FMP.missing_labels env a b)) by (rewrite E; simpl; auto).
  apply missing_labels_In in Hx. destruct Hx as [H1 H2]. exfalso; auto.
Qed.

Lemma missing_names_covered a b :
  (forall x, In x a -> In x b) -> FMP.missing_names env a b = [].
Proof.
  intros H. destruct (FMP.missing_names env a b) as [|x l] eqn:E; [reflexivity|].
  assert (Hx : In x (FMP.missing_names env a b)) by (rewrite E; simpl; auto).
  apply missing_names_In in Hx. destruct Hx as [H1 H2]. exfalso; auto.
Qed.
End MissingSets.

(** *** Shape of the frame through the merge *)

Lemma loc_set_row_columns l v d : pd.columns (pd.loc_set_row l v d) = pd.columns d.
Proof. unfold pd.loc_set_row. now destruct (pd.mem_cell l (pd.index d)). Qed.

Lemma loc_set_row_new l v d :
  ~ In l (pd.index d) ->
  pd.loc_set_row l v d
  = pd.mkDF (pd.index_name d) (pd.columns d)
            (pd.rows d ++ [(l, repeat v (List.length (pd.columns d)))])%list.
Proof.
  intros H. unfold pd.loc_set_row. apply mem_cell_false in H. now rewrite H.
Qed.

Lemma loc_set_row_index l v d x :
  In x (pd.index (pd.loc_set_row l v d)) <-> x = l \/ In x (pd.index d).
Proof.
  unfold pd.loc_set_row. destruct (pd.mem_cell l (pd.index d)) eqn:E.
  - apply mem_cell_In in E. unfold pd.index. simpl. rewrite map_map.
    assert (Hi : map (fun r : pd.row =>
                   fst (if cell_eqb (fst r) l
                        then (fst r, map (fun _ => v) (snd r)) else r)) (pd.rows d)
                 = map fst (pd.rows d)).
    { apply map_ext. intros r. now destruct (cell_eqb (fst r) l). }
    rewrite Hi. split; [tauto|]. intros [->|H]; auto.
  - unfold pd.index. simpl. rewrite map_app, in_app_iff. simpl. split.
    + intros [H|[H|[]]]; auto.
    + intros [->|H]; auto.
Qed.

Lemma loc_set_row_nonempty l v d : pd.rows (pd.loc_set_row l v d) <> [].
Proof.
  unfold pd.loc_set_row. destruct (pd.mem_cell l (pd.index d)) eqn:E; simpl.
  - apply mem_cell_In in E. unfold pd.index in E.
    destruct (pd.rows d); [contradiction|discriminate].
  - destruct (pd.rows d); discriminate.
Qed.

Lemma add_rows_columns labels : forall d,
  pd.columns (add_rows labels d) = pd.columns d.
Proof.
  induction labels as [|l labels IH]; intros d; [reflexivity|].
  unfold add_rows in *. simpl. now rewrite IH, loc_set_row_columns.
Qed.

Lemma add_rows_index labels : forall d x,
  In x (pd.index (add_rows labels d)) <-> In x labels \/ In x (pd.index d).
Proof.
  induction labels as [|l labels IH]; intros d x; [simpl; tauto|].
  unfold add_rows in *. simpl. rewrite IH, loc_set_row_index. intuition.
Qed.

Lemma add_rows_keeps_nonempty labels : forall d,
  pd.rows d <> [] -> pd.rows (add_rows labels d) <> [].
Proof.
  induction labels as [|l labels IH]; intros d H; [exact H|].
  unfold add_rows in *. simpl. apply IH, loc_set_row_nonempty.
Qed.

Lemma add_rows_nonempty labels d :
  labels <> [] -> pd.rows (add_rows labels d) <> [].
Proof.
  destruct labels as [|l labels]; [congruence|]. intros _.
  unfold add_rows. simpl. apply (add_rows_keeps_nonempty labels).
  apply loc_set_row_nonempty.
Qed.

Lemma frame_without_rows d :
  pd.rows d = [] -> pd.mkDF (pd.index_name d) (pd.columns d) [] = d.
Proof. destruct d; simpl; intros ->; reflexivity. Qed.

Lemma set_column_index c v d : pd.index (pd.set_column c v d) = pd.index d.
Proof.
  unfold pd.set_column, pd.index.
  destruct (pd.position c (pd.columns d)); simpl; rewrite map_map; reflexivity.
Qed.

Lemma set_column_columns c v d x :
  In x (pd.columns (pd.set_column c v d)) <-> x = c \/ In x (pd.columns d).
Proof.
  unfold pd.set_column. destruct (pd.position c (pd.columns d)) eqn:E; simpl.
  - split; [tauto|]. intros [->|H]; [|exact H].
    destruct (in_dec string_dec c (pd.columns d)) as [Hi|Hn]; [exact Hi|].
    exfalso. clear - E Hn. revert n E. induction (pd.columns d) as [|y l IH];
      intros n E; simpl in *; [discriminate|].
    destruct (String.eqb_spec y c); [tauto|].
    destruct (pd.position c l) eqn:E'; [|discriminate].
    apply (IH ltac:(tauto) _ eq_refl).
  - rewrite in_app_iff. simpl. split.
    + intros [H|[H|[]]]; auto.
    + intros [->|H]; auto.
Qed.

Lemma set_column_empty c v d :
  pd.rows d = [] -> In c (pd.columns d) -> pd.set_column c v d = d.
Proof.
  intros Hr Hc. unfold pd.set_column.
  destruct (pd.position c (pd.columns d)) eqn:E.
  - rewrite Hr. simpl. now apply frame_without_rows.
  - exfalso. clear - E Hc. induction (pd.columns d) as [|y l IH]; simpl in *;
      [contradiction|].
    destruct (String.eqb_spec y c); [discriminate|].
    destruct (pd.position c l); [discriminate|]. destruct Hc; [congruence|auto].
Qed.

Lemma set_column_rows_nonempty c v d :
  pd.rows d <> [] -> pd.rows (pd.set_column c v d) <> [].
Proof.
  unfold pd.set_column. destruct (pd.position c (pd.columns d)); simpl;
    destruct (pd.rows d); simpl; congruence.
Qed.

Lemma add_columns_without_rows names : forall d,
  pd.rows d = [] -> snd (add_columns names d) = d.
Proof.
  induction names as [|c names IH]; intros d Hr; [reflexivity|].
  simpl. unfold pd.loc_set_col. destruct (pd.mem_name c (pd.columns d)) eqn:E.
  - apply mem_name_In in E. rewrite (set_column_empty c NaN d Hr E). now apply IH.
  - rewrite Hr. reflexivity.
Qed.

Lemma add_columns_with_rows names : forall d,
  pd.rows d <> [] ->
  fst (add_columns names d) = Ok tt /\
  pd.index (snd (add_columns names d)) = pd.index d /\
  (forall x, In x (pd.columns (snd (add_columns names d)))
             <-> In x names \/ In x (pd.columns d)).
Proof.
  induction names as [|c names IH]; intros d Hr.
  - simpl. repeat split; tauto.
  - simpl.
    assert (E : pd.loc_set_col c NaN d = Ok (pd.set_column c NaN d)).
    { unfold pd.loc_set_col. destruct (pd.mem_name c (pd.columns d)); [reflexivity|].
      destruct (pd.rows d); [congruence|reflexivity]. }
    rewrite E.
    destruct (IH (pd.set_column c NaN d) (set_column_rows_nonempty c NaN d Hr))
      as (H1 & H2 & H3).
    split; [exact H1|]. split; [now rewrite H2, set_column_index|].
    intros x. rewrite H3, set_column_columns. intuition.
Qed.

Lemma add_columns_raise names d e d2 :
  add_columns names d = (Raise e, d2) -> pd.rows d = [] /\ d2 = d.
Proof.
  intros H. destruct (pd.rows d) as [|r rs] eqn:Hr.
  - split; [reflexivity|].
    pose proof (add_columns_without_rows names d Hr) as Hs. now rewrite H in Hs.
  - destruct (add_columns_with_rows names d) as (H1 & _); [congruence|].
    rewrite H in H1. discriminate.
Qed.

(** *** [update] *)

Lemma overlay_cell_idem x y :
  pd.overlay_cell (pd.overlay_cell x y) y = pd.overlay_cell x y.
Proof. unfold pd.overlay_cell. now destruct (isna y). Qed.

Lemma overlay_cells_idem this : forall that,
  pd.overlay_cells (pd.overlay_cells this that) that = pd.overlay_cells this that.
Proof.
  induction this as [|x this IH]; intros [|y that]; simpl; try reflexivity.
  now rewrite overlay_cell_idem, IH.
Qed.

Lemma overlay_rows_idem this : forall that,
  pd.overlay_rows (pd.overlay_rows this that) that = pd.overlay_rows this that.
Proof.
  induction this as [|x this IH]; intros [|y that]; simpl; try reflexivity.
  now rewrite overlay_cells_idem, IH.
Qed.

Lemma overlay_rows_index this : forall that,
  map fst (pd.overlay_rows this that) = map fst this.
Proof.
  induction this as [|x this IH]; intros [|y that]; simpl; try reflexivity.
  now rewrite IH.
Qed.

Lemma update_shape other self d :
  pd.update other self = Ok d ->
  pd.index d = pd.index self /\ pd.columns d = pd.columns self.
Proof.
  unfold pd.update. destruct (pd.reindex_like other self); simpl; [|discriminate].
  intros H; inversion H; subst. unfold pd.index; simpl.
  now rewrite overlay_rows_index.
Qed.

Lemma update_idem other self d :
  pd.update other self = Ok d -> pd.update other d = Ok d.
Proof.
  intros H. destruct (update_shape _ _ _ H) as [Hi Hc].
  unfold pd.update, pd.reindex_like in *. rewrite Hi, Hc.
  destruct (rbind (pd.reindex_rows (pd.index self) other)
                  (pd.reindex_columns (pd.columns self))) as [a|e];
    simpl in *; [|discriminate].
  inversion H; subst; simpl. now rewrite overlay_rows_idem.
Qed.

Section MergeTwice.
Variable env : Env.
Hypothesis Henum : enumerates_sets env.

Lemma merged_covered entries d :
  (forall x, In x (pd.index entries) -> In x (pd.index d)) ->
  (forall x, In x (pd.columns entries) -> In x (pd.columns d)) ->
  merged env entries d
  = match pd.update entries d with
    | Ok d3 => (Ok tt, d3)
    | Raise e => (Raise e, d)
    end.
Proof.
  intros Hi Hc. unfold merged.
  rewrite (missing_labels_covered env Henum _ _ Hi).
  rewrite (missing_names_covered env Henum _ _ Hc). reflexivity.
Qed.

Lemma add_columns_ok names : forall d u d2,
  add_columns names d = (Ok u, d2) ->
  pd.index d2 = pd.index d /\
  (forall x, In x (pd.columns d2) <-> In x names \/ In x (pd.columns d)).
Proof.
  induction names as [|c names IH]; intros d u d2 H; simpl in H.
  - inversion H; subst. split; [reflexivity|]. simpl; tauto.
  - destruct (pd.loc_set_col c NaN d) as [d'|e] eqn:E; [|discriminate].
    assert (Hd : d' = pd.set_column c NaN d).
    { unfold pd.loc_set_col in E.
      destruct (pd.mem_name c (pd.columns d)); [congruence|].
      destruct (pd.rows d); congruence. }
    subst d'. destruct (IH _ _ _ H) as [H1 H2].
    split; [now rewrite H1, set_column_index|].
    intros x. rewrite H2, set_column_columns. simpl. intuition.
Qed.

Lemma merged_idem entries d :
  merged env entries (snd (merged env entries d)) = merged env entries d.
Proof.
  unfold merged at 2 3.
  set (MR := FMP.missing_labels env (pd.index entries) (pd.index d)).
  set (MC := FMP.missing_names env (pd.columns entries) (pd.columns d)).
  destruct (add_columns MC (add_rows MR d)) as [[u|e] d2] eqn:EC.
  - destruct (add_columns_ok _ _ _ _ EC) as [Hi Hc].
    assert (Hlabels : forall x, In x (pd.index entries) -> In x (pd.index d2)).
    { intros x Hx. rewrite Hi, add_rows_index.
      destruct (in_dec cell_eq_dec x (pd.index d)); [auto|].
      left. apply (missing_labels_In env Henum). auto. }
    assert (Hnames : forall x, In x (pd.columns entries) -> In x (pd.columns d2)).
    { intros x Hx. rewrite Hc, add_rows_columns.
      destruct (in_dec string_dec x (pd.columns d)); [auto|].
      left. apply (missing_names_In env Henum). auto. }
    destruct (pd.update entries d2) as [d3|e] eqn:EU; cbn [snd].
    + destruct (update_shape _ _ _ EU) as [Hi3 Hc3].
      rewrite merged_covered, (update_idem _ _ _ EU); [reflexivity| |].
      * rewrite Hi3. exact Hlabels.
      * rewrite Hc3. exact Hnames.
    + rewrite merged_covered, EU; auto.
  - cbn [snd]. destruct (add_columns_raise _ _ _ _ EC) as [Hr ->].
    assert (HMR : MR = []).
    { destruct MR as [|l MR'] eqn:E; [reflexivity|].
      exfalso. apply (add_rows_nonempty (l :: MR') d); [discriminate|exact Hr]. }
    rewrite HMR in *. change (add_rows [] d) with d in *.
    unfold merged. fold MR MC. rewrite HMR. change (add_rows [] d) with d.
    now rewrite EC.
Qed.

(** Claim C1 (merge idempotence).  Whatever the store and the batch, merging
    the batch into the store that a first merge of the same batch left
    behind ends as the first merge did (the same outcome) and leaves the
    same store: the same labels, columns and cells. *)
Theorem merge_twice_is_merge_once (entries : pd.DataFrame) (ds : DataStorage.t) :
  FMP._add_entries_to_ds env entries
    (snd (FMP._add_entries_to_ds env entries ds))
  = FMP._add_entries_to_ds env entries ds.
Proof.
  rewrite !add_entries_merged. cbn [snd]. rewrite df_with_df, merged_idem.
  reflexivity.
Qed.
End MergeTwice.

Lemma demo_env_enumerates_sets : enumerates_sets demo_env.
Proof. split; intros l; apply Permutation_refl. Qed.

Lemma merge_twice_is_merge_once_witness :
  enumerates_sets demo_env /\
  FMP._add_entries_to_ds demo_env demo_batch
    (snd (FMP._add_entries_to_ds demo_env demo_batch demo_storage))
  = FMP._add_entries_to_ds demo_env demo_batch demo_storage.
Proof.
  assert (H : enumerates_sets demo_env)
    by (split; intros l; apply Permutation_refl).
  split; [exact H|].
  exact (merge_twice_is_merge_once demo_env H demo_batch demo_storage).
Defined.

Lemma list_eqb_eq {A} (eqb : A -> A -> bool) :
  (forall a b, eqb a b = true -> a = b) ->
  forall l1 l2, pd.list_eqb eqb l1 l2 = true -> l1 = l2.
Proof.
  intros Heq. induction l1 as [|x l1 IH]; intros [|y l2] H; simpl in H;
    try discriminate; [reflexivity|].
  apply andb_true_iff in H. destruct H as [H1 H2].
  f_equal; [now apply Heq|now apply IH].
Qed.

Lemma position_nth_error c : forall l p,
  pd.position c l = Some p -> nth_error l p = Some c.
Proof.
  induction l as [|y l IH]; intros p H; simpl in H; [discriminate|].
  destruct (String.eqb_spec y c) as [->|Hn].
  - inversion H; subst. reflexivity.
  - destruct (pd.position c l) as [q|]; [|discriminate].
    inversion H; subst. simpl. now apply IH.
Qed.

Lemma find_row_Some k : forall rs r,
  pd.find_row k rs = Some r -> In r rs /\ fst r = k.
Proof.
  induction rs as [|y rs IH]; intros r H; simpl in H; [discriminate|].
  destruct (cell_eqb (fst y) k) eqn:E.
  - inversion H; subst. apply cell_eqb_eq in E. simpl; auto.
  - destruct (IH _ H); simpl; auto.
Qed.

Lemma nth_not_default {A} (l : list A) p (d y : A) :
  nth p l d = y -> y <> d -> nth_error l p = Some y.
Proof.
  revert p; induction l as [|a l IH]; intros [|p] H Hn; simpl in *;
    try congruence. now apply IH.
Qed.

Lemma cell_at_row d i j y :
  pd.cell_at d i j = Some y <->
  exists r, nth_error (pd.rows d) i = Some r /\ nth_error (snd r) j = Some y.
Proof.
  unfold pd.cell_at. destruct (nth_error (pd.rows d) i) as [r|].
  - split; [eauto|]. intros (r' & H1 & H2). inversion H1; subst; auto.
  - split; [discriminate|]. intros (r' & H1 & _). discriminate.
Qed.

Lemma index_nth d i r :
  nth_error (pd.rows d) i = Some r -> nth_error (pd.index d) i = Some (fst r).
Proof. intros H. unfold pd.index. exact (map_nth_error fst i (pd.rows d) H). Qed.

(** Where the aligned copy of [other] holds a value, [other] holds it at
    the same label under the same column name. *)
Lemma aligned_value other self aligned i j k c y :
  pd.reindex_like other self = Ok aligned ->
  nth_error (pd.index self) i = Some k ->
  nth_error (pd.columns self) j = Some c ->
  pd.cell_at aligned i j = Some y -> y <> NaN ->
  has_value other k c.
Proof.
  unfold pd.reindex_like. intros H Hk Hc Hy Hn.
  destruct (pd.reindex_rows (pd.index self) other) as [a1|] eqn:E1;
    simpl in H; [|discriminate].
  (* rows *)
  assert (R : pd.columns a1 = pd.columns other /\
              forall r, nth_error (pd.rows a1) i = Some r ->
                fst r = k /\
                forall p v, nth_error (snd r) p = Some v -> v <> NaN ->
                  exists r', In r' (pd.rows other) /\ fst r' = k /\
                             nth_error (snd r') p = Some v).
  { unfold pd.reindex_rows in E1.
    destruct (pd.list_eqb cell_eqb (pd.index other) (pd.index self)) eqn:Eq.
    - inversion E1; subst a1. split; [reflexivity|]. intros r Hr.
      apply list_eqb_eq in Eq; [|intros a b; apply cell_eqb_eq].
      pose proof (index_nth _ _ _ Hr) as Hi. rewrite Eq, Hk in Hi.
      inversion Hi; subst. split; [reflexivity|]. intros p v Hv _.
      exists r. repeat split; auto. eapply nth_error_In; eauto.
    - destruct (pd.has_dup_cells (pd.index other) &&
                negb (Nat.eqb (List.length (pd.index self)) 0)); [discriminate|].
      inversion E1; subst a1. simpl. split; [reflexivity|]. intros r Hr.
      rewrite nth_error_map, Hk in Hr. simpl in Hr.
      destruct (pd.find_row k (pd.rows other)) as [r0|] eqn:Ef;
        inversion Hr; subst; simpl.
      + split; [reflexivity|]. intros p v Hv _.
        destruct (find_row_Some _ _ _ Ef) as [Hin Hf]. exists r0. auto.
      + split; [reflexivity|]. intros p v Hv Hnn. exfalso. apply Hnn.
        apply nth_error_In in Hv. now apply repeat_spec in Hv. }
  destruct R as [Rc Rr].
  apply cell_at_row in Hy. destruct Hy as (r & Hr & Hy).
  unfold pd.reindex_columns in H.
  destruct (pd.list_eqb String.eqb (pd.columns a1) (pd.columns self)) eqn:Eq.
  - inversion H; subst aligned.
    apply list_eqb_eq in Eq; [|intros a b; apply String.eqb_eq].
    destruct (Rr r Hr) as [Hf Hv]. destruct (Hv j y Hy Hn) as (r' & Hin & Hf' & Hv').
    exists r', j, y. repeat split; auto. now rewrite <- Rc, Eq.
  - destruct (pd.has_dup_names (pd.columns a1) &&
              negb (Nat.eqb (List.length (pd.columns self)) 0)); [discriminate|].
    inversion H; subst aligned. simpl in Hr.
    rewrite nth_error_map in Hr.
    destruct (nth_error (pd.rows a1) i) as [r1|] eqn:Er; [|discriminate].
    inversion Hr; subst r. simpl in Hy.
    rewrite nth_error_map, Hc in Hy. simpl in Hy.
    destruct (pd.position c (pd.columns a1)) as [p|] eqn:Ep;
      [|inversion Hy; congruence].
    inversion Hy as [Hcell]. unfold pd.cell_of in Hcell.
    apply nth_not_default in Hcell; [|exact Hn].
    destruct (Rr r1 eq_refl) as [Hf Hv].
    destruct (Hv p y Hcell Hn) as (r' & Hin & Hf' & Hv').
    exists r', p, y. repeat split; auto.
    rewrite <- Rc. now apply position_nth_error.
Qed.

Lemma at_position_rows d d' i j k c x :
  pd.columns d' = pd.columns d ->
  (exists extra, pd.rows d' = (pd.rows d ++ extra)%list) ->
  at_position d i j k c x -> at_position d' i j k c x.
Proof.
  intros Hc (extra & Hr) (H1 & H2 & H3).
  apply cell_at_row in H3. destruct H3 as (r & Hr1 & Hr2).
  assert (Hi : nth_error (pd.rows d') i = Some r).
  { rewrite Hr, nth_error_app1; [exact Hr1|].
    apply nth_error_Some. congruence. }
  repeat split.
  - pose proof (index_nth _ _ _ Hi) as G.
    pose proof (index_nth _ _ _ Hr1) as G'. congruence.
  - now rewrite Hc.
  - apply cell_at_row. eauto.
Qed.

Lemma add_rows_fresh labels : forall d,
  NoDup labels -> (forall l, In l labels -> ~ In l (pd.index d)) ->
  pd.columns (add_rows labels d) = pd.columns d /\
  exists extra, pd.rows (add_rows labels d) = (pd.rows d ++ extra)%list.
Proof.
  induction labels as [|l labels IH]; intros d Hnd Hfresh.
  - split; [reflexivity|]. exists []. simpl. now rewrite app_nil_r.
  - inversion Hnd as [|? ? Hl Hnd']; subst.
    change (add_rows (l :: labels) d) with (add_rows labels (pd.loc_set_row l NaN d)).
    rewrite loc_set_row_new by (apply Hfresh; simpl; auto).
    destruct (IH (pd.mkDF (pd.index_name d) (pd.columns d)
                    (pd.rows d ++ [(l, repeat NaN (List.length (pd.columns d)))])%list)
                 Hnd') as [Hc (extra & Hr)].
    + intros l' Hl'. unfold pd.index. simpl. rewrite map_app, in_app_iff. simpl.
      intros [H|[H|[]]]; [|congruence].
      apply (Hfresh l'); simpl; auto.
    + split; [exact Hc|]. simpl in Hr. rewrite <- app_assoc in Hr. eauto.
Qed.

Lemma position_absent c l : ~ In c l -> pd.position c l = None.
Proof.
  induction l as [|y l IH]; intros H; simpl; [reflexivity|].
  destruct (String.eqb_spec y c) as [->|Hn]; [exfalso; apply H; simpl; auto|].
  rewrite IH; [reflexivity|]. intro; apply H; simpl; auto.
Qed.

Lemma at_position_set_column c d i j k cn x :
  ~ In c (pd.columns d) ->
  at_position d i j k cn x -> at_position (pd.set_column c NaN d) i j k cn x.
Proof.
  intros Hc (H1 & H2 & H3). unfold pd.set_column.
  rewrite (position_absent _ _ Hc).
  apply cell_at_row in H3. destruct H3 as (r & Hr1 & Hr2).
  repeat split.
  - unfold pd.index in *. simpl. rewrite map_map. exact H1.
  - simpl. rewrite nth_error_app1; [exact H2|]. apply nth_error_Some. congruence.
  - apply cell_at_row. simpl.
    exists (fst r, (snd r ++ [NaN])%list). split.
    + exact (map_nth_error (fun r0 : pd.row => (fst r0, (snd r0 ++ [NaN])%list))
                           i (pd.rows d) Hr1).
    + simpl. rewrite nth_error_app1; [exact Hr2|]. apply nth_error_Some. congruence.
Qed.

Lemma add_columns_fresh names : forall d r d2 i j k c x,
  NoDup names -> (forall n, In n names -> ~ In n (pd.columns d)) ->
  add_columns names d = (r, d2) ->
  at_position d i j k c x -> at_position d2 i j k c x.
Proof.
  induction names as [|n names IH]; intros d r d2 i j k c x Hnd Hfresh H Hat;
    simpl in H.
  - inversion H; subst; exact Hat.
  - inversion Hnd as [|? ? Hn Hnd']; subst.
    destruct (pd.loc_set_col n NaN d) as [d'|e] eqn:E;
      [|inversion H; subst; exact Hat].
    assert (Hd : d' = pd.set_column n NaN d).
    { unfold pd.loc_set_col in E.
      destruct (pd.mem_name n (pd.columns d)); [congruence|].
      destruct (pd.rows d); congruence. }
    subst d'. apply (IH (pd.set_column n NaN d) r d2 i j k c x Hnd'); [|exact H|].
    + intros m Hm. rewrite set_column_columns. intros [->|Hin]; [contradiction|].
      apply (Hfresh m); simpl; auto.
    + apply at_position_set_column; [apply Hfresh; simpl; auto|exact Hat].
Qed.

Lemma overlay_cells_nth this : forall that j x,
  nth_error this j = Some x ->
  nth_error (pd.overlay_cells this that) j
  = Some (match nth_error that j with
          | Some y => pd.overlay_cell x y
          | None => x
          end).
Proof.
  induction this as [|a this IH]; intros [|b that] [|j] x H; simpl in *;
    try discriminate; try (inversion H; subst; reflexivity); auto.
Qed.

Lemma overlay_rows_nth this : forall that i r,
  nth_error this i = Some r ->
  nth_error (pd.overlay_rows this that) i
  = Some (match nth_error that i with
          | Some o => (fst r, pd.overlay_cells (snd r) (snd o))
          | None => r
          end).
Proof.
  induction this as [|a this IH]; intros [|b that] [|i] r H; simpl in *;
    try discriminate; try (inversion H; subst; reflexivity); auto.
Qed.

Lemma overlay_cells_nil this : pd.overlay_cells this [] = this.
Proof. destruct this; reflexivity. Qed.

Lemma at_position_update entries d d3 i j k c x :
  pd.update entries d = Ok d3 ->
  ~ has_value entries k c ->
  at_position d i j k c x -> at_position d3 i j k c x.
Proof.
  intros HU Hno (H1 & H2 & H3).
  destruct (update_shape _ _ _ HU) as [Hi Hc].
  split; [now rewrite Hi|]. split; [now rewrite Hc|].
  unfold pd.update in HU.
  destruct (pd.reindex_like entries d) as [a|] eqn:EA; simpl in HU; [|discriminate].
  inversion HU; subst d3. clear HU.
  apply cell_at_row in H3. destruct H3 as (r & Hr1 & Hr2).
  apply cell_at_row. simpl.
  rewrite (overlay_rows_nth _ _ _ _ Hr1).
  destruct (nth_error (pd.rows a) i) as [o|] eqn:Eo; [|eauto].
  eexists. split; [reflexivity|]. simpl.
  rewrite (overlay_cells_nth _ _ _ _ Hr2).
  destruct (nth_error (snd o) j) as [y|] eqn:Ey; [|reflexivity].
  unfold pd.overlay_cell. destruct y; simpl; try reflexivity;
    exfalso; apply Hno;
    (eapply (aligned_value entries d a i j k c); eauto;
     [apply cell_at_row; eauto|discriminate]).
Qed.

Section MergeFrame.
Variable env : Env.
Hypothesis Henum : enumerates_sets env.

Lemma merged_keeps entries d i j k c x :
  ~ has_value entries k c ->
  at_position d i j k c x ->
  at_position (snd (merged env entries d)) i j k c x.
Proof.
  intros Hno Hat. unfold merged.
  set (MR := FMP.missing_labels env (pd.index entries) (pd.index d)).
  set (MC := FMP.missing_names env (pd.columns entries) (pd.columns d)).
  assert (H1 : at_position (add_rows MR d) i j k c x).
  { destruct (add_rows_fresh MR d) as [Hc Hr].
    - apply missing_labels_NoDup, Henum.
    - intros l Hl. apply (missing_labels_In env Henum) in Hl. tauto.
    - eapply at_position_rows; eauto. }
  destruct (add_columns MC (add_rows MR d)) as [r d2] eqn:EC.
  assert (H2 : at_position d2 i j k c x).
  { apply (add_columns_fresh MC (add_rows MR d) r d2 i j k c x); [| |exact EC|exact H1].
    - apply missing_names_NoDup, Henum.
    - intros n Hn. apply (missing_names_In env Henum) in Hn.
      rewrite add_rows_columns. tauto. }
  destruct r as [u|e]; [|exact H2].
  destruct (pd.update entries d2) as [d3|e] eqn:EU; [|exact H2].
  cbn [snd]. eapply at_position_update; eauto.
Qed.

End MergeFrame.


(* ------------------------------------------------------------------ *)
(** ** Comparison operators and the cross-check *)
(* ------------------------------------------------------------------ *)

Lemma condition_filter_unknown d column condition value :
  known_operator condition = false ->
  DataStorage.condition_filter d column condition value = Ok None.
Proof.
  unfold known_operator, DataStorage.condition_filter. intros H.
  repeat (apply orb_false_iff in H; destruct H as [H ?]).
  now repeat match goal with h : String.eqb _ _ = false |- _ => rewrite h; clear h end.
Qed.

(** Claim C2, as the specification states it, fails: asked for the rows
    whose sentiment is ["ge"] 1, [get_rows_by_condition] raises nothing. *)
Lemma unknown_operator_silent_counterexample : ~ unknown_operator_always_raises.
Proof.
  intros H.
  destruct (H demo_storage "sentiment" "ge" (Some (Num 1)) ["sentiment"] (Num 0)
              eq_refl)
    as [[e He] _].
  vm_compute in He. discriminate He.
Qed.

(** Claim C2, amended.  Given an operator that is none of [gt], [lt], [eq],
    [neq]: [get_rows_by_condition] returns [None] and
    [remove_rows_by_condition] returns, neither raising and neither
    touching the table; [update_rows] raises [UnboundLocalError] and leaves
    the table as it was. *)
Theorem unknown_operator_outcomes (ds : DataStorage.t) (column condition : string)
        (value : option cell) (columns_to_update : list string) (update_value : cell) :
  known_operator condition = false ->
  DataStorage.get_rows_by_condition column condition value ds = (Ok None, ds) /\
  DataStorage.remove_rows_by_condition column condition value ds = (Ok tt, ds) /\
  DataStorage.update_rows column condition value columns_to_update update_value ds
  = (Raise (UnboundLocalError "bool_filter"), ds).
Proof.
  intros H.
  unfold DataStorage.get_rows_by_condition, DataStorage.remove_rows_by_condition,
    DataStorage.update_rows, bind, get, lift.
  rewrite !condition_filter_unknown by exact H.
  repeat split.
Qed.

Lemma unknown_operator_outcomes_witness :
  known_operator "ge" = false /\
  DataStorage.get_rows_by_condition "sentiment" "ge" (Some (Num 1)) demo_storage
  = (Ok None, demo_storage).
Proof.
  split; [reflexivity|].
  exact (proj1 (unknown_operator_outcomes demo_storage "sentiment" "ge"
                  (Some (Num 1)) [] NaN eq_refl)).
Defined.


(* C3 *)
Lemma eq_any_reference cc v :
  In v (FMP.referenceValues cc) -> pd.eq_any (FMP.series cc) v = true.
Proof.
  unfold FMP.referenceValues, pd.eq_any. intros H.
  apply filter_In in H. destruct H as [Hin Hv].
  apply existsb_exists. exists v. split; [exact Hin|].
  unfold pd.py_eq, cell_eqb. rewrite Hv.
  destruct (cell_eq_dec v v); [reflexivity|congruence].
Qed.

Lemma field_of_last_app rl page r key :
  field_of_last (rl ++ page ++ [r])%list key
  = match pd.field r key with Some v => Ok v | None => Raise (KeyError key) end.
Proof.
  unfold field_of_last. rewrite app_assoc, rev_app_distr. reflexivity.
Qed.

(** Claim C3 (cross-check hit).  In any iteration of the loop run with a
    cross-check, if the page just fetched is not empty and the field of its
    last record that the cross-check names holds one of the reference
    values, the loop stops there as [CROSS_CHECK_HIT], and the batch is
    what it was before the page followed by every record of the page, the
    matching one included. *)
Theorem cross_check_hit_keeps_page (env : Env) (url : string) (cc : FMP.cross_check_t)
        (fuel : nat) (curr_page : Z) (response_list : list pd.record)
        (clock : Q) (starts : list Q)
        (earlier : list pd.record) (last : pd.record) (v : cell) :
  http_get env (replace url FMP._PAGE_PLACEHOLDER (str_of_Z (curr_page + 1)))
  = (earlier ++ [last])%list ->
  pd.field last (FMP.dict_key cc) = Some v ->
  In v (FMP.referenceValues cc) ->
  let e := FMP.paging env url (Some cc) (S fuel) curr_page response_list clock starts in
  FMP.why e = FMP.CROSS_CHECK_HIT /\
  FMP.response_list e = (response_list ++ earlier ++ [last])%list /\
  FMP.curr_page e = (curr_page + 1)%Z.
Proof.
  intros Hpage Hfield Hin. cbn [FMP.paging]. cbv zeta. rewrite Hpage.
  replace (Nat.eqb (List.length (earlier ++ [last])%list) 0) with false
    by (symmetry; apply Nat.eqb_neq; rewrite length_app; simpl; lia).
  rewrite field_of_last_app, Hfield, (eq_any_reference _ _ Hin). simpl.
  repeat split.
Qed.

Lemma cross_check_hit_keeps_page_witness :
  let e := FMP.paging demo_env (demo_page "BMW" "$$$")
             (Some (FMP.mkCrossCheck [Str "Strike"; NaN; Str "Results"] "title"))
             1 (-1) [] 0%Q [] in
  FMP.why e = FMP.CROSS_CHECK_HIT /\
  FMP.response_list e
  = [demo_article "2021-05-04" "New model"; demo_article "2021-05-03" "Results"].
Proof.
  assert (H := cross_check_hit_keeps_page demo_env (demo_page "BMW" "$$$")
                 (FMP.mkCrossCheck [Str "Strike"; NaN; Str "Results"] "title")
                 0 (-1) [] 0%Q []
                 [demo_article "2021-05-04" "New model"]
                 (demo_article "2021-05-03" "Results") (Str "Results")
                 eq_refl eq_refl (or_intror (or_introl eq_refl))).
  cbv zeta in H. destruct H as (H1 & H2 & _).
  split; [exact H1|exact H2].
Defined.

(* ------------------------------------------------------------------ *)
(** ** A run that obtains no record *)
(* ------------------------------------------------------------------ *)

Lemma read_entries_no_data env fuel url cc :
  http_get env (FMP.page_url env url 0) = [] ->
  FMP._read_entries env (S fuel) url cc = Raise NoData.
Proof.
  unfold FMP.page_url, FMP._read_entries. intros H.
  cbn [FMP.paging]. cbv zeta. change (-1 + 1)%Z with 0%Z. rewrite H. reflexivity.
Qed.

Lemma read_news_fetch_raises env fuel w cc e :
  FMP.news_cross_check (DataStorage.df (FMP.news_ds (FMP.self w))) = Ok cc ->
  FMP._read_entries env fuel (FMP.news_url (FMP.self w)) cc = Raise e ->
  FMP.read_news env fuel w = (Raise e, w).
Proof.
  intros Hcc He. unfold FMP.read_news, bind, get, lift. rewrite Hcc, He. reflexivity.
Qed.

Lemma read_news_cross_check_raises env fuel w e :
  FMP.news_cross_check (DataStorage.df (FMP.news_ds (FMP.self w))) = Raise e ->
  FMP.read_news env fuel w = (Raise e, w).
Proof.
  intros Hcc. unfold FMP.read_news, bind, get, lift. rewrite Hcc. reflexivity.
Qed.

(** Claim C4 (no data).  When the first page of a run is empty (as it is
    when no page ever yields a record), [_read_entries] raises the
    [ValueError] of line 283, here [NoData]; [read_news] ends on an
    exception with the object and the files exactly as they were, nothing
    merged and nothing saved; and that exception is [NoData] whenever the
    cross-check of the run could be built. *)
Theorem no_data_aborts_before_merge (env : Env) (fuel : nat) (w : FMP.world) :
  http_get env (FMP.page_url env (FMP.news_url (FMP.self w)) 0) = [] ->
  (forall cc, FMP._read_entries env (S fuel) (FMP.news_url (FMP.self w)) cc
              = Raise NoData) /\
  (exists e, FMP.read_news env (S fuel) w = (Raise e, w)) /\
  (forall cc,
      FMP.news_cross_check (DataStorage.df (FMP.news_ds (FMP.self w))) = Ok cc ->
      FMP.read_news env (S fuel) w = (Raise NoData, w)).
Proof.
  intros H.
  assert (Hr : forall cc, FMP._read_entries env (S fuel) (FMP.news_url (FMP.self w)) cc
                          = Raise NoData)
    by (intros cc; apply read_entries_no_data; exact H).
  split; [exact Hr|]. split.
  - destruct (FMP.news_cross_check (DataStorage.df (FMP.news_ds (FMP.self w))))
      as [cc|e] eqn:E.
    + exists NoData. eapply read_news_fetch_raises; eauto.
    + exists e. apply read_news_cross_check_raises; exact E.
  - intros cc Hcc. eapply read_news_fetch_raises; eauto.
Qed.

Lemma no_data_aborts_before_merge_witness :
  http_get demo_env
    (FMP.page_url demo_env (FMP.news_url (FMP.self (demo_world "NONE"))) 0) = [] /\
  FMP.read_news demo_env 1 (demo_world "NONE") = (Raise NoData, demo_world "NONE").
Proof.
  split; [reflexivity|].
  exact (proj2 (proj2 (no_data_aborts_before_merge demo_env 0 (demo_world "NONE")
                         eq_refl))
               (Some (FMP.mkCrossCheck [Str "Strike"; Str "Results"] "title"))
               eq_refl).
Defined.

(* ------------------------------------------------------------------ *)
(** ** A response without the date field *)
(* ------------------------------------------------------------------ *)

Lemma position_None c l : pd.position c l = None <-> ~ In c l.
Proof.
  induction l as [|d l IH]; simpl.
  - split; auto.
  - destruct (String.eqb_spec d c) as [->|Hn].
    + split; [discriminate|]. intros H; exfalso; apply H; auto.
    + destruct (pd.position c l); simpl.
      * split; [discriminate|]. intros H. exfalso. 
        assert (~ In c l) by (intro; apply H; auto). apply IH in H0. discriminate.
      * split; [|reflexivity]. intros _ [h|h]; [congruence|].
        now apply (proj1 IH).
Qed.

Lemma set_index_raises c d :
  ~ In c (pd.columns d) -> pd.set_index c d = Raise (KeyError c).
Proof.
  intros H. unfold pd.set_index. apply position_None in H. now rewrite H.
Qed.

Lemma tabulate_missing_key is_news r0 rest :
  ~ In "date" (normalized_names is_news (r0 :: rest)) ->
  FMP.tabulate is_news (r0 :: rest)
  = Raise (MissingKey (map (value_or_null r0)
                           (pd.columns (pd.json_normalize (r0 :: rest))))).
Proof.
  intros H. unfold FMP.tabulate.
  change (Nat.eqb (List.length (r0 :: rest)) 0) with false. cbv iota zeta.
  set (d := pd.json_normalize (r0 :: rest)) in *.
  set (d' := if is_news then pd.rename_columns _ d else d).
  assert (Hcols : pd.columns d' = map (rename_published is_news) (pd.columns d)).
  { subst d'. destruct is_news; simpl.
    - reflexivity.
    - unfold rename_published; simpl. now rewrite map_id. }
  assert (Hrows : pd.rows d' = pd.rows d) by (subst d'; destruct is_news; reflexivity).
  rewrite set_index_raises.
  - unfold pd.first_row_values. rewrite Hrows. reflexivity.
  - rewrite Hcols. intros Hin. apply H. unfold normalized_names. fold d.
    change "date" with (camel_case_to_snake_case "date"). now apply in_map.
Qed.

Lemma uniq_names_prefix a : forall seen b,
  NoDup a -> (forall x, In x a -> ~ In x seen) ->
  firstn (List.length a) (pd.uniq_names seen (a ++ b)%list) = a.
Proof.
  induction a as [|x a IH]; intros seen b Hnd Hdis; [reflexivity|].
  inversion Hnd as [|? ? Hx Hnd']; subst. simpl.
  replace (pd.mem_name x seen) with false
    by (symmetry; apply mem_name_false; apply Hdis; simpl; auto).
  simpl. f_equal. apply IH; [exact Hnd'|].
  intros y Hy [h|h]; [subst; contradiction|].
  apply (Hdis y); simpl; auto.
Qed.

Lemma field_of_member (r : pd.record) : 
  NoDup (map fst r) -> forall kv, In kv r -> pd.field r (fst kv) = Some (snd kv).
Proof.
  induction r as [|[k v] r IH]; intros Hnd kv Hin; [contradiction|].
  simpl in Hnd. inversion Hnd as [|? ? Hk Hnd']; subst. simpl.
  destruct Hin as [<-|Hin].
  - simpl. now rewrite String.eqb_refl.
  - destruct (String.eqb_spec k (fst kv)) as [He|Hne].
    + exfalso. apply Hk. rewrite He. now apply in_map.
    + now apply IH.
Qed.

Lemma first_row_is_first_record r0 rest :
  NoDup (map fst r0) ->
  firstn (List.length r0)
         (map (value_or_null r0) (pd.columns (pd.json_normalize (r0 :: rest))))
  = map snd r0.
Proof.
  intros Hnd. rewrite firstn_map. simpl.
  replace (List.length r0) with (List.length (map fst r0)) by apply length_map.
  rewrite uniq_names_prefix by (auto; intros x _ []).
  rewrite map_map. apply map_ext_in. intros kv Hin.
  unfold value_or_null. now rewrite (field_of_member r0 Hnd kv Hin).
Qed.




(** Claim C9 (missing key).  When the loop of a run ends with a batch whose
    field names, once normalised (the rename of the news endpoint, then
    lower case with underscores), lack ["date"], [_read_entries] raises the
    [KeyError] of line 299, here [MissingKey], carrying the first row of
    the tabulated response; [read_news] ends on it with the object and the
    files exactly as they were; and that first row starts with the values
    of the first record, in the order of its fields. *)
Theorem missing_key_aborts_with_first_record (env : Env) (fuel : nat) (url : string)
        (cc : option FMP.cross_check_t) (r0 : pd.record) (rest : list pd.record) :
  (forall x, FMP.why (fetched env fuel url cc) <> FMP.LOOP_RAISED x) ->
  FMP.response_list (fetched env fuel url cc) = r0 :: rest ->
  ~ In "date" (normalized_names (is_news_url env url) (r0 :: rest)) ->
  let payload := map (value_or_null r0)
                     (pd.columns (pd.json_normalize (r0 :: rest))) in
  FMP._read_entries env fuel url cc = Raise (MissingKey payload) /\
  (forall w, FMP.news_url (FMP.self w) = url ->
     FMP.news_cross_check (DataStorage.df (FMP.news_ds (FMP.self w))) = Ok cc ->
     FMP.read_news env fuel w = (Raise (MissingKey payload), w)) /\
  (NoDup (map fst r0) -> firstn (List.length r0) payload = map snd r0).
Proof.
  intros Hstop Hlist Hdate payload.
  assert (Hr : FMP._read_entries env fuel url cc = Raise (MissingKey payload)).
  { unfold FMP._read_entries. cbv zeta. fold (fetched env fuel url cc).
    fold (is_news_url env url). rewrite Hlist.
    destruct (FMP.why (fetched env fuel url cc)) eqn:E;
      try (apply tabulate_missing_key; exact Hdate).
    exfalso; eapply Hstop; eauto. }
  split; [exact Hr|]. split.
  - intros w Hu Hcc. apply (read_news_fetch_raises env fuel w cc); [exact Hcc|].
    rewrite Hu. exact Hr.
  - intros Hnd. apply first_row_is_first_record; exact Hnd.
Qed.

Lemma missing_key_aborts_with_first_record_witness :
  FMP.read_news demo_env 2 (demo_world "ODD")
  = (Raise (MissingKey [Str "ODD"; Str "No date here"; NaN]), demo_world "ODD").
Proof.
  assert (H := missing_key_aborts_with_first_record demo_env 2
                 (FMP.news_url (FMP.self (demo_world "ODD")))
                 (Some (FMP.mkCrossCheck [Str "Strike"; Str "Results"] "title"))
                 [("symbol", Str "ODD"); ("title", Str "No date here")]
                 [[("symbol", Str "ODD"); ("title", Str "Nor here");
                   ("headline", Str "x")]]).
  assert (H1 : forall x,
             FMP.why (fetched demo_env 2 (FMP.news_url (FMP.self (demo_world "ODD")))
                        (Some (FMP.mkCrossCheck [Str "Strike"; Str "Results"] "title")))
             <> FMP.LOOP_RAISED x)
    by (intros x Hx; vm_compute in Hx; discriminate Hx).
  assert (H3 : ~ In "date"
                 (normalized_names
                    (is_news_url demo_env (FMP.news_url (FMP.self (demo_world "ODD"))))
                    [[("symbol", Str "ODD"); ("title", Str "No date here")];
                     [("symbol", Str "ODD"); ("title", Str "Nor here");
                      ("headline", Str "x")]]))
    by (vm_compute; intros [h|[h|[h|[]]]]; discriminate h).
  specialize (H H1 eq_refl H3). cbv zeta in H. destruct H as (_ & H & _).
  exact (H (demo_world "ODD") eq_refl eq_refl).
Defined.

(* ------------------------------------------------------------------ *)
(** ** The rate limiter *)
(* ------------------------------------------------------------------ *)

Lemma paging_schedule env url cc : forall fuel cp rl clock starts,
  exists n,
    FMP.loop_starts (FMP.paging env url cc fuel cp rl clock starts)
    = (starts ++ schedule env (cp + 1)%Z clock n)%list.
Proof.
  induction fuel as [|fuel IH]; intros cp rl clock starts.
  - exists 0. simpl. now rewrite app_nil_r.
  - cbn [FMP.paging]. cbv zeta.
    set (page := http_get env _).
    assert (Hnext : exists n,
      FMP.loop_starts
        (FMP.paging env url cc fuel (cp + 1)%Z (rl ++ page)%list
                    (next_start env (cp + 1)%Z clock) (starts ++ [clock])%list)
      = (starts ++ schedule env (cp + 1)%Z clock n)%list).
    { destruct (IH (cp + 1)%Z (rl ++ page)%list (next_start env (cp + 1)%Z clock)
                   (starts ++ [clock])%list) as (n & Hn).
      exists (S n). rewrite Hn, <- app_assoc. reflexivity. }
    assert (Hstop : forall w r p c, exists n,
      FMP.loop_starts (FMP.mkLoopEnd w r p (starts ++ [clock])%list c)
      = (starts ++ schedule env (cp + 1)%Z clock n)%list)
      by (intros; exists 1; reflexivity).
    destruct (Nat.eqb (List.length page) 0); [apply Hstop|].
    destruct cc as [c|]; [|exact Hnext].
    destruct (field_of_last _ _); [|apply Hstop].
    destruct (pd.eq_any _ _); [apply Hstop|exact Hnext].
Qed.

Lemma next_start_sleep env p clock :
  (0 <= oversleep env p)%Q ->
  (clock + request_seconds env p + sleep_requested (request_seconds env p)
   <= next_start env p clock)%Q /\
  (oversleep env p == 0 ->
   next_start env p clock
   == clock + request_seconds env p + sleep_requested (request_seconds env p))%Q.
Proof.
  intros Hover. unfold next_start, sleep_requested. cbv zeta.
  set (t := request_seconds env p).
  destruct (Qle_bool (FMP.CALL_DELAY - (clock + t - clock)) 0) eqn:E.
  - apply Qle_bool_iff in E.
    assert (Hm : (Qmax 0 (FMP.CALL_DELAY - t) == 0)%Q)
      by (apply Q.max_l; lra).
    rewrite Hm. split; [lra|intros; lra].
  - assert (Hlt : (0 < FMP.CALL_DELAY - (clock + t - clock))%Q).
    { apply Qnot_le_lt. intros H. apply Qle_bool_iff in H. congruence. }
    assert (Hm : (Qmax 0 (FMP.CALL_DELAY - t) == FMP.CALL_DELAY - t)%Q)
      by (apply Q.max_r; lra).
    rewrite Hm. split; [lra|intros; lra].
Qed.

Lemma sleep_requested_fills t : (FMP.CALL_DELAY <= t + sleep_requested t)%Q.
Proof.
  unfold sleep_requested.
  pose proof (Q.le_max_r 0 (FMP.CALL_DELAY - t)). lra.
Qed.

Lemma schedule_length env p clock n : List.length (schedule env p clock n) = n.
Proof. revert p clock; induction n; intros; simpl; auto. Qed.

Lemma schedule_step env : forall n p clock k,
  S k < n ->
  nth (S k) (schedule env p clock n) 0%Q
  = next_start env (p + Z.of_nat k)%Z (nth k (schedule env p clock n) 0%Q).
Proof.
  induction n as [|n IH]; intros p clock k Hk; [lia|].
  destruct k as [|k].
  - destruct n as [|n]; [lia|]. simpl. now rewrite Z.add_0_r.
  - change (schedule env p clock (S n))
      with (clock :: schedule env (p + 1)%Z (next_start env p clock) n).
    cbn [nth]. rewrite IH by lia. f_equal. lia.
Qed.

Lemma spaced_nth d : forall l i j,
  (forall k, S k < List.length l -> (nth k l 0 + d <= nth (S k) l 0)%Q) ->
  i <= j -> j < List.length l ->
  (nth i l 0 + inject_Z (Z.of_nat (j - i)) * d <= nth j l 0)%Q.
Proof.
  intros l i j Hstep Hij Hj.
  remember (j - i) as n eqn:Hn. revert i j Hij Hj Hn.
  induction n as [|n IH]; intros i j Hij Hj Hn.
  - assert (i = j) by lia. subst. simpl. unfold inject_Z. lra.
  - destruct j as [|j]; [lia|].
    assert (H1 := IH i j ltac:(lia) ltac:(lia) ltac:(lia)).
    assert (H2 := Hstep j Hj).
    replace (Z.of_nat (S n)) with (Z.of_nat n + 1)%Z by lia.
    rewrite inject_Z_plus. change (inject_Z 1) with 1%Q. lra.
Qed.



(* ------------------------------------------------------------------ *)
(** ** The date sort: [DataStorage.sort_ds_dates] *)
(* ------------------------------------------------------------------ *)

Lemma sort_ds_dates_unfold env fmt ds :
  DataStorage.sort_ds_dates env fmt ds
  = match pd.map_result (DataStorage.to_datetime env fmt)
                        (pd.index (DataStorage.df ds)) with
    | Raise e => (Raise e, ds)
    | Ok stamps =>
        let printed := printed_frame env fmt (DataStorage.df ds) stamps in
        match pd.reindex_columns (sorted (pd.columns printed)) printed with
        | Ok d => (Ok tt, DataStorage.with_df ds d)
        | Raise e => (Raise e, DataStorage.with_df ds printed)
        end
    end.
Proof.
  unfold DataStorage.sort_ds_dates, bind, get, lift.
  destruct (pd.map_result _ _) as [stamps|e]; [|reflexivity].
  unfold DataStorage.set_df. cbv zeta. fold (printed_frame env fmt (DataStorage.df ds) stamps).
  destruct (pd.reindex_columns _ _); reflexivity.
Qed.

(** *** [sorted] *)


Lemma insert_name_perm x l : Permutation (insert_name x l) (x :: l).
Proof.
  induction l as [|y l IH]; simpl; [reflexivity|].
  destruct (String.leb x y); [reflexivity|].
  rewrite IH. apply perm_swap.
Qed.

Lemma sorted_perm l : Permutation (sorted l) l.
Proof.
  induction l as [|x l IH]; simpl; [reflexivity|].
  unfold sorted in *. simpl. rewrite insert_name_perm. now constructor.
Qed.

Lemma insert_name_sorted x l : Sorted name_le l -> Sorted name_le (insert_name x l).
Proof.
  induction l as [|y l IH]; intros H; simpl.
  - repeat constructor.
  - destruct (String.leb x y) eqn:E.
    + constructor; [exact H|]. constructor. exact E.
    + inversion H as [|? ? Hs Hh]; subst. constructor; [now apply IH|].
      assert (Hyx : name_le y x).
      { destruct (String.leb_total x y) as [h|h]; [congruence|exact h]. }
      destruct l as [|z l]; simpl.
      * constructor; exact Hyx.
      * destruct (String.leb x z); constructor; [exact Hyx|].
        inversion Hh; subst; assumption.
Qed.

Lemma sorted_is_sorted l : Sorted name_le (sorted l).
Proof.
  induction l as [|x l IH]; [constructor|].
  unfold sorted in *. simpl. now apply insert_name_sorted.
Qed.

Lemma sorted_fixed l : Sorted name_le l -> sorted l = l.
Proof.
  induction l as [|x l IH]; intros H; [reflexivity|].
  inversion H as [|? ? Hs Hh]; subst.
  unfold sorted in *. simpl. rewrite (IH Hs).
  destruct l as [|y l]; [reflexivity|]. simpl.
  inversion Hh as [|? ? Hxy]; subst. unfold name_le in Hxy. now rewrite Hxy.
Qed.

Lemma list_eqb_refl {A} (eqb : A -> A -> bool) :
  (forall a, eqb a a = true) -> forall l, pd.list_eqb eqb l l = true.
Proof.
  intros H. induction l as [|x l IH]; simpl; [reflexivity|]. now rewrite H, IH.
Qed.

Lemma has_dup_names_NoDup l : NoDup l -> pd.has_dup_names l = false.
Proof.
  induction 1 as [|x l Hx Hnd IH]; simpl; [reflexivity|].
  rewrite IH, orb_false_r. now apply mem_name_false.
Qed.

Lemma reindex_columns_ok target d :
  NoDup (pd.columns d) ->
  exists d', pd.reindex_columns target d = Ok d' /\
             pd.columns d' = target /\ pd.index d' = pd.index d /\
             pd.index_name d' = pd.index_name d.
Proof.
  intros Hnd. unfold pd.reindex_columns.
  destruct (pd.list_eqb String.eqb (pd.columns d) target) eqn:E.
  - exists d. apply list_eqb_eq in E; [|intros a b; apply String.eqb_eq]. auto.
  - rewrite (has_dup_names_NoDup _ Hnd). simpl. eexists. split; [reflexivity|].
    simpl. repeat split. unfold pd.index. simpl. now rewrite map_map.
Qed.

Lemma reindex_columns_same d :
  pd.reindex_columns (pd.columns d) d = Ok d.
Proof.
  unfold pd.reindex_columns.
  now rewrite (list_eqb_refl String.eqb String.eqb_refl).
Qed.

(** *** The date sort *)

Lemma map_result_Forall2 {A B} (f : A -> result B) : forall l ys,
  pd.map_result f l = Ok ys <-> Forall2 (fun x y => f x = Ok y) l ys.
Proof.
  induction l as [|x l IH]; intros ys; simpl.
  - split; intros H; [inversion H; constructor|inversion H; reflexivity].
  - destruct (f x) as [y|e] eqn:E; simpl.
    + destruct (pd.map_result f l) as [ys'|e'] eqn:E'; simpl.
      * split; intros H.
        -- inversion H; subst. constructor; [exact E|]. now apply IH.
        -- inversion H as [|? ? ? ? Hy Hr]; subst.
           apply IH in Hr. congruence.
      * split; [discriminate|]. intros H.
        inversion H as [|? ? ? ? Hy Hr]; subst. apply IH in Hr. discriminate.
    + split; [discriminate|]. intros H. inversion H; subst. congruence.
Qed.

Lemma map_result_total {A B} (f : A -> result B) l :
  Forall (fun x => exists y, f x = Ok y) l -> exists ys, pd.map_result f l = Ok ys.
Proof.
  induction 1 as [|x l (y & Hy) _ (ys & IH)]; simpl; [eauto|].
  rewrite Hy, IH. simpl. eauto.
Qed.

Lemma map_fst_combine {A B} : forall (a : list A) (b : list B),
  List.length a = List.length b -> map fst (combine a b) = a.
Proof.
  induction a as [|x a IH]; intros [|y b] H; simpl in *; try discriminate;
    [reflexivity|]. f_equal. apply IH. lia.
Qed.

Lemma map_snd_combine {A B} : forall (a : list A) (b : list B),
  List.length a = List.length b -> map snd (combine a b) = b.
Proof.
  induction a as [|x a IH]; intros [|y b] H; simpl in *; try discriminate;
    [reflexivity|]. f_equal. apply IH. lia.
Qed.

Lemma sort_index_descending_spec f keyed :
  sorts_descending f ->
  Permutation (pd.sort_index_descending f keyed) keyed /\
  pd.is_monotonic_decreasing (map fst (pd.sort_index_descending f keyed)) = true.
Proof.
  intros Hf. unfold pd.sort_index_descending.
  destruct (pd.is_monotonic_decreasing (map fst keyed)) eqn:E.
  - split; [reflexivity|exact E].
  - apply Hf.
Qed.

Lemma sort_index_descending_sorted f keyed :
  pd.is_monotonic_decreasing (map fst keyed) = true ->
  pd.sort_index_descending f keyed = keyed.
Proof. intros H. unfold pd.sort_index_descending. now rewrite H. Qed.

Lemma frame_eta d : pd.mkDF (pd.index_name d) (pd.columns d) (pd.rows d) = d.
Proof. destruct d; reflexivity. Qed.

Section DateSort.
Variable env : Env.
Variable date_format : string.
Hypothesis Hsorter : sorts_descending (sorter env).

Let stamp := DataStorage.to_datetime env date_format.
Let print := fun kr : Z * list cell =>
  (Str (strftime env date_format (fst kr)), snd kr).

(** A frame whose labels are the prints of a non-increasing sequence of
    timestamps that print back, and whose columns are in order, is left as
    it is. *)
Lemma sort_fixed_point ds (ordered : list (Z * list cell)) :
  pd.rows (DataStorage.df ds) = map print ordered ->
  pd.is_monotonic_decreasing (map fst ordered) = true ->
  (forall t, In t (map fst ordered) ->
     strptime env date_format (strftime env date_format t) = Some t) ->
  Sorted name_le (pd.columns (DataStorage.df ds)) ->
  pd.map_result stamp (pd.index (DataStorage.df ds)) = Ok (map fst ordered) /\
  DataStorage.sort_ds_dates env date_format ds = (Ok tt, ds).
Proof.
  intros Hrows Hmono Hback Hcols.
  assert (Hstamps : pd.map_result stamp (pd.index (DataStorage.df ds))
                    = Ok (map fst ordered)).
  { apply map_result_Forall2. unfold pd.index. rewrite Hrows.
    clear - Hback. induction ordered as [|kr l IH]; simpl; [constructor|].
    constructor.
    - unfold stamp, print. simpl. rewrite Hback; [reflexivity|simpl; auto].
    - apply IH. intros t Ht. apply Hback. simpl; auto. }
  split; [exact Hstamps|].
  rewrite sort_ds_dates_unfold. fold stamp. rewrite Hstamps. cbv zeta.
  assert (Hkeyed : combine (map fst ordered) (map snd (pd.rows (DataStorage.df ds)))
                   = ordered).
  { rewrite Hrows, map_map. unfold print. simpl.
    clear. induction ordered as [|[k r] l IH]; simpl; [reflexivity|].
    now rewrite IH. }
  assert (Hprinted : printed_frame env date_format (DataStorage.df ds) (map fst ordered)
                     = DataStorage.df ds).
  { unfold printed_frame. rewrite Hkeyed.
    rewrite sort_index_descending_sorted by exact Hmono.
    fold print. rewrite <- Hrows. apply frame_eta. }
  rewrite Hprinted, (sorted_fixed _ Hcols), reindex_columns_same.
  now rewrite with_df_df.
Qed.

(** Claim C6 (date sort).  For a table whose labels all parse under the
    format, print back to what was parsed and whose column names are
    distinct, and whatever sort pandas uses: [sort_ds_dates] succeeds; the
    labels it leaves parse to the timestamps of before, reordered so that
    none is later than the one before it; the columns are the columns of
    before, their names in non-decreasing order; and sorting the table it
    leaves succeeds and leaves that very table. *)
Theorem sort_orders_and_is_idempotent (ds : DataStorage.t) :
  keys_parse env date_format (DataStorage.df ds) ->
  prints_back env date_format (DataStorage.df ds) ->
  NoDup (pd.columns (DataStorage.df ds)) ->
  exists (ds' : DataStorage.t) (before after : list Z),
    DataStorage.sort_ds_dates env date_format ds = (Ok tt, ds') /\
    pd.map_result stamp (pd.index (DataStorage.df ds)) = Ok before /\
    pd.map_result stamp (pd.index (DataStorage.df ds')) = Ok after /\
    Permutation after before /\
    pd.is_monotonic_decreasing after = true /\
    Permutation (pd.columns (DataStorage.df ds')) (pd.columns (DataStorage.df ds)) /\
    Sorted name_le (pd.columns (DataStorage.df ds')) /\
    DataStorage.sort_ds_dates env date_format ds' = (Ok tt, ds').
Proof.
  intros Hparse Hback Hnd.
  destruct (map_result_total stamp _ Hparse) as (before & Hbefore).
  set (d := DataStorage.df ds) in *.
  set (keyed := combine before (map snd (pd.rows d))).
  set (ordered := pd.sort_index_descending (sorter env) keyed).
  destruct (sort_index_descending_spec (sorter env) keyed Hsorter) as [Hperm Hmono].
  fold ordered in Hperm, Hmono.
  assert (Hlen : List.length before = List.length (map snd (pd.rows d))).
  { apply map_result_Forall2 in Hbefore. apply Forall2_length in Hbefore.
    unfold pd.index in Hbefore. rewrite length_map in Hbefore.
    rewrite length_map. symmetry. exact Hbefore. }
  assert (Hkeys : map fst keyed = before) by (apply map_fst_combine; exact Hlen).
  set (printed := printed_frame env date_format d before).
  destruct (reindex_columns_ok (sorted (pd.columns printed)) printed Hnd)
    as (d' & Hd' & Hcols & Hidx & Hname).
  assert (Hrows' : pd.rows d' = map print
                     (combine (map fst ordered) (map snd (pd.rows d')))).
  { assert (Hi : map fst (pd.rows d')
                 = map (fun kr : Z * list cell =>
                          Str (strftime env date_format (fst kr))) ordered).
    { change (map fst (pd.rows d')) with (pd.index d'). rewrite Hidx.
      unfold pd.index, printed, printed_frame. simpl. fold keyed ordered.
      now rewrite map_map. }
    clear - Hi. revert Hi. generalize (pd.rows d'). clear.
    induction ordered as [|kr l IH]; intros [|r rs] H; simpl in *;
      try discriminate; [reflexivity|].
    inversion H as [[H1 H2]]. unfold print at 1. simpl.
    rewrite <- H1. rewrite <- (IH rs H2). now destruct r. }
  assert (Hlen' : List.length (map fst ordered) = List.length (map snd (pd.rows d'))).
  { rewrite !length_map.
    assert (Hi : List.length (pd.index d') = List.length ordered).
    { rewrite Hidx. unfold pd.index, printed, printed_frame. simpl.
      fold keyed ordered. now rewrite !length_map. }
    unfold pd.index in Hi. rewrite length_map in Hi. symmetry. exact Hi. }
  assert (Hfix := sort_fixed_point (DataStorage.with_df ds d')
                    (combine (map fst ordered) (map snd (pd.rows d')))).
  rewrite df_with_df, (map_fst_combine _ _ Hlen') in Hfix.
  destruct Hfix as [Hafter Hagain].
  - exact Hrows'.
  - exact Hmono.
  - intros t Ht.
    assert (Hin : In t before).
    { rewrite <- Hkeys. apply (Permutation_in _ (Permutation_map fst Hperm) Ht). }
    apply map_result_Forall2 in Hbefore.
    clear - Hbefore Hin Hback. unfold prints_back in Hback. fold stamp in Hback.
    induction Hbefore as [|k t' ks ts Hk _ IH]; [contradiction|].
    destruct Hin as [->|Hin].
    + apply (Hback k t); [simpl; auto|exact Hk].
    + apply IH; [|exact Hin]. intros k' t'' Hk'. apply Hback. simpl; auto.
  - rewrite Hcols. apply sorted_is_sorted.
  - exists (DataStorage.with_df ds d'), before, (map fst ordered).
    split.
    { rewrite sort_ds_dates_unfold. fold stamp d. rewrite Hbefore. cbv zeta.
      fold printed. now rewrite Hd'. }
    split; [exact Hbefore|]. split; [exact Hafter|].
    split; [rewrite <- Hkeys; apply Permutation_map; exact Hperm|].
    split; [exact Hmono|].
    rewrite df_with_df, Hcols.
    split; [apply sorted_perm|]. split; [apply sorted_is_sorted|exact Hagain].
Qed.
End DateSort.

Lemma insert_descending_perm x l : Permutation (insert_descending x l) (x :: l).
Proof.
  induction l as [|y l IH]; simpl; [reflexivity|].
  destruct (fst y <=? fst x)%Z; [reflexivity|].
  rewrite IH. apply perm_swap.
Qed.

Lemma insert_descending_monotonic x l :
  pd.is_monotonic_decreasing (map fst l) = true ->
  pd.is_monotonic_decreasing (map fst (insert_descending x l)) = true.
Proof.
  induction l as [|y l IH]; intros H; [reflexivity|].
  cbn [insert_descending]. destruct (fst y <=? fst x)%Z eqn:E.
  - change (((fst y <=? fst x)%Z
             && pd.is_monotonic_decreasing (map fst (y :: l))) = true).
    now rewrite E, H.
  - assert (Hxy : (fst x <=? fst y)%Z = true) by (apply Z.leb_le; apply Z.leb_gt in E; lia).
    assert (Hl : pd.is_monotonic_decreasing (map fst l) = true).
    { destruct l as [|z l]; [reflexivity|].
      cbn [map pd.is_monotonic_decreasing] in H. apply andb_true_iff in H. tauto. }
    specialize (IH Hl).
    destruct l as [|z l]; cbn [insert_descending map] in *.
    + cbn [pd.is_monotonic_decreasing]. now rewrite Hxy.
    + destruct (fst z <=? fst x)%Z eqn:Ez.
      * change (((fst x <=? fst y)%Z
                 && pd.is_monotonic_decreasing (map fst (x :: z :: l))) = true).
        now rewrite Hxy, IH.
      * cbn [pd.is_monotonic_decreasing] in H. apply andb_true_iff in H.
        destruct H as [Hzy _].
        change (((fst z <=? fst y)%Z
                 && pd.is_monotonic_decreasing
                      (map fst (z :: insert_descending x l))) = true).
        now rewrite Hzy, IH.
Qed.

Lemma demo_sorter_sorts : sorts_descending demo_sorter.
Proof.
  intros l. induction l as [|x l [IHp IHm]]; [split; [constructor|reflexivity]|].
  unfold demo_sorter in *. cbn [fold_right]. split.
  - rewrite insert_descending_perm. now constructor.
  - now apply insert_descending_monotonic.
Qed.

Lemma sort_orders_and_is_idempotent_witness :
  keys_parse demo_env "%Y-%m-%d" demo_table /\
  prints_back demo_env "%Y-%m-%d" demo_table /\
  NoDup (pd.columns demo_table) /\
  exists ds',
    DataStorage.sort_ds_dates demo_env "%Y-%m-%d" demo_storage = (Ok tt, ds') /\
    DataStorage.sort_ds_dates demo_env "%Y-%m-%d" ds' = (Ok tt, ds').
Proof.
  assert (H1 : keys_parse demo_env "%Y-%m-%d" (DataStorage.df demo_storage))
    by (repeat constructor; eexists; reflexivity).
  assert (H2 : prints_back demo_env "%Y-%m-%d" (DataStorage.df demo_storage))
    by (intros k t [<-|[<-|[]]] Hk; vm_compute in Hk; inversion Hk; reflexivity).
  assert (H3 : NoDup (pd.columns (DataStorage.df demo_storage)))
    by (apply NoDup_cons;
        [simpl; intros [h|[]]; discriminate h
        |apply NoDup_cons; [simpl; tauto|apply NoDup_nil]]).
  split; [exact H1|]. split; [exact H2|]. split; [exact H3|].
  destruct (sort_orders_and_is_idempotent demo_env "%Y-%m-%d" demo_sorter_sorts
              demo_storage H1 H2 H3)
    as (ds' & before & after & Hs & _ & _ & _ & _ & _ & _ & Hagain).
  exists ds'. split; [exact Hs|exact Hagain].
Defined.

(* ------------------------------------------------------------------ *)
(** ** The intersection: [DataStorage.intersect_on_column] *)
(* ------------------------------------------------------------------ *)

Lemma get_col_Ok d c s :
  pd.get_col d c = Ok s <->
  exists j, pd.position c (pd.columns d) = Some j /\
            count_occ string_dec (pd.columns d) c <= 1 /\
            s = map (fun r => pd.cell_of r j) (pd.rows d).
Proof.
  unfold pd.get_col. destruct (pd.position c (pd.columns d)) as [j|].
  - destruct (1 <? count_occ string_dec (pd.columns d) c)%nat eqn:E.
    + apply Nat.ltb_lt in E. split; [discriminate|].
      intros (j' & _ & H & _). lia.
    + apply Nat.ltb_ge in E. split.
      * intros H; inversion H; subst. eauto.
      * intros (j' & Hj & _ & ->). inversion Hj; subst. reflexivity.
  - split; [discriminate|]. intros (j' & Hj & _). discriminate.
Qed.

Lemma position_Some_lt c : forall l j,
  pd.position c l = Some j -> j < List.length l.
Proof.
  induction l as [|y l IH]; intros j H; simpl in H; [discriminate|].
  destruct (String.eqb y c).
  - inversion H; subst. simpl. lia.
  - destruct (pd.position c l) as [q|]; [|discriminate].
    inversion H; subst. simpl. specialize (IH q eq_refl). lia.
Qed.

Lemma position_map (f : string -> string) c : forall l,
  (forall n, In n l -> (f n = c <-> n = c)) ->
  pd.position c (map f l) = pd.position c l /\
  count_occ string_dec (map f l) c = count_occ string_dec l c.
Proof.
  induction l as [|y l IH]; intros H; simpl; [auto|].
  destruct (IH (fun n Hn => H n (or_intror Hn))) as [IH1 IH2].
  rewrite IH1, IH2. specialize (H y (or_introl eq_refl)).
  destruct (String.eqb_spec y c) as [->|Hn].
  - assert (Hf : f c = c) by (apply H; reflexivity).
    rewrite Hf, String.eqb_refl. destruct (string_dec c c); [auto|congruence].
  - assert (Hf : f y <> c) by (intro h; apply Hn, H, h).
    destruct (String.eqb_spec (f y) c); [congruence|].
    destruct (string_dec (f y) c); [congruence|].
    destruct (string_dec y c); [congruence|]. auto.
Qed.

Lemma position_app c a b j :
  pd.position c a = Some j -> pd.position c (a ++ b)%list = Some j.
Proof.
  revert j; induction a as [|y a IH]; intros j H; simpl in *; [discriminate|].
  destruct (String.eqb y c); [exact H|].
  destruct (pd.position c a) as [q|]; [|discriminate].
  now rewrite (IH q eq_refl).
Qed.


Lemma remove_nth_absent c : forall l j,
  pd.position c l = Some j -> count_occ string_dec l c <= 1 ->
  ~ In c (pd.remove_nth j l).
Proof.
  induction l as [|y l IH]; intros j H Hc; simpl in *; [discriminate|].
  destruct (String.eqb_spec y c) as [->|Hn].
  - inversion H; subst. destruct (string_dec c c); [|congruence].
    intros Hin. apply (count_occ_In string_dec) in Hin. simpl in Hin, Hc.
    unfold gt in Hin. lia.
  - destruct (pd.position c l) as [q|] eqn:E; [|discriminate].
    inversion H; subst. destruct (string_dec y c); [congruence|].
    simpl. intros [h|h]; [congruence|]. now apply (IH q eq_refl Hc).
Qed.

Lemma remove_nth_length {A} : forall (l : list A) j,
  j < List.length l -> S (List.length (pd.remove_nth j l)) = List.length l.
Proof.
  induction l as [|y l IH]; intros [|j] H; simpl in *; try lia.
  rewrite IH; lia.
Qed.

Lemma remove_nth_In {A} (x : A) : forall l j, In x (pd.remove_nth j l) -> In x l.
Proof.
  induction l as [|y l IH]; intros [|j] H; simpl in *; auto.
  destruct H; eauto.
Qed.

Lemma range_from_length n : forall s, List.length (pd.range_from s n) = n.
Proof. induction n; intros; simpl; auto. Qed.


(** *** Kinds *)


Lemma one_kind_same_kinds l : pd.one_kind l = true <-> same_kinds l.
Proof.
  induction l as [|a l IH]; simpl.
  - split; [intros _ x y []|reflexivity].
  - rewrite andb_true_iff, forallb_forall, IH. split.
    + intros [Ha Hl] x y [<-|Hx] [<-|Hy]; auto.
      * specialize (Ha y Hy). apply orb_true_iff in Ha. destruct Ha as [Ha|Ha].
        -- apply orb_true_iff in Ha. tauto.
        -- apply Nat.eqb_eq in Ha. auto.
      * specialize (Ha x Hx). apply orb_true_iff in Ha. destruct Ha as [Ha|Ha].
        -- apply orb_true_iff in Ha. tauto.
        -- apply Nat.eqb_eq in Ha. auto.
    + intros H. split.
      * intros y Hy. destruct (H a y (or_introl eq_refl) (or_intror Hy)) as [h|[h|h]];
          rewrite ?h, ?orb_true_r; auto. now rewrite Nat.eqb_refl, orb_true_r.
      * intros x y Hx Hy. apply H; simpl; auto.
Qed.

Lemma same_kinds_incl l l' : same_kinds l -> incl l' l -> same_kinds l'.
Proof. intros H Hi x y Hx Hy. apply H; auto. Qed.

(** *** The ordered merge *)

Lemma insert_cell_In x v : forall l, In v (pd.insert_cell x l) <-> v = x \/ In v l.
Proof.
  induction l as [|y l IH]; simpl; [intuition|].
  destruct (pd.cell_leb x y); simpl; [intuition|]. rewrite IH. intuition.
Qed.

Lemma sort_cells_In v l : In v (pd.sort_cells l) <-> In v l.
Proof.
  induction l as [|x l IH]; simpl; [tauto|].
  unfold pd.sort_cells in *. simpl. rewrite insert_cell_In, IH. intuition.
Qed.

Lemma map_snd_rows {B} (g : list cell -> B) : forall (lab : list cell) (body : list (list cell)),
  List.length lab = List.length body ->
  map (fun r : pd.row => g (snd r)) (combine lab body) = map g body.
Proof.
  induction lab as [|a lab IH]; intros [|b body] H; simpl in *; try discriminate;
    [reflexivity|]. f_equal. apply IH. lia.
Qed.

Lemma merge_ordered_spec left right c lk rk :
  pd.well_formed left -> pd.well_formed right ->
  pd.get_col left c = Ok lk -> pd.get_col right c = Ok rk ->
  same_kinds (lk ++ rk)%list -> plain_name c ->
  exists m mk,
    pd.merge_ordered left right c = Ok m /\
    pd.well_formed m /\
    pd.get_col m c = Ok mk /\
    (forall v, In v mk <-> In v lk /\ In v rk).
Proof.
  intros Wl Wr Hl Hr Hk Hplain.
  pose proof Hl as Hl'. pose proof Hr as Hr'.
  apply get_col_Ok in Hl'. destruct Hl' as (jl & Pl & Cl & ->).
  apply get_col_Ok in Hr'. destruct Hr' as (jr & Pr & Cr & ->).
  unfold pd.merge_ordered. rewrite Hl, Hr. simpl.
  apply one_kind_same_kinds in Hk. rewrite Hk. simpl. rewrite Pl, Pr.
  set (lk := map (fun r => pd.cell_of r jl) (pd.rows left)) in *.
  set (rk := map (fun r => pd.cell_of r jr) (pd.rows right)) in *.
  set (rothers := pd.remove_nth jr (pd.columns right)).
  set (lothers := pd.remove_nth jl (pd.columns left)).
  set (lname := fun n : string =>
         if negb (String.eqb n c) && pd.mem_name n rothers then n ++ "_x" else n).
  set (rname := fun n : string => if pd.mem_name n lothers then n ++ "_y" else n).
  set (keys := pd.sort_cells (pd.uniq_cells [] (filter (fun k => pd.mem_cell k rk) lk))).
  set (paired := flat_map _ keys).
  set (mcols := (map lname (pd.columns left) ++ map rname rothers)%list).
  assert (Hjl : jl < List.length (pd.columns left)) by (eapply position_Some_lt; eauto).
  assert (Hjr : jr < List.length (pd.columns right)) by (eapply position_Some_lt; eauto).
  (* the key column in the result *)
  assert (Hlname : forall n, In n (pd.columns left) -> (lname n = c <-> n = c)).
  { intros n _. unfold lname. destruct (String.eqb_spec n c) as [->|Hn]; simpl.
    - tauto.
    - destruct (pd.mem_name n rothers); [|tauto].
      split; [|tauto]. intros h. exfalso. apply (proj1 (Hplain n)). now rewrite h. }
  destruct (position_map lname c (pd.columns left) Hlname) as [Pm Cm].
  assert (Hrname : forall n, In n rothers -> rname n <> c).
  { intros n Hn. unfold rname.
    assert (n <> c).
    { intros ->. revert Hn. apply remove_nth_absent; assumption. }
    destruct (pd.mem_name n lothers); [|assumption].
    intros h. apply (proj2 (Hplain n)). now rewrite h. }
  assert (Hright : ~ In c (map rname rothers)).
  { intros Hin. apply in_map_iff in Hin. destruct Hin as (n & Hn & Hin).
    now apply (Hrname n). }
  assert (Pmc : pd.position c mcols = Some jl).
  { apply position_app. now rewrite Pm. }
  assert (Cmc : count_occ string_dec mcols c <= 1).
  { unfold mcols. rewrite count_occ_app, Cm, (proj1 (count_occ_not_In string_dec _ _) Hright). lia. }
  (* the rows of the result *)
  assert (Hpaired : forall cells, In cells paired ->
            exists k l r, In k keys /\
              In l (pd.rows left) /\ pd.cell_of l jl = k /\
              In r (pd.rows right) /\ pd.cell_of r jr = k /\
              cells = (snd l ++ pd.remove_nth jr (snd r))%list).
  { intros cells Hc. unfold paired in Hc.
    apply in_flat_map in Hc. destruct Hc as (k & Hkk & Hc).
    apply in_flat_map in Hc. destruct Hc as (l & Hlin & Hc).
    apply in_map_iff in Hc. destruct Hc as (r & <- & Hrin).
    apply filter_In in Hlin. destruct Hlin as [Hlin Hlk].
    apply filter_In in Hrin. destruct Hrin as [Hrin Hrk].
    apply cell_eqb_eq in Hlk, Hrk. exists k, l, r. auto 10. }
  assert (Hpaired' : forall k l r, In k keys ->
            In l (pd.rows left) -> pd.cell_of l jl = k ->
            In r (pd.rows right) -> pd.cell_of r jr = k ->
            In (snd l ++ pd.remove_nth jr (snd r))%list paired).
  { intros k l r Hkk Hlin Hlk Hrin Hrk. unfold paired.
    apply in_flat_map. exists k. split; [exact Hkk|].
    apply in_flat_map. exists l. split.
    - apply filter_In. split; [exact Hlin|]. now apply cell_eqb_eq.
    - apply in_map_iff. exists r. split; [reflexivity|].
      apply filter_In. split; [exact Hrin|]. now apply cell_eqb_eq. }
  assert (Hkeys : forall v, In v keys <-> In v lk /\ In v rk).
  { intros v. unfold keys. rewrite sort_cells_In, uniq_cells_In, filter_In.
    rewrite mem_cell_In. simpl. tauto. }
  assert (Hkeycell : forall l X, In l (pd.rows left) ->
            nth jl (snd l ++ X)%list NaN = pd.cell_of l jl).
  { intros l X Hlin. unfold pd.cell_of. apply app_nth1.
    unfold pd.well_formed in Wl. rewrite Forall_forall in Wl.
    rewrite (Wl l Hlin). exact Hjl. }
  eexists. eexists. split; [reflexivity|]. split; [|split].
  - (* well formed *)
    unfold pd.well_formed. simpl. apply Forall_forall. intros [lab cells] Hin.
    apply in_combine_r in Hin. simpl.
    destruct (Hpaired cells Hin) as (k & l & r & _ & Hlin & _ & Hrin & _ & ->).
    unfold pd.well_formed in Wl, Wr. rewrite Forall_forall in Wl, Wr.
    fold mcols. unfold mcols. rewrite !length_app, !length_map.
    rewrite (Wl l Hlin). f_equal.
    pose proof (remove_nth_length (snd r) jr) as H1.
    pose proof (remove_nth_length (pd.columns right) jr Hjr) as H2.
    rewrite (Wr r Hrin) in H1. specialize (H1 Hjr). fold rothers in H2. lia.
  - apply get_col_Ok. exists jl. simpl. fold mcols. auto.
  - intros v. simpl.
    rewrite (map_snd_rows (fun cells => nth jl cells NaN))
      by (apply range_from_length).
    rewrite in_map_iff. split.
    + intros (cells & Hv & Hin).
      destruct (Hpaired cells Hin) as (k & l & r & Hkk & Hlin & Hlk & _ & _ & ->).
      rewrite (Hkeycell l _ Hlin), Hlk in Hv. subst v. now apply Hkeys.
    + intros Hv. pose proof (proj2 (Hkeys v) Hv) as Hkk.
      destruct Hv as [Hvl Hvr]. unfold lk in Hvl. unfold rk in Hvr.
      apply in_map_iff in Hvl. destruct Hvl as (l & Hlk & Hlin).
      apply in_map_iff in Hvr. destruct Hvr as (r & Hrk & Hrin).
      exists (snd l ++ pd.remove_nth jr (snd r))%list. split.
      * now rewrite (Hkeycell l _ Hlin).
      * now apply (Hpaired' v l r).
Qed.

(** *** Dropping the other columns *)

Lemma list_remove_In c x : forall l, In x (list_remove c l) -> In x l.
Proof.
  induction l as [|y l IH]; simpl; [tauto|].
  destruct (String.eqb y c); simpl; intuition.
Qed.

Lemma list_remove_others c x : forall l, In x l -> x <> c -> In x (list_remove c l).
Proof.
  induction l as [|y l IH]; simpl; [tauto|].
  intros [->|H] Hn.
  - destruct (String.eqb_spec x c); [congruence|simpl; auto].
  - destruct (String.eqb y c); simpl; auto.
Qed.

Lemma list_remove_once c : forall l,
  count_occ string_dec l c <= 1 -> ~ In c (list_remove c l).
Proof.
  induction l as [|y l IH]; simpl; [tauto|].
  destruct (String.eqb_spec y c) as [->|Hn].
  - destruct (string_dec c c); [|congruence]. intros H Hin.
    apply (count_occ_In string_dec) in Hin. unfold gt in Hin. lia.
  - destruct (string_dec y c); [congruence|]. intros H [h|h]; [congruence|].
    now apply IH.
Qed.

Lemma keep_where_length {A} keep : forall names (l : list A),
  List.length l = List.length names ->
  List.length (pd.keep_where keep names l) = List.length (filter keep names).
Proof.
  induction names as [|n names IH]; intros [|x l] H; simpl in *; try discriminate;
    [reflexivity|].
  destruct (keep n); simpl; rewrite IH; auto.
Qed.

Lemma keep_where_key keep c : forall names j,
  keep c = true -> pd.position c names = Some j ->
  exists j', pd.position c (filter keep names) = Some j' /\
    forall cells : list cell, List.length cells = List.length names ->
      nth j' (pd.keep_where keep names cells) NaN = nth j cells NaN.
Proof.
  induction names as [|n names IH]; intros j Hk H; simpl in H; [discriminate|].
  destruct (String.eqb_spec n c) as [->|Hn].
  - inversion H; subst. simpl. rewrite Hk. simpl. rewrite String.eqb_refl.
    exists 0. split; [reflexivity|]. intros [|x cells] Hl; [discriminate|reflexivity].
  - destruct (pd.position c names) as [q|] eqn:E; [|discriminate].
    inversion H; subst. destruct (IH q Hk eq_refl) as (j' & Hj' & Hc).
    simpl. destruct (keep n) eqn:En.
    + exists (S j'). simpl. destruct (String.eqb_spec n c); [congruence|].
      rewrite Hj'. split; [reflexivity|].
      intros [|x cells] Hl; [discriminate|]. simpl. apply Hc. simpl in Hl. lia.
    + exists j'. split; [exact Hj'|].
      intros [|x cells] Hl; [discriminate|]. simpl. apply Hc. simpl in Hl. lia.
Qed.

Lemma count_occ_filter keep c : forall names,
  count_occ string_dec (filter keep names) c <= count_occ string_dec names c.
Proof.
  induction names as [|n names IH]; simpl; [lia|].
  destruct (keep n); simpl; destruct (string_dec n c); lia.
Qed.

Lemma drop_other_columns m c s :
  pd.well_formed m -> pd.get_col m c = Ok s ->
  exists m', pd.drop_columns (list_remove c (pd.columns m)) m = Ok m' /\
             pd.well_formed m' /\ pd.get_col m' c = Ok s.
Proof.
  intros W H. apply get_col_Ok in H. destruct H as (j & P & C & ->).
  unfold pd.drop_columns.
  assert (Hnone : filter (fun n => negb (pd.mem_name n (pd.columns m)))
                         (list_remove c (pd.columns m)) = []).
  { destruct (filter _ _) as [|x l] eqn:E; [reflexivity|].
    assert (Hx : In x (filter (fun n => negb (pd.mem_name n (pd.columns m)))
                              (list_remove c (pd.columns m))))
      by (rewrite E; simpl; auto).
    apply filter_In in Hx. destruct Hx as [Hx1 Hx2].
    apply list_remove_In, mem_name_In in Hx1. rewrite Hx1 in Hx2. discriminate. }
  rewrite Hnone.
  set (keep := fun c0 => negb (pd.mem_name c0 (list_remove c (pd.columns m)))).
  assert (Hk : keep c = true).
  { unfold keep. apply negb_true_iff, mem_name_false. now apply list_remove_once. }
  destruct (keep_where_key keep c (pd.columns m) j Hk P) as (j' & Pj' & Hcells).
  eexists. split; [reflexivity|]. split.
  - unfold pd.well_formed in *. simpl. rewrite Forall_forall in *.
    intros r Hr. apply in_map_iff in Hr. destruct Hr as (r0 & <- & Hr0). simpl.
    apply keep_where_length. now apply W.
  - apply get_col_Ok. exists j'. simpl. split; [exact Pj'|]. split.
    + pose proof (count_occ_filter keep c (pd.columns m)). lia.
    + rewrite map_map. apply map_ext_in. intros r Hr. unfold pd.cell_of. simpl.
      symmetry. apply Hcells.
      unfold pd.well_formed in W. rewrite Forall_forall in W. now apply W.
Qed.

(** *** The final filter *)

Lemma select_rows_isin common j : forall rs,
  map snd (filter fst (combine
     (pd.isin (map (fun r : pd.row => pd.cell_of r j) rs) common) rs))
  = filter (fun r : pd.row => pd.mem_cell (pd.cell_of r j) common) rs.
Proof.
  induction rs as [|r rs IH]; simpl; [reflexivity|].
  destruct (pd.mem_cell (pd.cell_of r j) common); simpl; now rewrite IH.
Qed.

Lemma select_rows_with_key_in common c d s :
  pd.get_col d c = Ok s ->
  pd.select_rows (pd.isin s common) d = rows_with_key_in common c d.
Proof.
  intros H. apply get_col_Ok in H. destruct H as (j & P & _ & ->).
  unfold pd.select_rows, rows_with_key_in. rewrite P. f_equal.
  apply select_rows_isin.
Qed.

Lemma rows_with_key_in_values common c d s :
  pd.get_col d c = Ok s ->
  pd.get_col (rows_with_key_in common c d) c
  = Ok (filter (fun v => pd.mem_cell v common) s).
Proof.
  intros H. apply get_col_Ok in H. destruct H as (j & P & C & ->).
  apply get_col_Ok. exists j. unfold rows_with_key_in. rewrite P. simpl.
  split; [exact P|]. split; [exact C|].
  induction (pd.rows d) as [|r rs IH]; simpl; [reflexivity|].
  destruct (pd.mem_cell (pd.cell_of r j) common); simpl; now rewrite IH.
Qed.

(** *** The intersection *)

Lemma column_values_get d c s : pd.get_col d c = Ok s -> column_values d c = s.
Proof. unfold column_values. now intros ->. Qed.

Lemma map_result_all {A B} (f : A -> result B) (g : A -> B) l :
  (forall x, In x l -> f x = Ok (g x)) -> pd.map_result f l = Ok (map g l).
Proof.
  induction l as [|x l IH]; intros H; simpl; [reflexivity|].
  rewrite (H x (or_introl eq_refl)). simpl.
  rewrite IH by (intros y Hy; apply H; simpl; auto). reflexivity.
Qed.

Section Intersection.
Variable c : string.
Variable everything : list cell.
Hypothesis Hplain : plain_name c.
Hypothesis Hkinds : same_kinds everything.

Let step := fun (acc : result pd.DataFrame) (dfi : pd.DataFrame) =>
  rbind acc (fun intersection_df =>
  rbind (pd.merge_ordered intersection_df dfi c) (fun merged =>
    pd.drop_columns (list_remove c (pd.columns merged)) merged)).

Lemma intersect_fold : forall others acc vals,
  pd.well_formed acc -> pd.get_col acc c = Ok vals -> incl vals everything ->
  Forall (fun d => pd.well_formed d /\
                   exists s, pd.get_col d c = Ok s /\ incl s everything) others ->
  exists acc' vals',
    fold_left step others (Ok acc) = Ok acc' /\
    pd.get_col acc' c = Ok vals' /\
    (forall v, In v vals' <->
               In v vals /\ forall d, In d others -> In v (column_values d c)).
Proof.
  induction others as [|d others IH]; intros acc vals W H Hin Hall.
  - exists acc, vals. simpl. split; [reflexivity|]. split; [exact H|].
    intros v. split; [intros; split; [assumption|intros ? []]|tauto].
  - inversion Hall as [|? ? (Wd & s & Hs & Hsin) Hall']; subst.
    destruct (merge_ordered_spec acc d c vals s W Wd H Hs) as (m & mk & Hm & Wm & Hmk & Hset).
    { eapply same_kinds_incl; [exact Hkinds|]. now apply incl_app. }
    { exact Hplain. }
    destruct (drop_other_columns m c mk Wm Hmk) as (m' & Hdrop & Wm' & Hmk').
    destruct (IH m' mk Wm' Hmk') as (acc' & vals' & Hfold & Hget & Hset').
    { intros v Hv. apply Hin. now apply Hset. }
    { exact Hall'. }
    exists acc', vals'. split.
    + cbn [fold_left]. assert (Hstep : step (Ok acc) d = Ok m')
        by (unfold step; simpl; rewrite Hm; simpl; exact Hdrop).
      rewrite Hstep. exact Hfold.
    + split; [exact Hget|]. intros v. rewrite Hset', Hset.
      rewrite <- (column_values_get _ _ _ Hs). split.
      * intros [[H1 H2] H3]. split; [exact H1|].
        intros d' [<-|Hd']; auto.
      * intros [H1 H2]. repeat split; auto. 
        -- apply H2. simpl; auto.
        -- intros d' Hd'. apply H2. simpl; auto.
Qed.
End Intersection.


Lemma date_is_plain : plain_name "date".
Proof.
  intros n. split; intros H;
    repeat (destruct n as [|? n]; simpl in H; try discriminate H;
            injection H as ? H).
Qed.


(* ------------------------------------------------------------------ *)
(** ** The symbol of an [FMP] object *)
(* ------------------------------------------------------------------ *)

Lemma find_from_absent c s pos :
  ~ In c (list_ascii_of_string s) -> find_from c s pos = (-1)%Z.
Proof.
  revert pos; induction s as [|d s IH]; intros pos H; simpl; [reflexivity|].
  destruct (Ascii.eqb_spec d c) as [->|Hn].
  - exfalso; apply H; simpl; auto.
  - apply IH. intro Hin; apply H; simpl; auto.
Qed.

Lemma find_from_first c p rest pos :
  ~ In c (list_ascii_of_string p) ->
  find_from c (p ++ String c rest) pos = (pos + Z.of_nat (String.length p))%Z.
Proof.
  revert pos; induction p as [|d p IH]; intros pos H; simpl.
  - rewrite Ascii.eqb_refl. lia.
  - destruct (Ascii.eqb_spec d c) as [->|Hn].
    + exfalso; apply H; simpl; auto.
    + rewrite IH; [lia|]. intro Hin; apply H; simpl; auto.
Qed.

Lemma substring_prefix p x : substring 0 (String.length p) (p ++ x) = p.
Proof.
  induction p as [|d p IH]; simpl.
  - destruct x; reflexivity.
  - now rewrite IH.
Qed.





Lemma keeps_path_bind {A B} (m : M DataStorage.t A) (k : A -> M DataStorage.t B) :
  keeps_path m -> (forall a, keeps_path (k a)) -> keeps_path (bind m k).
Proof.
  intros Hm Hk ds r ds'. unfold bind.
  destruct (m ds) as [[a|e] s1] eqn:E; intros H.
  - rewrite (Hk a _ _ _ H). eapply Hm; eauto.
  - inversion H; subst. eapply Hm; eauto.
Qed.

Lemma keeps_identity_bind {A B} (m : M FMP.t A) (k : A -> M FMP.t B) :
  keeps_identity m -> (forall a, keeps_identity (k a)) -> keeps_identity (bind m k).
Proof.
  intros Hm Hk s r s'. unfold bind.
  destruct (m s) as [[a|e] s1] eqn:E; intros H.
  - destruct (Hk a _ _ _ H) as (h1 & h2 & h3).
    destruct (Hm _ _ _ E) as (g1 & g2 & g3).
    repeat split; congruence.
  - inversion H; subst. eapply Hm; eauto.
Qed.

Lemma keeps_identity_ret {A} (a : A) : keeps_identity (ret a).
Proof. intros s r s' H; inversion H; subst; repeat split. Qed.

Lemma keeps_path_get : keeps_path get.
Proof. intros s r s' H; inversion H; subst; reflexivity. Qed.

Lemma keeps_path_lift {A} (x : result A) : keeps_path (lift x).
Proof. intros s r s' H; inversion H; subst; reflexivity. Qed.

Lemma keeps_path_set_df d : keeps_path (DataStorage.set_df d).
Proof. intros s r s' H; inversion H; subst; reflexivity. Qed.

Lemma keeps_path_add_column c v : keeps_path (DataStorage.add_column c v).
Proof. intros s r s' H; inversion H; subst; reflexivity. Qed.

Lemma keeps_path_read_data fs ic : keeps_path (DataStorage.read_data fs ic).
Proof.
  intros s r s'. unfold DataStorage.read_data.
  destruct (read_file _ fs); [destruct (pd.read_csv _ _ _)|];
    intros H; inversion H; subst; reflexivity.
Qed.

Lemma keeps_path_set_index_inplace c : keeps_path (FMP.set_index_inplace c).
Proof.
  unfold FMP.set_index_inplace.
  apply keeps_path_bind; [apply keeps_path_get|]. intros ds.
  apply keeps_path_bind; [apply keeps_path_lift|]. intros d.
  apply keeps_path_set_df.
Qed.

Lemma keeps_identity_on_news {A} (m : M DataStorage.t A) :
  keeps_path m -> keeps_identity (FMP.on_news m).
Proof.
  intros Hm s r s'. unfold FMP.on_news.
  destruct (m (FMP.news_ds s)) as [r' ds'] eqn:E.
  intros H; inversion H; subst. repeat split; simpl; eauto.
Qed.

Lemma keeps_identity_on_social_sentiment {A} (m : M DataStorage.t A) :
  keeps_path m -> keeps_identity (FMP.on_social_sentiment m).
Proof.
  intros Hm s r s'. unfold FMP.on_social_sentiment.
  destruct (m (FMP.social_sentiment_ds s)) as [r' ds'] eqn:E.
  intros H; inversion H; subst. repeat split; simpl; eauto.
Qed.

Create HintDb identity.
#[local] Hint Resolve keeps_path_get keeps_path_lift keeps_path_set_df
  keeps_path_add_column keeps_path_read_data keeps_path_set_index_inplace
  keeps_identity_ret keeps_identity_on_news keeps_identity_on_social_sentiment
  : identity.

Lemma keeps_identity_load_data fs : keeps_identity (FMP._load_data fs).
Proof.
  unfold FMP._load_data.
  repeat (first
    [ apply keeps_identity_bind; [|intros ?]
    | match goal with |- keeps_identity (if ?b then _ else _) => destruct b end
    | solve [auto with identity] ]).
Qed.



(* ================================================================== *)
(** * Part III: further properties of the code *)
(* ================================================================== *)

(* ------------------------------------------------------------------ *)
(** ** Whole runs of the loop of [FMP._read_entries] *)
(* ------------------------------------------------------------------ *)

Lemma field_of_last_page rl records key :
  records <> [] ->
  field_of_last (rl ++ records)%list key = field_of_last records key.
Proof.
  intros H. unfold field_of_last. rewrite rev_app_distr.
  destruct (rev records) as [|r rs] eqn:E; [|reflexivity].
  exfalso. apply H. apply (f_equal (@rev _)) in E. now rewrite rev_involutive in E.
Qed.

Lemma paging_goes_on env url cc fuel cp rl clock starts :
  goes_on cc (page_of env url (cp + 1)) ->
  FMP.paging env url cc (S fuel) cp rl clock starts
  = FMP.paging env url cc fuel (cp + 1)%Z
      (rl ++ page_of env url (cp + 1))%list
      (next_start env (cp + 1)%Z clock) (starts ++ [clock])%list.
Proof.
  intros [Hne Hcc]. cbn [FMP.paging]. cbv zeta. fold (page_of env url (cp + 1)).
  replace (Nat.eqb (List.length (page_of env url (cp + 1))) 0) with false
    by (symmetry; apply Nat.eqb_neq; destruct (page_of env url (cp + 1));
        [congruence|discriminate]).
  destruct cc as [c|]; [|reflexivity].
  destruct Hcc as (v & Hv & Hno).
  now rewrite (field_of_last_page _ _ _ Hne), Hv, Hno.
Qed.

Lemma paging_run env url cc : forall n fuel cp rl clock starts,
  (forall i, (i < n)%nat -> goes_on cc (page_of env url (cp + 1 + Z.of_nat i))) ->
  exists clock' starts',
    FMP.paging env url cc (n + fuel) cp rl clock starts
    = FMP.paging env url cc fuel (cp + Z.of_nat n)%Z
        (rl ++ pages_from env url (cp + 1) n)%list clock' starts' /\
    List.length starts' = (List.length starts + n)%nat.
Proof.
  induction n as [|n IH]; intros fuel cp rl clock starts H.
  - exists clock, starts. simpl. rewrite Z.add_0_r, app_nil_r. split; [reflexivity|lia].
  - assert (H0 : goes_on cc (page_of env url (cp + 1))).
    { specialize (H 0%nat ltac:(lia)). now rewrite Z.add_0_r in H. }
    change (S n + fuel)%nat with (S (n + fuel)).
    rewrite (paging_goes_on _ _ _ _ _ _ _ _ H0).
    destruct (IH fuel (cp + 1)%Z (rl ++ page_of env url (cp + 1))%list
                 (next_start env (cp + 1)%Z clock) (starts ++ [clock])%list)
      as (clock' & starts' & Hrun & Hlen).
    { intros i Hi. specialize (H (S i) ltac:(lia)).
      replace (cp + 1 + 1 + Z.of_nat i)%Z with (cp + 1 + Z.of_nat (S i))%Z by lia.
      exact H. }
    exists clock', starts'. split.
    + rewrite Hrun. f_equal; [lia|]. cbn [pages_from]. now rewrite <- app_assoc.
    + rewrite Hlen, length_app. simpl. lia.
Qed.

Lemma paging_stops_on_match env url cc fuel cp rl clock starts earlier last v :
  http_get env (replace url FMP._PAGE_PLACEHOLDER (str_of_Z (cp + 1)))
  = (earlier ++ [last])%list ->
  pd.field last (FMP.dict_key cc) = Some v ->
  In v (FMP.referenceValues cc) ->
  FMP.why (FMP.paging env url (Some cc) (S fuel) cp rl clock starts)
  = FMP.CROSS_CHECK_HIT /\
  FMP.response_list (FMP.paging env url (Some cc) (S fuel) cp rl clock starts)
  = (rl ++ earlier ++ [last])%list /\
  FMP.curr_page (FMP.paging env url (Some cc) (S fuel) cp rl clock starts)
  = (cp + 1)%Z.
Proof.
  intros Hpage Hfield Hin. cbn [FMP.paging]. cbv zeta. rewrite Hpage.
  replace (Nat.eqb (List.length (earlier ++ [last])%list) 0) with false
    by (symmetry; apply Nat.eqb_neq; rewrite length_app; simpl; lia).
  rewrite field_of_last_app, Hfield, (eq_any_reference _ _ Hin). simpl.
  repeat split.
Qed.

(** Property X1.  A run whose pages 0 to [n - 1] each let the loop go on and
    whose page [n] is empty ends, given fuel for [n + 1] iterations, at the
    first [break]: [n + 1] requests were made and the batch is the pages 0
    to [n - 1] in order. *)
Theorem run_reads_up_to_the_empty_page (env : Env) (url : string)
        (cc : option FMP.cross_check_t) (n fuel : nat) :
  (forall i, (i < n)%nat -> goes_on cc (page_of env url (Z.of_nat i))) ->
  page_of env url (Z.of_nat n) = [] ->
  let e := FMP.paging env url cc (n + S fuel) (-1)%Z [] 0%Q [] in
  FMP.why e = FMP.EMPTY_PAGE /\
  FMP.response_list e = pages_from env url 0 n /\
  FMP.curr_page e = Z.of_nat n /\
  List.length (FMP.loop_starts e) = S n.
Proof.
  intros Hgo Hempty.
  destruct (paging_run env url cc n (S fuel) (-1)%Z [] 0%Q []) as (clock & starts & Hrun & Hlen).
  { intros i Hi. replace (-1 + 1 + Z.of_nat i)%Z with (Z.of_nat i) by lia. auto. }
  cbv zeta. rewrite Hrun. cbn [FMP.paging]. cbv zeta.
  replace (-1 + Z.of_nat n + 1)%Z with (Z.of_nat n) by lia.
  fold (page_of env url (Z.of_nat n)). rewrite Hempty. simpl.
  repeat split. rewrite length_app, Hlen. simpl. lia.
Qed.

Lemma run_reads_up_to_the_empty_page_witness :
  (forall i, (i < 2)%nat ->
     goes_on None (page_of demo_env (demo_page "BMW" "$$$") (Z.of_nat i))) /\
  let e := FMP.paging demo_env (demo_page "BMW" "$$$") None 3 (-1)%Z [] 0%Q [] in
  FMP.why e = FMP.EMPTY_PAGE /\ List.length (FMP.response_list e) = 4.
Proof.
  assert (H : forall i, (i < 2)%nat ->
                goes_on None (page_of demo_env (demo_page "BMW" "$$$") (Z.of_nat i))).
  { intros [|[|i]] Hi; [split; [discriminate|exact I]..|lia]. }
  split; [exact H|].
  assert (T := run_reads_up_to_the_empty_page demo_env (demo_page "BMW" "$$$")
                 None 2 0 H eq_refl).
  cbv zeta in T. destruct T as (T1 & T2 & _). cbv zeta.
  split; [exact T1|]. change (2 + 1) with 3 in T2. rewrite T2. reflexivity.
Defined.

(** Property X2.  A run whose pages 0 to [n - 1] each let the loop go on and
    whose page [n] ends on a record matching the cross-check stops there,
    given fuel for [n + 1] iterations, as [CROSS_CHECK_HIT]: the batch is
    the pages 0 to [n] in order, so it has as many records as those pages
    together. *)
Theorem run_stops_at_the_first_hit (env : Env) (url : string)
        (cc : FMP.cross_check_t) (n fuel : nat)
        (earlier : list pd.record) (last : pd.record) (v : cell) :
  (forall i, (i < n)%nat -> goes_on (Some cc) (page_of env url (Z.of_nat i))) ->
  page_of env url (Z.of_nat n) = (earlier ++ [last])%list ->
  pd.field last (FMP.dict_key cc) = Some v ->
  In v (FMP.referenceValues cc) ->
  let e := FMP.paging env url (Some cc) (n + S fuel) (-1)%Z [] 0%Q [] in
  FMP.why e = FMP.CROSS_CHECK_HIT /\
  FMP.response_list e = pages_from env url 0 (S n) /\
  FMP.curr_page e = Z.of_nat n /\
  List.length (FMP.response_list e)
  = (List.length (pages_from env url 0 n) + S (List.length earlier))%nat.
Proof.
  intros Hgo Hpage Hfield Hin.
  destruct (paging_run env url (Some cc) n (S fuel) (-1)%Z [] 0%Q [])
    as (clock & starts & Hrun & Hlen).
  { intros i Hi. replace (-1 + 1 + Z.of_nat i)%Z with (Z.of_nat i) by lia. auto. }
  cbv zeta. rewrite Hrun.
  assert (Hp : http_get env (replace url FMP._PAGE_PLACEHOLDER
                               (str_of_Z (-1 + Z.of_nat n + 1)))
               = (earlier ++ [last])%list).
  { replace (-1 + Z.of_nat n + 1)%Z with (Z.of_nat n) by lia. exact Hpage. }
  destruct (paging_stops_on_match env url cc fuel (-1 + Z.of_nat n)%Z
              ([] ++ pages_from env url (-1 + 1) n)%list clock starts
              earlier last v Hp Hfield Hin) as (H1 & H2 & H3).
  split; [exact H1|]. split; [|split].
  - rewrite H2.
    assert (Hsplit : forall m from,
               pages_from env url from (S m)
               = (pages_from env url from m
                  ++ page_of env url (from + Z.of_nat m))%list).
    { induction m as [|m IHm]; intros from.
      - simpl. now rewrite Z.add_0_r, app_nil_r.
      - change (pages_from env url from (S (S m)))
          with (page_of env url from ++ pages_from env url (from + 1) (S m))%list.
        rewrite IHm. cbn [pages_from]. rewrite <- app_assoc. do 3 f_equal. lia. }
    change (-1 + 1)%Z with 0%Z. rewrite (Hsplit n 0%Z), Z.add_0_l, Hpage.
    reflexivity.
  - rewrite H3. lia.
  - rewrite H2. simpl. rewrite !length_app. simpl. lia.
Qed.

Lemma run_stops_at_the_first_hit_witness :
  let cc := FMP.mkCrossCheck [Str "Strike"] "title" in
  let e := FMP.paging demo_env (demo_page "BMW" "$$$") (Some cc) 2 (-1)%Z [] 0%Q [] in
  FMP.why e = FMP.CROSS_CHECK_HIT /\ FMP.curr_page e = 1%Z /\
  List.length (FMP.response_list e) = 4.
Proof.
  intros cc.
  assert (H : forall i, (i < 1)%nat ->
                goes_on (Some cc) (page_of demo_env (demo_page "BMW" "$$$") (Z.of_nat i))).
  { intros [|i] Hi; [|lia]. split; [discriminate|].
    exists (Str "Results"). split; reflexivity. }
  assert (T := run_stops_at_the_first_hit demo_env (demo_page "BMW" "$$$") cc 1 0
                 [demo_article "2021-05-02" "Recall"]
                 (demo_article "2021-05-01" "Strike") (Str "Strike")
                 H eq_refl eq_refl (or_introl eq_refl)).
  cbv zeta in T. destruct T as (T1 & _ & T3 & T4). cbv zeta.
  split; [exact T1|]. split; [exact T3|].
  etransitivity; [exact T4|reflexivity].
Defined.

(** Property X3.  Under a cross-check, a page that holds a record and whose
    last record lacks the field the cross-check names makes the loop end on
    a [KeyError] of that field; when this is the first page,
    [_read_entries] raises it. *)
Theorem missing_cross_check_field_raises (env : Env) (url : string)
        (cc : FMP.cross_check_t) (fuel : nat)
        (earlier : list pd.record) (last : pd.record) :
  http_get env (FMP.page_url env url 0) = (earlier ++ [last])%list ->
  pd.field last (FMP.dict_key cc) = None ->
  FMP._read_entries env (S fuel) url (Some cc) = Raise (KeyError (FMP.dict_key cc)).
Proof.
  unfold FMP.page_url, FMP._read_entries. intros Hpage Hfield.
  cbn [FMP.paging]. cbv zeta. change (-1 + 1)%Z with 0%Z. rewrite Hpage.
  replace (Nat.eqb (List.length (earlier ++ [last])%list) 0) with false
    by (symmetry; apply Nat.eqb_neq; rewrite length_app; simpl; lia).
  rewrite field_of_last_app, Hfield. reflexivity.
Qed.

Lemma missing_cross_check_field_raises_witness :
  FMP._read_entries demo_env 1 (demo_page "ODD" "$$$")
                    (Some (FMP.mkCrossCheck [Str "2021-05-01"] "date"))
  = Raise (KeyError "date").
Proof.
  exact (missing_cross_check_field_raises demo_env (demo_page "ODD" "$$$")
           (FMP.mkCrossCheck [Str "2021-05-01"] "date") 0
           [[("symbol", Str "ODD"); ("title", Str "No date here")]]
           [("symbol", Str "ODD"); ("title", Str "Nor here"); ("headline", Str "x")]
           eq_refl eq_refl).
Defined.

(* ------------------------------------------------------------------ *)
(** ** The table of a response: [FMP._read_entries], lines 282 to 305 *)
(* ------------------------------------------------------------------ *)

Lemma to_lower_not_upper c : is_upper (to_lower c) = false.
Proof.
  destruct c as [[] [] [] [] [] [] [] []]; reflexivity.
Qed.

Lemma lower_no_upper s : no_upper (lower s) = true.
Proof.
  induction s as [|c s IH]; [reflexivity|].
  simpl. now rewrite to_lower_not_upper, IH.
Qed.

Lemma lower_fixed s : no_upper s = true -> lower s = s.
Proof.
  induction s as [|c s IH]; [reflexivity|]. simpl.
  intros H. apply andb_true_iff in H. destruct H as [Hc Hs].
  unfold to_lower. apply negb_true_iff in Hc. rewrite Hc. now rewrite IH.
Qed.

Lemma underscore_before_upper_fixed s :
  no_upper s = true -> underscore_before_upper s = s.
Proof.
  induction s as [|c s IH]; [reflexivity|]. simpl.
  intros H. apply andb_true_iff in H. destruct H as [Hc Hs].
  apply negb_true_iff in Hc. rewrite Hc. now rewrite IH.
Qed.

Lemma snake_case_no_upper name : no_upper (camel_case_to_snake_case name) = true.
Proof.
  destruct name as [|c s]; [reflexivity|]. unfold camel_case_to_snake_case.
  apply lower_no_upper.
Qed.



Lemma range_from_combine_length {B} (l : list B) : forall s,
  List.length (combine (pd.range_from s (List.length l)) l) = List.length l.
Proof. induction l as [|x l IH]; intros s; simpl; [reflexivity|]. now rewrite IH. Qed.

Lemma json_rows rl :
  map snd (pd.rows (pd.json_normalize rl))
  = map (fun r => map (value_or_null r) (pd.columns (pd.json_normalize rl))) rl.
Proof.
  unfold pd.json_normalize. simpl.
  rewrite map_snd_combine; [reflexivity|].
  now rewrite range_from_length, length_map.
Qed.

Lemma json_row_labels rl j k :
  nth_error (pd.columns (pd.json_normalize rl)) j = Some k ->
  map (fun r : pd.row => pd.cell_of r j) (pd.rows (pd.json_normalize rl))
  = map (fun r => value_or_null r k) rl.
Proof.
  intros Hk. unfold pd.cell_of.
  transitivity (map (fun cells : list cell => nth j cells NaN)
                    (map snd (pd.rows (pd.json_normalize rl)))).
  { symmetry. apply map_map. }
  rewrite json_rows. etransitivity; [apply map_map|].
  apply map_ext. intros r.
  apply nth_error_nth. now apply map_nth_error.
Qed.



(* ------------------------------------------------------------------ *)
(** ** What [FMP.read_news] writes *)
(* ------------------------------------------------------------------ *)

Lemma read_write_same path f : forall fs, read_file path (write_file path f fs) = Some f.
Proof.
  induction fs as [|[p g] fs IH]; simpl.
  - now rewrite String.eqb_refl.
  - destruct (String.eqb_spec p path) as [->|Hn]; simpl.
    + now rewrite String.eqb_refl.
    + destruct (String.eqb_spec p path); [congruence|exact IH].
Qed.

Lemma read_write_other path other f : forall fs,
  other <> path -> read_file other (write_file path f fs) = read_file other fs.
Proof.
  intros fs Hn. induction fs as [|[p g] fs IH]; simpl.
  - destruct (String.eqb_spec path other); [congruence|reflexivity].
  - destruct (String.eqb_spec p path) as [->|Hp]; simpl.
    + destruct (String.eqb_spec path other); [congruence|reflexivity].
    + destruct (String.eqb_spec p other); [reflexivity|exact IH].
Qed.

Lemma write_write_same path f : forall fs,
  write_file path f (write_file path f fs) = write_file path f fs.
Proof.
  induction fs as [|[p g] fs IH]; simpl.
  - now rewrite String.eqb_refl.
  - destruct (String.eqb_spec p path) as [->|Hn]; simpl.
    + now rewrite String.eqb_refl.
    + destruct (String.eqb_spec p path); [congruence|]. now rewrite IH.
Qed.

Lemma on_news_storage {A} (m : M DataStorage.t A) w :
  FMP.on_self (FMP.on_news m) w
  = (fst (m (FMP.news_ds (FMP.self w))),
     FMP.mkWorld (FMP.mk (FMP.symbol (FMP.self w))
                         (snd (m (FMP.news_ds (FMP.self w))))
                         (FMP.social_sentiment_ds (FMP.self w)))
                 (FMP.files w)).
Proof.
  unfold FMP.on_self, FMP.on_news.
  destruct (m (FMP.news_ds (FMP.self w))) as [r ds]. reflexivity.
Qed.

(** [read_news] from the merge on, as a function of the batch. *)
Lemma read_news_unfold env fuel w :
  FMP.read_news env fuel w
  = match FMP.news_cross_check (DataStorage.df (FMP.news_ds (FMP.self w))) with
    | Raise e => (Raise e, w)
    | Ok cc =>
        match FMP._read_entries env fuel (FMP.news_url (FMP.self w)) cc with
        | Raise e => (Raise e, w)
        | Ok fetched_entries =>
            match pd.drop_columns ["symbol"; "image"] fetched_entries with
            | Raise e => (Raise e, w)
            | Ok entries =>
                let (r1, ds1) := FMP._add_entries_to_ds env entries
                                   (FMP.news_ds (FMP.self w)) in
                let keep := fun ds =>
                  FMP.mk (FMP.symbol (FMP.self w)) ds
                         (FMP.social_sentiment_ds (FMP.self w)) in
                match r1 with
                | Raise e => (Raise e, FMP.mkWorld (keep ds1) (FMP.files w))
                | Ok _ =>
                    let (r2, ds2) := DataStorage.sort_ds_dates env
                                       (DEFAULT_DATE_FORMAT env) ds1 in
                    match r2 with
                    | Raise e => (Raise e, FMP.mkWorld (keep ds2) (FMP.files w))
                    | Ok _ =>
                        (Ok tt,
                         FMP.mkWorld (keep ds2)
                           (DataStorage.save_data ds2 true None (FMP.files w)))
                    end
                end
            end
        end
    end.
Proof.
  unfold FMP.read_news. unfold bind at 1. unfold get at 1.
  unfold bind at 1. unfold lift at 1.
  destruct (FMP.news_cross_check _) as [cc|e]; [|reflexivity].
  unfold bind at 1. unfold lift at 1.
  destruct (FMP._read_entries env fuel _ cc) as [fe|e]; [|reflexivity].
  cbv zeta. unfold bind at 1. unfold lift at 1.
  destruct (pd.drop_columns _ fe) as [entries|e]; [|reflexivity].
  unfold bind at 1. rewrite on_news_storage.
  destruct (FMP._add_entries_to_ds env entries (FMP.news_ds (FMP.self w)))
    as [[u|e] ds1]; cbn [fst snd]; [|reflexivity].
  unfold bind at 1. rewrite on_news_storage. cbn [FMP.self FMP.news_ds FMP.symbol
    FMP.social_sentiment_ds FMP.files].
  destruct (DataStorage.sort_ds_dates env (DEFAULT_DATE_FORMAT env) ds1)
    as [[u2|e] ds2]; cbn [fst snd]; reflexivity.
Qed.

(** Property X6.  However [read_news] ends, the symbol and the social
    sentiment storage are what they were; when it ends on an exception, no
    file has been written, whatever was already merged in memory. *)
Theorem read_news_writes_nothing_on_failure (env : Env) (fuel : nat)
        (w w' : FMP.world) (r : result unit) :
  FMP.read_news env fuel w = (r, w') ->
  FMP.symbol (FMP.self w') = FMP.symbol (FMP.self w) /\
  FMP.social_sentiment_ds (FMP.self w') = FMP.social_sentiment_ds (FMP.self w) /\
  (forall e, r = Raise e -> FMP.files w' = FMP.files w).
Proof.
  rewrite read_news_unfold.
  destruct (FMP.news_cross_check _) as [cc|e];
    [|intros H; inversion H; subst; auto].
  destruct (FMP._read_entries env fuel _ cc) as [fe|e];
    [|intros H; inversion H; subst; auto].
  destruct (pd.drop_columns _ fe) as [entries|e];
    [|intros H; inversion H; subst; auto].
  destruct (FMP._add_entries_to_ds env entries (FMP.news_ds (FMP.self w)))
    as [[u|e] ds1]; [|intros H; inversion H; subst; auto].
  destruct (DataStorage.sort_ds_dates env (DEFAULT_DATE_FORMAT env) ds1)
    as [[u2|e] ds2]; intros H; inversion H; subst; simpl; auto.
  repeat split. intros e He. discriminate He.
Qed.

Lemma read_news_writes_nothing_on_failure_witness :
  FMP.read_news demo_env 1 (demo_world "NONE") = (Raise NoData, demo_world "NONE") /\
  FMP.files (demo_world "NONE") = [].
Proof.
  assert (H : FMP.read_news demo_env 1 (demo_world "NONE")
              = (Raise NoData, demo_world "NONE")) by reflexivity.
  split; [exact H|].
  exact (proj2 (proj2 (read_news_writes_nothing_on_failure demo_env 1
                         (demo_world "NONE") (demo_world "NONE") (Raise NoData) H))
               NoData eq_refl).
Defined.

Lemma save_data_reads_back ds save_index fs :
  read_file (DataStorage.file_path ds)
            (DataStorage.save_data ds save_index None fs)
  = Some (pd.to_csv (DataStorage.df ds) save_index
            (match DataStorage.columns ds with None => true | Some _ => false end)).
Proof.
  unfold DataStorage.save_data.
  destruct (DataStorage.columns ds); apply read_write_same.
Qed.

Lemma save_data_other ds save_index fs other :
  other <> DataStorage.file_path ds ->
  read_file other (DataStorage.save_data ds save_index None fs) = read_file other fs.
Proof.
  intros H. unfold DataStorage.save_data.
  destruct (DataStorage.columns ds); now apply read_write_other.
Qed.

(** Property X7.  When [read_news] succeeds, the file of the news storage
    holds the table that is in memory, written with its index and (for a
    storage without declared columns) its header line, and every other file
    is as it was. *)
Theorem read_news_saves_the_table (env : Env) (fuel : nat) (w w' : FMP.world) :
  FMP.read_news env fuel w = (Ok tt, w') ->
  let ds := FMP.news_ds (FMP.self w') in
  read_file (DataStorage.file_path ds) (FMP.files w')
  = Some (pd.to_csv (DataStorage.df ds) true
            (match DataStorage.columns ds with None => true | Some _ => false end)) /\
  forall other, other <> DataStorage.file_path ds ->
    read_file other (FMP.files w') = read_file other (FMP.files w).
Proof.
  rewrite read_news_unfold.
  destruct (FMP.news_cross_check _) as [cc|e]; [|discriminate].
  destruct (FMP._read_entries env fuel _ cc) as [fe|e]; [|discriminate].
  destruct (pd.drop_columns _ fe) as [entries|e]; [|discriminate].
  destruct (FMP._add_entries_to_ds env entries (FMP.news_ds (FMP.self w)))
    as [[u|e] ds1]; [|discriminate].
  destruct (DataStorage.sort_ds_dates env (DEFAULT_DATE_FORMAT env) ds1)
    as [[u2|e] ds2]; [|discriminate].
  intros H. inversion H; subst. simpl.
  split; [apply save_data_reads_back|].
  intros other Ho. now apply save_data_other.
Qed.

Lemma read_news_saves_the_table_witness :
  exists w',
    FMP.read_news demo_env 1 (demo_world "BMW") = (Ok tt, w') /\
    read_file "/srv/app/fmp/news/BMW.csv" (FMP.files w')
    = Some (pd.to_csv (DataStorage.df (FMP.news_ds (FMP.self w'))) true true).
Proof.
  set (w' := snd (FMP.read_news demo_env 1 (demo_world "BMW"))).
  assert (H : FMP.read_news demo_env 1 (demo_world "BMW") = (Ok tt, w'))
    by (vm_compute; reflexivity).
  exists w'. split; [exact H|].
  exact (proj1 (read_news_saves_the_table demo_env 1 (demo_world "BMW") w' H)).
Defined.

(* ------------------------------------------------------------------ *)
(** ** More on the merge: [FMP._add_entries_to_ds] *)
(* ------------------------------------------------------------------ *)

Lemma loc_set_row_well_formed l v d :
  pd.well_formed d -> pd.well_formed (pd.loc_set_row l v d).
Proof.
  unfold pd.well_formed, pd.loc_set_row. intros W.
  destruct (pd.mem_cell l (pd.index d)); simpl.
  - apply Forall_forall. intros r Hr. apply in_map_iff in Hr.
    destruct Hr as (r0 & <- & Hr0). rewrite Forall_forall in W.
    destruct (cell_eqb (fst r0) l); simpl; [rewrite length_map|]; now apply W.
  - apply Forall_app. split; [exact W|]. constructor; [|constructor].
    simpl. apply repeat_length.
Qed.

Lemma add_rows_well_formed labels : forall d,
  pd.well_formed d -> pd.well_formed (add_rows labels d).
Proof.
  induction labels as [|l labels IH]; intros d W; [exact W|].
  unfold add_rows in *. simpl. apply IH. now apply loc_set_row_well_formed.
Qed.

Lemma set_nth_length {A} (v : A) : forall l j, List.length (pd.set_nth j v l) = List.length l.
Proof. induction l as [|x l IH]; intros [|j]; simpl; auto. Qed.

Lemma set_column_well_formed c v d :
  pd.well_formed d -> pd.well_formed (pd.set_column c v d).
Proof.
  unfold pd.well_formed, pd.set_column. intros W. rewrite Forall_forall in W.
  destruct (pd.position c (pd.columns d)); simpl; apply Forall_forall;
    intros r Hr; apply in_map_iff in Hr; destruct Hr as (r0 & <- & Hr0); simpl.
  - rewrite set_nth_length. now apply W.
  - rewrite !length_app. simpl. now rewrite (W r0 Hr0).
Qed.

Lemma add_columns_well_formed names : forall d,
  pd.well_formed d -> pd.well_formed (snd (add_columns names d)).
Proof.
  induction names as [|c names IH]; intros d W; [exact W|]. simpl.
  destruct (pd.loc_set_col c NaN d) as [d'|e] eqn:E; [|exact W].
  apply IH. unfold pd.loc_set_col in E.
  destruct (pd.mem_name c (pd.columns d)).
  - inversion E; subst. now apply set_column_well_formed.
  - destruct (pd.rows d); [discriminate|].
    inversion E; subst. now apply set_column_well_formed.
Qed.

Lemma overlay_cells_length this : forall that,
  List.length (pd.overlay_cells this that) = List.length this.
Proof.
  induction this as [|x this IH]; intros [|y that]; simpl; auto.
Qed.

Lemma overlay_rows_well_formed (n : nat) this : forall that,
  Forall (fun r : pd.row => List.length (snd r) = n) this ->
  Forall (fun r : pd.row => List.length (snd r) = n) (pd.overlay_rows this that).
Proof.
  induction this as [|x this IH]; intros [|y that] W; simpl; auto.
  inversion W; subst. constructor; [|now apply IH].
  simpl. now rewrite overlay_cells_length.
Qed.

Lemma update_well_formed other self d :
  pd.well_formed self -> pd.update other self = Ok d -> pd.well_formed d.
Proof.
  unfold pd.update. intros W H.
  destruct (pd.reindex_like other self); simpl in H; [|discriminate].
  inversion H; subst. unfold pd.well_formed. simpl.
  now apply overlay_rows_well_formed.
Qed.

(** Property X8.  A well-formed table stays well formed through a merge,
    whatever the batch and however the merge ends. *)
Theorem merge_keeps_the_table_well_formed (env : Env) (entries : pd.DataFrame)
        (ds : DataStorage.t) :
  pd.well_formed (DataStorage.df ds) ->
  pd.well_formed (DataStorage.df (snd (FMP._add_entries_to_ds env entries ds))).
Proof.
  intros W. rewrite add_entries_merged. cbn [snd]. rewrite df_with_df.
  unfold merged.
  set (d1 := add_rows _ (DataStorage.df ds)).
  assert (W1 : pd.well_formed d1) by (now apply add_rows_well_formed).
  pose proof (add_columns_well_formed
                (FMP.missing_names env (pd.columns entries)
                   (pd.columns (DataStorage.df ds))) d1 W1) as W2.
  destruct (add_columns _ d1) as [[u|e] d2]; cbn [snd] in *; [|exact W2].
  destruct (pd.update entries d2) as [d3|e] eqn:EU; cbn [snd]; [|exact W2].
  eapply update_well_formed; eauto.
Qed.

Lemma merge_keeps_the_table_well_formed_witness :
  pd.well_formed demo_table /\
  pd.well_formed
    (DataStorage.df (snd (FMP._add_entries_to_ds demo_env demo_batch demo_storage))).
Proof.
  assert (H : pd.well_formed (DataStorage.df demo_storage))
    by (repeat constructor).
  split; [exact H|].
  exact (merge_keeps_the_table_well_formed demo_env demo_batch demo_storage H).
Defined.

Lemma has_dup_cells_NoDup l : NoDup l -> pd.has_dup_cells l = false.
Proof.
  induction 1 as [|x l Hx Hnd IH]; simpl; [reflexivity|].
  rewrite IH, orb_false_r. now apply mem_cell_false.
Qed.

Lemma find_row_unique (rs : list pd.row) : forall r,
  NoDup (map fst rs) -> In r rs -> pd.find_row (fst r) rs = Some r.
Proof.
  induction rs as [|y rs IH]; intros r Hnd Hin; [contradiction|].
  simpl in Hnd. inversion Hnd as [|? ? Hy Hnd']; subst. simpl.
  destruct Hin as [->|Hin].
  - now rewrite cell_eqb_refl.
  - destruct (cell_eqb (fst y) (fst r)) eqn:E; [|now apply IH].
    apply cell_eqb_eq in E. exfalso. apply Hy. rewrite E. now apply in_map.
Qed.

Lemma row_of_label (rs : list pd.row) : forall i r r',
  NoDup (map fst rs) -> In r rs -> nth_error rs i = Some r' -> fst r' = fst r ->
  r' = r.
Proof.
  intros i r r' Hnd Hin Hi Hf.
  apply nth_error_In in Hi.
  pose proof (find_row_unique rs r Hnd Hin) as H1.
  pose proof (find_row_unique rs r' Hnd Hi) as H2.
  rewrite Hf in H2. congruence.
Qed.

Lemma position_unique c : forall l p,
  NoDup l -> nth_error l p = Some c -> pd.position c l = Some p.
Proof.
  induction l as [|y l IH]; intros [|p] Hnd H; simpl in *; try discriminate.
  - inversion H; subst. now rewrite String.eqb_refl.
  - inversion Hnd as [|? ? Hy Hnd']; subst.
    destruct (String.eqb_spec y c) as [->|Hn].
    + exfalso. apply Hy. eapply nth_error_In; eauto.
    + now rewrite (IH p Hnd' H).
Qed.

Lemma index_nth_inv d i k :
  nth_error (pd.index d) i = Some k ->
  exists r, nth_error (pd.rows d) i = Some r /\ fst r = k.
Proof.
  unfold pd.index. revert i. induction (pd.rows d) as [|y rs IH]; intros [|i] H;
    simpl in *; try discriminate.
  - inversion H; subst. eauto.
  - now apply IH.
Qed.

(** Where [other] with distinct labels and distinct column names holds
    [v], its aligned copy holds [v] at every position of that label and
    that column name. *)
Lemma aligned_holds_value other self aligned (r : pd.row) p c v i j :
  NoDup (pd.index other) -> NoDup (pd.columns other) ->
  pd.reindex_like other self = Ok aligned ->
  In r (pd.rows other) ->
  nth_error (pd.columns other) p = Some c -> nth_error (snd r) p = Some v ->
  nth_error (pd.index self) i = Some (fst r) ->
  nth_error (pd.columns self) j = Some c ->
  pd.cell_at aligned i j = Some v.
Proof.
  intros Hnl Hnc H Hin Hc Hv Hi Hj.
  pose proof (position_unique c _ p Hnc Hc) as Hpos.
  unfold pd.reindex_like in H.
  destruct (pd.reindex_rows (pd.index self) other) as [a1|] eqn:E1;
    simpl in H; [|discriminate].
  assert (R : pd.columns a1 = pd.columns other /\
              exists r1, nth_error (pd.rows a1) i = Some r1 /\ snd r1 = snd r).
  { unfold pd.reindex_rows in E1.
    destruct (pd.list_eqb cell_eqb (pd.index other) (pd.index self)) eqn:Eq.
    - inversion E1; subst a1. split; [reflexivity|].
      apply list_eqb_eq in Eq; [|intros a b; apply cell_eqb_eq].
      rewrite <- Eq in Hi.
      destruct (index_nth_inv _ _ _ Hi) as (r' & Er & Hf).
      exists r'. split; [exact Er|].
      now rewrite (row_of_label (pd.rows other) i r r' Hnl Hin Er Hf).
    - destruct (pd.has_dup_cells (pd.index other) &&
                negb (Nat.eqb (List.length (pd.index self)) 0)); [discriminate|].
      inversion E1; subst a1. simpl. split; [reflexivity|].
      rewrite nth_error_map, Hi. simpl.
      rewrite (find_row_unique (pd.rows other) r Hnl Hin). eauto. }
  destruct R as [Rc (r1 & Hr1 & Hs)].
  apply cell_at_row.
  unfold pd.reindex_columns in H.
  destruct (pd.list_eqb String.eqb (pd.columns a1) (pd.columns self)) eqn:Eq.
  - inversion H; subst aligned.
    apply list_eqb_eq in Eq; [|intros a b; apply String.eqb_eq].
    exists r1. split; [exact Hr1|]. rewrite Hs.
    rewrite <- Eq, Rc in Hj.
    pose proof (position_unique c _ j Hnc Hj) as Hpos'.
    assert (j = p) by congruence. now subst.
  - destruct (pd.has_dup_names (pd.columns a1) &&
              negb (Nat.eqb (List.length (pd.columns self)) 0)); [discriminate|].
    inversion H; subst aligned. simpl.
    eexists. split; [exact (map_nth_error _ i (pd.rows a1) Hr1)|]. simpl.
    rewrite nth_error_map, Hj. simpl. rewrite Rc, Hpos.
    unfold pd.cell_of. rewrite Hs. f_equal. now apply nth_error_nth.
Qed.

Lemma reindex_like_total other self :
  NoDup (pd.index other) -> NoDup (pd.columns other) ->
  exists aligned, pd.reindex_like other self = Ok aligned.
Proof.
  intros Hnl Hnc. unfold pd.reindex_like, pd.reindex_rows.
  destruct (pd.list_eqb cell_eqb (pd.index other) (pd.index self)).
  - simpl. destruct (reindex_columns_ok (pd.columns self) other Hnc) as (d' & H & _).
    eauto.
  - rewrite (has_dup_cells_NoDup _ Hnl). simpl.
    match goal with |- exists a, pd.reindex_columns _ ?x = _ =>
      destruct (reindex_columns_ok (pd.columns self) x Hnc) as (d' & H & _) end.
    eauto.
Qed.

Section MergeWrites.
Variable env : Env.
Hypothesis Henum : enumerates_sets env.

(** Property X9.  A batch with distinct labels and distinct column names is
    merged into a well-formed table without raising, and every value of
    the batch that is not null is afterwards in the table: at every row of
    its label, under every column of its name; the label and the name are
    in the table. *)
Theorem merge_writes_every_value (entries : pd.DataFrame) (ds : DataStorage.t)
        (r : pd.row) (p : nat) (c : string) (v : cell) :
  pd.well_formed (DataStorage.df ds) ->
  NoDup (pd.index entries) -> NoDup (pd.columns entries) ->
  In r (pd.rows entries) ->
  nth_error (pd.columns entries) p = Some c ->
  nth_error (snd r) p = Some v -> v <> NaN ->
  let after := FMP._add_entries_to_ds env entries ds in
  fst after = Ok tt /\
  In (fst r) (pd.index (DataStorage.df (snd after))) /\
  In c (pd.columns (DataStorage.df (snd after))) /\
  forall i j,
    nth_error (pd.index (DataStorage.df (snd after))) i = Some (fst r) ->
    nth_error (pd.columns (DataStorage.df (snd after))) j = Some c ->
    pd.cell_at (DataStorage.df (snd after)) i j = Some v.
Proof.
  intros W Hnl Hnc Hin Hc Hv Hnn. cbv zeta.
  rewrite add_entries_merged. cbn [fst snd]. rewrite df_with_df.
  unfold merged.
  set (d := DataStorage.df ds) in *.
  set (MR := FMP.missing_labels env (pd.index entries) (pd.index d)).
  set (MC := FMP.missing_names env (pd.columns entries) (pd.columns d)).
  assert (Hk1 : In (fst r) (pd.index (add_rows MR d))).
  { rewrite add_rows_index.
    destruct (in_dec cell_eq_dec (fst r) (pd.index d)); [auto|].
    left. apply (missing_labels_In env Henum). split; [|assumption].
    unfold pd.index. now apply in_map. }
  assert (Hrows : pd.rows (add_rows MR d) <> []).
  { intros E. unfold pd.index in Hk1. rewrite E in Hk1. contradiction. }
  destruct (add_columns_with_rows MC (add_rows MR d) Hrows) as (HO & HI & HC).
  assert (W2 : pd.well_formed (snd (add_columns MC (add_rows MR d))))
    by (apply add_columns_well_formed, add_rows_well_formed, W).
  destruct (add_columns MC (add_rows MR d)) as [ro d2]. cbn [fst snd] in *.
  subst ro.
  assert (Hk2 : In (fst r) (pd.index d2)) by (now rewrite HI).
  assert (Hc2 : In c (pd.columns d2)).
  { apply HC. rewrite add_rows_columns.
    destruct (in_dec string_dec c (pd.columns d)); [auto|].
    left. apply (missing_names_In env Henum). split; [|assumption].
    eapply nth_error_In; eauto. }
  destruct (reindex_like_total entries d2 Hnl Hnc) as (a & Ha).
  unfold pd.update. rewrite Ha. cbn [rbind fst snd].
  split; [reflexivity|].
  unfold pd.index at 1 2. cbn [pd.rows pd.columns]. rewrite overlay_rows_index.
  split; [exact Hk2|]. split; [exact Hc2|].
  intros i j Hi Hj.
  assert (Hcell := aligned_holds_value entries d2 a r p c v i j Hnl Hnc Ha Hin Hc Hv
                     Hi Hj).
  destruct (index_nth_inv _ _ _ Hi) as (r2 & Er2 & _).
  assert (Hlen : j < List.length (snd r2)).
  { unfold pd.well_formed in W2. rewrite Forall_forall in W2.
    rewrite (W2 r2 (nth_error_In _ _ Er2)). apply nth_error_Some. congruence. }
  destruct (nth_error (snd r2) j) as [x|] eqn:Ex;
    [|apply nth_error_None in Ex; lia].
  apply cell_at_row in Hcell. destruct Hcell as (o & Ho & Hoj).
  apply cell_at_row. cbn [pd.rows].
  rewrite (overlay_rows_nth _ _ _ _ Er2), Ho.
  eexists. split; [reflexivity|]. cbn [snd].
  rewrite (overlay_cells_nth _ _ _ _ Ex), Hoj.
  unfold pd.overlay_cell. destruct v; simpl; congruence.
Qed.
End MergeWrites.

Lemma merge_writes_every_value_witness :
  pd.well_formed demo_table /\
  NoDup (pd.index demo_batch) /\ NoDup (pd.columns demo_batch) /\
  let after := FMP._add_entries_to_ds demo_env demo_batch demo_storage in
  fst after = Ok tt /\
  In (Str "2021-05-04") (pd.index (DataStorage.df (snd after))) /\
  In "title" (pd.columns (DataStorage.df (snd after))).
Proof.
  assert (H1 : pd.well_formed (DataStorage.df demo_storage))
    by (repeat constructor).
  assert (H2 : NoDup (pd.index demo_batch))
    by (apply NoDup_cons;
        [simpl; intros [h|[]]; discriminate h
        |apply NoDup_cons; [simpl; tauto|apply NoDup_nil]]).
  assert (H3 : NoDup (pd.columns demo_batch))
    by (apply NoDup_cons;
        [simpl; intros [h|[]]; discriminate h
        |apply NoDup_cons; [simpl; tauto|apply NoDup_nil]]).
  assert (H4 : Str "New model" <> NaN) by discriminate.
  split; [exact H1|]. split; [exact H2|]. split; [exact H3|].
  destruct (merge_writes_every_value demo_env demo_env_enumerates_sets demo_batch
              demo_storage (Str "2021-05-04", [Str "New model"; Str "..."]) 0
              "title" (Str "New model") H1 H2 H3
              (or_intror (or_introl eq_refl)) eq_refl eq_refl H4)
    as (T1 & T2 & T3 & _).
  cbv zeta. split; [exact T1|]. split; [exact T2|exact T3].
Defined.

(* ------------------------------------------------------------------ *)
(** ** Conditions on a column: the three methods of [DataStorage] *)
(* ------------------------------------------------------------------ *)

Lemma map_result_map {A B} (f : A -> B) l :
  pd.map_result (fun x => Ok (f x)) l = Ok (map f l).
Proof. induction l as [|x l IH]; simpl; [reflexivity|]. now rewrite IH. Qed.

Lemma condition_filter_known d column condition value :
  known_operator condition = true ->
  DataStorage.condition_filter d column condition value
  = rbind (pd.get_col d column) (fun s =>
    rbind (pd.map_result (operator_test condition value) s) (fun m => Ok (Some m))).
Proof.
  unfold known_operator, DataStorage.condition_filter, operator_test. intros H.
  destruct (String.eqb condition "gt"); [reflexivity|].
  destruct (String.eqb condition "lt"); [reflexivity|].
  destruct (String.eqb condition "eq").
  - destruct value; destruct (pd.get_col d column); simpl; try reflexivity;
      now rewrite map_result_map.
  - destruct (String.eqb condition "neq"); [|discriminate].
    destruct value; destruct (pd.get_col d column); simpl; try reflexivity;
      now rewrite map_result_map.
Qed.

Lemma select_rows_filter (f : pd.row -> bool) d :
  pd.select_rows (map f (pd.rows d)) d
  = pd.mkDF (pd.index_name d) (pd.columns d) (filter f (pd.rows d)).
Proof.
  unfold pd.select_rows. f_equal.
  induction (pd.rows d) as [|r rs IH]; simpl; [reflexivity|].
  destruct (f r); simpl; now rewrite IH.
Qed.

(** Property X10.  On a column the table holds once, [eq] and [neq] split the
    table: [eq] returns the rows that pass the test, [neq] the others, both
    in the order of the table and without touching the storage; against
    [None] the test is that the cell is null, against a value that the cell
    equals it (which a null cell never does). *)
Theorem eq_and_neq_split_the_table (ds : DataStorage.t) (column : string)
        (value : option cell) (s : list cell) :
  pd.get_col (DataStorage.df ds) column = Ok s ->
  let d := DataStorage.df ds in
  let test := fun r : pd.row =>
    match value with
    | Some v => pd.py_eq (under d column r) v
    | None => isna (under d column r)
    end in
  DataStorage.get_rows_by_condition column "eq" value ds
  = (Ok (Some (pd.mkDF (pd.index_name d) (pd.columns d) (filter test (pd.rows d)))),
     ds) /\
  DataStorage.get_rows_by_condition column "neq" value ds
  = (Ok (Some (pd.mkDF (pd.index_name d) (pd.columns d)
                       (filter (fun r => negb (test r)) (pd.rows d)))), ds).
Proof.
  intros Hs d test.
  pose proof Hs as Hs'. apply get_col_Ok in Hs'. destruct Hs' as (j & Pj & _ & Es).
  fold d in Hs, Pj, Es.
  assert (Hunder : forall r, under d column r = pd.cell_of r j)
    by (intros r; unfold under; now rewrite Pj).
  unfold DataStorage.get_rows_by_condition, bind, get, lift.
  rewrite !condition_filter_known by reflexivity. fold d. rewrite Hs. simpl.
  unfold operator_test. simpl. rewrite !map_result_map. simpl. unfold ret.
  split; do 3 f_equal.
  - rewrite Es, map_map. rewrite <- select_rows_filter. f_equal.
    apply map_ext. intros r. unfold test. rewrite Hunder. now destruct value.
  - rewrite Es, map_map. rewrite <- select_rows_filter. f_equal.
    apply map_ext. intros r. unfold test. rewrite Hunder. now destruct value.
Qed.

Lemma eq_and_neq_split_the_table_witness :
  pd.get_col demo_table "sentiment" = Ok [Num 1; NaN] /\
  DataStorage.get_rows_by_condition "sentiment" "eq" None demo_storage
  = (Ok (Some (pd.mkDF (Some "date") ["title"; "sentiment"]
                       [(Str "2021-05-03", [Str "Results"; NaN])])), demo_storage).
Proof.
  assert (H : pd.get_col (DataStorage.df demo_storage) "sentiment" = Ok [Num 1; NaN])
    by reflexivity.
  split; [exact H|].
  exact (proj1 (eq_and_neq_split_the_table demo_storage "sentiment" None
                  [Num 1; NaN] H)).
Defined.

Lemma map_result_sub {A B} (f : A -> result B) (keep : A -> bool) : forall l ys,
  pd.map_result f l = Ok ys ->
  pd.map_result f (filter keep l)
  = Ok (map snd (filter (fun xy => keep (fst xy)) (combine l ys))).
Proof.
  induction l as [|x l IH]; intros ys H; simpl in *.
  - inversion H; reflexivity.
  - destruct (f x) as [y|e] eqn:E; simpl in H; [|discriminate].
    destruct (pd.map_result f l) as [ys'|e] eqn:E'; simpl in H; [|discriminate].
    inversion H; subst ys. simpl.
    destruct (keep x); simpl; rewrite ?E; simpl; rewrite (IH ys' eq_refl);
      reflexivity.
Qed.

Lemma select_none {A} (rs : list A) :
  map snd (filter fst (combine (map (fun _ => false) rs) rs)) = [].
Proof. induction rs as [|r rs IH]; simpl; auto. Qed.

(** Property X11.  After [remove_rows_by_condition] has removed the rows that
    meet a condition, the same condition selects nothing: the query for it
    succeeds and returns no row. *)
Theorem removed_rows_are_gone (ds ds' : DataStorage.t) (column condition : string)
        (value : option cell) :
  known_operator condition = true ->
  DataStorage.remove_rows_by_condition column condition value ds = (Ok tt, ds') ->
  exists t,
    DataStorage.get_rows_by_condition column condition value ds'
    = (Ok (Some t), ds') /\
    pd.rows t = [] /\ pd.columns t = pd.columns (DataStorage.df ds).
Proof.
  intros Hk. unfold DataStorage.remove_rows_by_condition, bind, get, lift.
  rewrite condition_filter_known by exact Hk.
  destruct (pd.get_col (DataStorage.df ds) column) as [s|e] eqn:Hs;
    simpl; [|discriminate].
  destruct (pd.map_result (operator_test condition value) s) as [mask|e] eqn:Hm;
    simpl; [|discriminate].
  unfold DataStorage.set_df. intros H. inversion H; subst ds'. clear H.
  set (d := DataStorage.df ds) in *.
  set (labels := pd.index (pd.select_rows mask d)).
  set (d' := pd.drop_rows labels d).
  apply get_col_Ok in Hs. destruct Hs as (j & Pj & Cj & Es).
  assert (Hs' : pd.get_col d' column
                = Ok (map (fun r => pd.cell_of r j) (pd.rows d'))).
  { apply get_col_Ok. exists j. auto. }
  (* every remaining row fails the test *)
  assert (Hfail : Forall (fun r : pd.row =>
                    operator_test condition value (pd.cell_of r j) = Ok false)
                  (pd.rows d')).
  { apply map_result_Forall2 in Hm. rewrite Es in Hm.
    unfold d', pd.drop_rows. simpl.
    unfold labels, pd.index, pd.select_rows. simpl.
    clear - Hm. revert mask Hm.
    induction (pd.rows d) as [|r rs IH]; intros mask Hm; [constructor|].
    inversion Hm as [|? b ? mask' Hb Hrest]; subst. simpl.
    destruct b; simpl.
    - rewrite cell_eqb_refl. simpl.
      specialize (IH mask' Hrest).
      apply Forall_forall. intros x Hx. apply filter_In in Hx.
      destruct Hx as [Hx Hkeep]. rewrite Forall_forall in IH. apply IH.
      apply filter_In. split; [exact Hx|].
      apply negb_true_iff in Hkeep. apply negb_true_iff.
      apply orb_false_iff in Hkeep. tauto.
    - specialize (IH mask' Hrest).
      destruct (pd.mem_cell (fst r) _) eqn:Em; simpl.
      + exact IH.
      + constructor; [exact Hb|exact IH]. }
  assert (Hmask' : pd.map_result (operator_test condition value)
                     (map (fun r => pd.cell_of r j) (pd.rows d'))
                   = Ok (map (fun _ => false) (pd.rows d'))).
  { apply map_result_Forall2. clear - Hfail.
    induction Hfail as [|r rs Hr _ IH]; simpl; constructor; auto. }
  exists (pd.select_rows (map (fun _ => false) (pd.rows d')) d').
  unfold DataStorage.get_rows_by_condition, bind, get, lift.
  rewrite condition_filter_known by exact Hk. cbn [DataStorage.df DataStorage.with_df].
  rewrite Hs'. cbn [rbind]. rewrite Hmask'. simpl. unfold ret.
  split; [reflexivity|]. split; [|reflexivity].
  unfold pd.select_rows. cbn [pd.rows]. apply select_none.
Qed.

Lemma removed_rows_are_gone_witness :
  exists ds' t,
    DataStorage.remove_rows_by_condition "sentiment" "eq" None demo_storage
    = (Ok tt, ds') /\
    DataStorage.get_rows_by_condition "sentiment" "eq" None ds' = (Ok (Some t), ds') /\
    pd.rows t = [].
Proof.
  set (ds' := snd (DataStorage.remove_rows_by_condition "sentiment" "eq" None
                     demo_storage)).
  assert (H : DataStorage.remove_rows_by_condition "sentiment" "eq" None demo_storage
              = (Ok tt, ds')) by reflexivity.
  destruct (removed_rows_are_gone demo_storage ds' "sentiment" "eq" None eq_refl H)
    as (t & T1 & T2 & _).
  exists ds', t. split; [exact H|]. split; [exact T1|exact T2].
Defined.

Lemma fold_present_columns cols : forall d,
  incl cols (pd.columns d) ->
  fold_left (fun acc c => if pd.mem_name c (pd.columns acc) then acc
                          else pd.set_column c NaN acc) cols d = d.
Proof.
  induction cols as [|c cols IH]; intros d H; simpl; [reflexivity|].
  assert (Hc : pd.mem_name c (pd.columns d) = true)
    by (apply mem_name_In, H; simpl; auto).
  rewrite Hc. apply IH. intros x Hx. apply H. simpl; auto.
Qed.

Lemma nth_error_combine {A B} : forall (a : list A) (b : list B) i x y,
  nth_error a i = Some x -> nth_error b i = Some y ->
  nth_error (combine a b) i = Some (x, y).
Proof.
  induction a as [|a0 a IH]; intros [|b0 b] [|i] x y Ha Hb; simpl in *;
    try discriminate.
  - inversion Ha; inversion Hb; reflexivity.
  - now apply IH.
Qed.

Lemma Forall2_nth_error {A B} (R : A -> B -> Prop) : forall l l' i x,
  Forall2 R l l' -> nth_error l i = Some x ->
  exists y, nth_error l' i = Some y /\ R x y.
Proof.
  intros l l' i x H. revert i. induction H as [|a b l l' Hab _ IH]; intros [|i] Hi;
    simpl in *; try discriminate.
  - inversion Hi; subst. eauto.
  - now apply IH.
Qed.

Lemma masked_labels (F : bool * pd.row -> pd.row) :
  (forall m r, fst (F (m, r)) = fst r) ->
  forall (rs : list pd.row) (M : list bool),
  List.length rs <= List.length M ->
  map fst (map F (combine M rs)) = map fst rs.
Proof.
  intros HF. induction rs as [|r rs IH]; intros [|m M] H; simpl in *;
    try reflexivity; try lia.
  rewrite HF. f_equal. apply IH. lia.
Qed.





(* ------------------------------------------------------------------ *)
(** ** The date sort moves whole rows *)
(* ------------------------------------------------------------------ *)

Lemma position_In c l : In c l -> exists j, pd.position c l = Some j.
Proof.
  intros H. destruct (pd.position c l) as [j|] eqn:E; [eauto|].
  apply position_None in E. contradiction.
Qed.

Lemma reindex_columns_cells target d d' cs :
  pd.reindex_columns target d = Ok d' ->
  incl cs target ->
  map (fun r : pd.row => (fst r, pd.cells_under cs (pd.columns d') r)) (pd.rows d')
  = map (fun r : pd.row => (fst r, pd.cells_under cs (pd.columns d) r)) (pd.rows d).
Proof.
  unfold pd.reindex_columns.
  destruct (pd.list_eqb String.eqb (pd.columns d) target);
    [intros H _; inversion H; reflexivity|].
  destruct (pd.has_dup_names (pd.columns d) && negb (Nat.eqb (List.length target) 0));
    [discriminate|].
  intros H Hcs. inversion H; subst d'. clear H. cbn [pd.rows pd.columns].
  rewrite map_map. apply map_ext. intros r. cbn [fst]. f_equal.
  unfold pd.cells_under. apply map_ext_in. intros c Hc.
  destruct (position_In c target (Hcs c Hc)) as (j & Pj). rewrite Pj.
  unfold pd.cell_of at 1. cbn [snd].
  apply position_nth_error in Pj.
  pose proof (map_nth_error
                (fun c0 => match pd.position c0 (pd.columns d) with
                           | Some j0 => pd.cell_of r j0
                           | None => NaN
                           end) j target Pj) as Hn.
  apply nth_error_nth with (d := NaN) in Hn. exact Hn.
Qed.

Lemma keyed_rows env fmt cols cs : forall (rs : list pd.row) stamps,
  Forall2 (fun k t => DataStorage.to_datetime env fmt k = Ok t) (map fst rs) stamps ->
  map (fun r : pd.row => (fst r, pd.cells_under cs cols r))
      (map (fun kr : Z * list cell => (Str (strftime env fmt (fst kr)), snd kr))
           (combine stamps (map snd rs)))
  = map (fun r : pd.row => (reprinted env fmt (fst r), pd.cells_under cs cols r)) rs.
Proof.
  induction rs as [|r rs IH]; intros stamps H; inversion H as [|? t ? ts Ht Hr];
    subst; simpl; [reflexivity|].
  rewrite IH by exact Hr. f_equal. unfold reprinted. rewrite Ht. reflexivity.
Qed.

(** Property X14.  A successful [sort_ds_dates] moves whole rows: the rows of
    the sorted table, each read by column name, are the rows of the table
    before, each under its label printed again, up to their order.  The sort
    under it only has to return its input reordered. *)
Theorem sort_moves_whole_rows (env : Env) (date_format : string)
        (ds ds' : DataStorage.t) :
  (forall l, Permutation (sorter env l) l) ->
  DataStorage.sort_ds_dates env date_format ds = (Ok tt, ds') ->
  let d := DataStorage.df ds in
  let d' := DataStorage.df ds' in
  Permutation
    (map (fun r : pd.row => (fst r, pd.cells_under (pd.columns d) (pd.columns d') r))
         (pd.rows d'))
    (map (fun r : pd.row => (reprinted env date_format (fst r),
                             pd.cells_under (pd.columns d) (pd.columns d) r))
         (pd.rows d)).
Proof.
  intros Hperm. rewrite sort_ds_dates_unfold.
  destruct (pd.map_result (DataStorage.to_datetime env date_format)
                          (pd.index (DataStorage.df ds))) as [stamps|e] eqn:E;
    [|discriminate].
  cbv zeta.
  destruct (pd.reindex_columns _ _) as [d''|e] eqn:R; [|discriminate].
  intros H. inversion H; subst ds'. clear H.
  cbn [DataStorage.df DataStorage.with_df].
  set (d := DataStorage.df ds) in *.
  rewrite (reindex_columns_cells _ _ _ (pd.columns d) R).
  2:{ intros c Hc. apply (Permutation_in c (Permutation_sym (sorted_perm _))).
      exact Hc. }
  unfold printed_frame at 2. cbn [pd.rows]. unfold printed_frame. cbn [pd.columns].
  apply map_result_Forall2 in E.
  rewrite <- (keyed_rows env date_format (pd.columns d) (pd.columns d) (pd.rows d)
                         stamps E).
  apply Permutation_map. apply Permutation_map.
  unfold pd.sort_index_descending.
  destruct (pd.is_monotonic_decreasing _); [reflexivity|apply Hperm].
Qed.

Lemma sort_moves_whole_rows_witness :
  exists ds',
    DataStorage.sort_ds_dates demo_env "%Y-%m-%d" demo_storage = (Ok tt, ds') /\
    Permutation
      (map (fun r : pd.row =>
              (fst r, pd.cells_under (pd.columns demo_table)
                                     (pd.columns (DataStorage.df ds')) r))
           (pd.rows (DataStorage.df ds')))
      [(Str "2021-05-01", [Str "Strike"; Num 1]);
       (Str "2021-05-03", [Str "Results"; NaN])].
Proof.
  set (ds' := snd (DataStorage.sort_ds_dates demo_env "%Y-%m-%d" demo_storage)).
  assert (H : DataStorage.sort_ds_dates demo_env "%Y-%m-%d" demo_storage = (Ok tt, ds'))
    by (vm_compute; reflexivity).
  assert (Hp : forall l, Permutation (sorter demo_env l) l)
    by (intros l; exact (proj1 (demo_sorter_sorts l))).
  exists ds'. split; [exact H|].
  exact (sort_moves_whole_rows demo_env "%Y-%m-%d" demo_storage ds' Hp H).
Defined.

(* ------------------------------------------------------------------ *)
(** ** The intersection: what it refuses *)
(* ------------------------------------------------------------------ *)

Lemma map_result_raises {A B} (f : A -> result B) x : forall l,
  In x l -> raises (f x) -> raises (pd.map_result f l).
Proof.
  induction l as [|y l IH]; intros Hin Hx; [contradiction|]. simpl.
  destruct Hin as [->|Hin].
  - destruct Hx as (e & ->). exists e. reflexivity.
  - destruct (f y) as [b|e]; [|exists e; reflexivity]. simpl.
    destruct (IH Hin Hx) as (e & ->). exists e. reflexivity.
Qed.

(** Property X15.  [intersect_on_column] returns nothing for fewer than two
    tables (an [IndexError]), nor when one of the tables, whichever, lacks
    the column: the call raises. *)
Theorem intersection_refuses (dataframes : list pd.DataFrame) (column_name : string) :
  (List.length dataframes < 2 ->
   DataStorage.intersect_on_column dataframes column_name = Raise IndexError) /\
  ((exists d, In d dataframes /\ ~ In column_name (pd.columns d)) ->
   raises (DataStorage.intersect_on_column dataframes column_name)).
Proof.
  split.
  - destruct dataframes as [|d0 [|d1 others]]; simpl; intros H;
      try reflexivity. lia.
  - intros (d & Hin & Hc).
    destruct dataframes as [|d0 [|d1 others]];
      [contradiction|exists IndexError; reflexivity|].
    unfold DataStorage.intersect_on_column.
    destruct (pd.merge_ordered d0 d1 column_name) as [first|e];
      [|exists e; reflexivity].
    cbn [rbind].
    destruct (fold_left _ others (Ok first)) as [common|e];
      [|exists e; reflexivity].
    cbn [rbind]. apply (map_result_raises _ d); [exact Hin|].
    unfold pd.get_col. rewrite (position_absent _ _ Hc).
    exists (KeyError column_name). reflexivity.
Qed.

Lemma intersection_refuses_witness :
  DataStorage.intersect_on_column [demo_prices] "date" = Raise IndexError /\
  raises (DataStorage.intersect_on_column [demo_prices; demo_scores; demo_table] "date").
Proof.
  split.
  - apply (proj1 (intersection_refuses [demo_prices] "date")). simpl. lia.
  - apply (proj2 (intersection_refuses [demo_prices; demo_scores; demo_table] "date")).
    exists demo_table. split; [simpl; auto|].
    simpl. intros [h|[h|[]]]; discriminate h.
Defined.

(* ------------------------------------------------------------------ *)
(** ** Index and columns *)
(* ------------------------------------------------------------------ *)

Lemma unlabel_relabel : forall (rs : list pd.row) (labels : list cell),
  List.length labels = List.length rs ->
  map (fun r : pd.row => (pd.cell_of r 0, pd.remove_nth 0 (snd r)))
      (combine labels (map (fun r : pd.row => fst r :: snd r) rs))
  = rs.
Proof.
  induction rs as [|[k cs] rs IH]; intros [|l labels] H; try discriminate;
    [reflexivity|].
  cbn [combine map fst snd]. unfold pd.cell_of at 1. cbn [nth snd pd.remove_nth].
  apply (f_equal (cons (k, cs))). simpl in H.
  assert (HL : List.length labels = List.length rs) by lia.
  exact (IH labels HL).
Qed.

Lemma set_index_reset_index d n :
  pd.index_name d = Some n -> ~ In n (pd.columns d) ->
  exists mid,
    pd.reset_index d = Ok mid /\
    pd.columns mid = n :: pd.columns d /\
    pd.index mid = pd.range_from 0 (List.length (pd.rows d)) /\
    pd.set_index n mid = Ok d.
Proof.
  intros Hn Hc. unfold pd.reset_index. rewrite Hn.
  rewrite (proj2 (mem_name_false _ _) Hc).
  eexists. split; [reflexivity|]. split; [reflexivity|]. split.
  - unfold pd.index. cbn [pd.rows]. apply map_fst_combine.
    rewrite range_from_length. symmetry. apply length_map.
  - unfold pd.set_index. cbn [pd.columns pd.position]. rewrite String.eqb_refl.
    cbn [pd.rows pd.remove_nth]. rewrite unlabel_relabel.
    + rewrite <- Hn. f_equal. apply frame_eta.
    + apply range_from_length.
Qed.

(** Property X16.  On a table whose index has a name that no column has,
    [index_to_column] makes the index the first column, under that name,
    and numbers the rows; [column_to_index] on that name then gives the
    storage back as it was.  With [inplace = False] the same frame is
    returned and the storage is left alone. *)
Theorem index_to_column_and_back (ds : DataStorage.t) (n : string) :
  pd.index_name (DataStorage.df ds) = Some n ->
  ~ In n (pd.columns (DataStorage.df ds)) ->
  exists mid,
    DataStorage.index_to_column true ds = (Ok None, DataStorage.with_df ds mid) /\
    DataStorage.index_to_column false ds = (Ok (Some mid), ds) /\
    pd.columns mid = n :: pd.columns (DataStorage.df ds) /\
    pd.index mid = pd.range_from 0 (List.length (pd.rows (DataStorage.df ds))) /\
    DataStorage.column_to_index n true (DataStorage.with_df ds mid) = (Ok None, ds).
Proof.
  intros Hn Hc.
  destruct (set_index_reset_index _ _ Hn Hc) as (mid & Hreset & Hcols & Hidx & Hset).
  exists mid.
  unfold DataStorage.index_to_column, DataStorage.column_to_index,
    DataStorage.set_df, bind, get, lift, ret.
  rewrite Hreset. cbn [DataStorage.df DataStorage.with_df].
  rewrite Hset. simpl. rewrite with_df_with_df, with_df_df.
  repeat split; assumption.
Qed.

Lemma index_to_column_and_back_witness :
  exists mid,
    DataStorage.index_to_column true demo_storage
    = (Ok None, DataStorage.with_df demo_storage mid) /\
    pd.columns mid = ["date"; "title"; "sentiment"] /\
    DataStorage.column_to_index "date" true (DataStorage.with_df demo_storage mid)
    = (Ok None, demo_storage).
Proof.
  assert (Hc : ~ In "date" (pd.columns (DataStorage.df demo_storage)))
    by (simpl; intros [h|[h|[]]]; discriminate h).
  destruct (index_to_column_and_back demo_storage "date" eq_refl Hc)
    as (mid & T1 & _ & T3 & _ & T5).
  exists mid. split; [exact T1|]. split; [exact T3|exact T5].
Defined.



(* ------------------------------------------------------------------ *)
(** ** Adding rows and columns *)
(* ------------------------------------------------------------------ *)

Lemma width_of_rows n : forall data : list (list cell),
  Forall (fun r => List.length r = n) data -> data <> [] ->
  fold_right (fun r w => Nat.max (List.length r) w) 0 data = n.
Proof.
  induction data as [|r data IH]; intros H Hne; [congruence|].
  inversion H as [|? ? Hr Hrest]; subst. simpl.
  destruct data as [|r' data'].
  - simpl. lia.
  - rewrite IH; [lia|exact Hrest|discriminate].
Qed.

Lemma pad_full {A} (x : A) : forall n l, n <= List.length l -> pd.pad n x l = l.
Proof.
  induction n as [|n IH]; intros [|y l] H; simpl in *; try reflexivity; try lia.
  f_equal. apply IH. lia.
Qed.

Lemma uniq_names_seen : forall l seen, incl l seen -> pd.uniq_names seen l = [].
Proof.
  induction l as [|x l IH]; intros seen H; simpl; [reflexivity|].
  rewrite (proj2 (mem_name_In x seen)) by (apply H; simpl; auto).
  apply IH. intros y Hy. apply H. simpl; auto.
Qed.

Lemma cells_by_name : forall cols (l : list cell),
  NoDup cols -> List.length l = List.length cols ->
  map (fun c => match pd.position c cols with
                | Some j => nth j l NaN
                | None => NaN
                end) cols = l.
Proof.
  induction cols as [|c cols IH]; intros [|x l] Hnd Hlen; simpl in *;
    try discriminate; [reflexivity|].
  rewrite String.eqb_refl. f_equal.
  inversion Hnd as [|? ? Hc Hnd']; subst.
  assert (Hl : List.length l = List.length cols) by lia.
  transitivity (map (fun c0 => match pd.position c0 cols with
                               | Some j => nth j l NaN
                               | None => NaN
                               end) cols); [|exact (IH l Hnd' Hl)].
  apply map_ext_in. intros c' Hc'.
  destruct (String.eqb_spec c c') as [->|Hne]; [contradiction|].
  destruct (pd.position c' cols); reflexivity.
Qed.

Lemma cells_under_own cols (r : pd.row) :
  NoDup cols -> List.length (snd r) = List.length cols ->
  pd.cells_under cols cols r = snd r.
Proof. intros Hnd Hlen. exact (cells_by_name cols (snd r) Hnd Hlen). Qed.

Lemma rows_under_own cols : forall rs : list pd.row,
  NoDup cols ->
  Forall (fun r : pd.row => List.length (snd r) = List.length cols) rs ->
  map (fun r : pd.row => (fst r, pd.cells_under cols cols r)) rs = rs.
Proof.
  intros rs Hnd H. induction H as [|[k cs] rs Hr _ IH]; simpl; [reflexivity|].
  rewrite IH. cbn [fst]. rewrite (cells_under_own cols (k, cs) Hnd Hr). reflexivity.
Qed.

Lemma frame_of_matching_rows cols data labels :
  Forall (fun r => List.length r = List.length cols) data ->
  pd.frame_of_rows data (Some cols) labels
  = match labels with
    | None => Ok (pd.mkDF None cols
                    (combine (pd.range_from 0 (List.length data)) data))
    | Some ls =>
        if Nat.eqb (List.length data) 0
        then Ok (pd.mkDF None cols
                   (map (fun l => (l, repeat NaN (List.length cols))) ls))
        else if Nat.eqb (List.length ls) (List.length data)
        then Ok (pd.mkDF None cols (combine ls data))
        else Raise (ValueError "length of index does not match the data")
    end.
Proof.
  intros H. unfold pd.frame_of_rows.
  assert (Hbody : map (pd.pad (fold_right (fun r w => Nat.max (List.length r) w) 0 data)
                              NaN) data = data).
  { destruct data as [|r0 data0] eqn:Ed; [reflexivity|]. rewrite <- Ed in *.
    rewrite (width_of_rows _ data H) by (rewrite Ed; discriminate).
    clear Ed. induction H as [|r data Hr _ IH]; simpl; [reflexivity|].
    rewrite IH. f_equal. apply pad_full. lia. }
  rewrite Hbody.
  destruct data as [|r0 data0] eqn:Ed.
  - reflexivity.
  - rewrite <- Ed in *. rewrite (width_of_rows _ data H) by (rewrite Ed; discriminate).
    rewrite Nat.eqb_refl. rewrite andb_false_r. reflexivity.
Qed.

Lemma length_app_combine {A B} (rs : list (A * B)) (a : list A) (b : list B) :
  List.length a = List.length b ->
  List.length (rs ++ combine a b)%list = List.length rs + List.length b.
Proof.
  intros H. rewrite length_app. f_equal. rewrite length_combine. lia.
Qed.

Lemma map_snd_app_combine {A B} (rs : list (A * B)) (a : list A) (b : list B) :
  List.length a = List.length b ->
  map snd (rs ++ combine a b)%list = (map snd rs ++ b)%list.
Proof. intros H. rewrite map_app. f_equal. now apply map_snd_combine. Qed.

Lemma relabelled {B} (body : list (cell * B)) n :
  List.length body = n ->
  map fst (combine (pd.range_from 0 (List.length body)) (map snd body))
  = pd.range_from 0 n /\
  map snd (combine (pd.range_from 0 (List.length body)) (map snd body))
  = map snd body.
Proof.
  intros <-. split.
  - apply map_fst_combine. rewrite range_from_length. symmetry. apply length_map.
  - apply map_snd_combine. rewrite range_from_length. symmetry. apply length_map.
Qed.



Lemma set_nth_set_nth {A} (v w : A) : forall l j,
  pd.set_nth j w (pd.set_nth j v l) = pd.set_nth j w l.
Proof.
  induction l as [|x l IH]; intros [|j]; simpl; try reflexivity.
  now rewrite IH.
Qed.

Lemma set_nth_last {A} (v w : A) : forall l,
  pd.set_nth (List.length l) w (l ++ [v])%list = (l ++ [w])%list.
Proof. induction l as [|x l IH]; simpl; [reflexivity|]. now rewrite IH. Qed.

Lemma position_new c : forall cols,
  ~ In c cols -> pd.position c (cols ++ [c])%list = Some (List.length cols).
Proof.
  induction cols as [|y cols IH]; intros H; simpl.
  - now rewrite String.eqb_refl.
  - destruct (String.eqb_spec y c) as [->|Hn]; [exfalso; apply H; simpl; auto|].
    rewrite IH by (intro; apply H; simpl; auto). reflexivity.
Qed.

Lemma set_column_again c v w d :
  pd.well_formed d ->
  pd.set_column c w (pd.set_column c v d) = pd.set_column c w d.
Proof.
  intros W. unfold pd.set_column at 2 3.
  destruct (pd.position c (pd.columns d)) as [j|] eqn:P.
  - unfold pd.set_column. cbn [pd.columns pd.rows pd.index_name]. rewrite P.
    f_equal. rewrite map_map. apply map_ext. intros r. cbn [fst snd].
    now rewrite set_nth_set_nth.
  - apply position_None in P.
    unfold pd.set_column. cbn [pd.columns pd.rows pd.index_name].
    rewrite (position_new c _ P). f_equal. rewrite map_map.
    apply map_ext_in. intros r Hr. cbn [fst snd].
    unfold pd.well_formed in W. rewrite Forall_forall in W.
    rewrite <- (W r Hr). now rewrite set_nth_last.
Qed.

(** Property X19.  [add_column] overwrites rather than duplicates: on a table
    with one cell per column, adding a column that was just added, under
    another default, leaves what adding it once under that default leaves;
    the table keeps one cell per column and its labels, and the columns
    forced on the storage are not touched. *)
Theorem add_column_last_write_wins (ds : DataStorage.t) (c : string) (v w : cell) :
  pd.well_formed (DataStorage.df ds) ->
  let once := snd (DataStorage.add_column c w ds) in
  snd (DataStorage.add_column c w (snd (DataStorage.add_column c v ds))) = once /\
  pd.well_formed (DataStorage.df once) /\
  pd.index (DataStorage.df once) = pd.index (DataStorage.df ds) /\
  In c (pd.columns (DataStorage.df once)) /\
  DataStorage.columns once = DataStorage.columns ds.
Proof.
  intros W once. subst once. unfold DataStorage.add_column. cbn [snd].
  cbn [DataStorage.df DataStorage.with_df DataStorage.columns].
  rewrite (set_column_again c v w _ W).
  split; [reflexivity|]. split; [now apply set_column_well_formed|].
  split; [apply set_column_index|]. split; [|reflexivity].
  apply set_column_columns. now left.
Qed.

Lemma add_column_last_write_wins_witness :
  pd.well_formed demo_table /\
  snd (DataStorage.add_column "text" (Num 0)
         (snd (DataStorage.add_column "text" NaN demo_storage)))
  = snd (DataStorage.add_column "text" (Num 0) demo_storage).
Proof.
  assert (H : pd.well_formed (DataStorage.df demo_storage)) by (repeat constructor).
  split; [exact H|].
  exact (proj1 (add_column_last_write_wins demo_storage "text" NaN (Num 0) H)).
Defined.

(* ------------------------------------------------------------------ *)
(** ** The first use of a symbol *)
(* ------------------------------------------------------------------ *)

(** Property X20.  The object built for a symbol without ['.'] whose two files
    do not exist: both tables are empty and indexed by [date], the news
    table with the two sentiment columns, the other with no column; so the
    first fetch of the news runs without a cross-check. *)
Theorem first_use_starts_with_empty_tables (env : Env) (fs : filesystem)
        (stem : string) :
  no_dot stem ->
  read_file (path_join (FMP._NEWS_DATA_DIR env) (stem ++ ".csv")) fs = None ->
  read_file (path_join (FMP._SOCIAL_SENTIMENT_DATA_DIR env) (stem ++ ".csv")) fs
  = None ->
  exists obj,
    FMP.__init__ env fs stem = Ok obj /\
    DataStorage.df (FMP.news_ds obj)
    = pd.mkDF (Some "date") ["sentiment"; "sentiment_probability"] [] /\
    DataStorage.df (FMP.social_sentiment_ds obj) = pd.mkDF (Some "date") [] [] /\
    FMP.news_cross_check (DataStorage.df (FMP.news_ds obj)) = Ok None.
Proof.
  intros Hdot Hnews Hsocial.
  assert (Hstem : find stem "." = (-1)%Z) by (apply find_from_absent; exact Hdot).
  unfold FMP.__init__. rewrite Hstem. change (-1 >? -1)%Z with false. cbv iota zeta.
  unfold FMP._load_data, FMP.on_news, FMP.on_social_sentiment, bind,
    DataStorage.read_data, DataStorage.__init__.
  cbn [FMP.news_ds FMP.social_sentiment_ds FMP.symbol DataStorage.file_path].
  change DataStorage.EXT with ".csv". rewrite Hnews.
  cbn -[path_join FMP._SOCIAL_SENTIMENT_DATA_DIR FMP._NEWS_DATA_DIR String.append
        String.concat].
  rewrite Hsocial. cbn.
  eexists. repeat split.
Qed.

Lemma first_use_starts_with_empty_tables_witness :
  no_dot "BMW" /\
  exists obj,
    FMP.__init__ demo_env [] "BMW" = Ok obj /\
    DataStorage.df (FMP.news_ds obj)
    = pd.mkDF (Some "date") ["sentiment"; "sentiment_probability"] [].
Proof.
  assert (H : no_dot "BMW")
    by (unfold no_dot; simpl; intros [h|[h|[h|[]]]]; discriminate h).
  split; [exact H|].
  destruct (first_use_starts_with_empty_tables demo_env [] "BMW" H eq_refl eq_refl)
    as (obj & T1 & T2 & _).
  exists obj. split; [exact T1|exact T2].
Defined.

(* ------------------------------------------------------------------ *)
(** ** Sentiments of the news *)
(* ------------------------------------------------------------------ *)

Lemma position_app_present c2 c : forall cols j,
  pd.position c2 cols = Some j -> pd.position c2 (cols ++ [c])%list = Some j.
Proof.
  induction cols as [|y cols IH]; intros j H; simpl in *; [discriminate|].
  destruct (String.eqb y c2); [exact H|].
  destruct (pd.position c2 cols) as [q|]; [|discriminate].
  rewrite (IH q eq_refl). exact H.
Qed.

Lemma count_occ_app_other (c2 c : string) cols :
  c2 <> c ->
  count_occ string_dec (cols ++ [c])%list c2 = count_occ string_dec cols c2.
Proof.
  intros H. rewrite count_occ_app. simpl.
  destruct (string_dec c c2); [congruence|lia].
Qed.

(** One assignment [df.loc[k, c] = v], cell by cell. *)
Lemma loc_set_cell_present k c v d :
  pd.well_formed d -> In c (pd.columns d) ->
  pd.columns (pd.loc_set_cell k c v d) = pd.columns d /\
  pd.well_formed (pd.loc_set_cell k c v d) /\
  exists H : pd.row -> pd.row,
    pd.rows (pd.loc_set_cell k c v d) = map H (pd.rows d) /\
    forall r, In r (pd.rows d) ->
      fst (H r) = fst r /\
      forall c2 j2, pd.position c2 (pd.columns d) = Some j2 ->
        pd.cell_of (H r) j2
        = if cell_eqb (fst r) k && String.eqb c2 c then v else pd.cell_of r j2.
Proof.
  intros W Hc. unfold pd.loc_set_cell.
  rewrite (proj2 (mem_name_In c (pd.columns d)) Hc). cbn [pd.columns pd.rows].
  unfold pd.well_formed in *. rewrite Forall_forall in W.
  split; [reflexivity|]. split.
  - cbn [pd.columns pd.rows]. apply Forall_forall. intros r' Hr'.
    apply in_map_iff in Hr'. destruct Hr' as (r & <- & Hr).
    destruct (cell_eqb (fst r) k); [|now apply W].
    cbn [snd]. rewrite length_map, length_combine, (W r Hr). lia.
  - exists (fun r : pd.row =>
              if cell_eqb (fst r) k
              then (fst r, map (fun nc : string * cell =>
                                  if String.eqb (fst nc) c then v else snd nc)
                               (combine (pd.columns d) (snd r)))
              else r).
    split; [reflexivity|]. intros r Hr. cbv beta.
    destruct (cell_eqb (fst r) k) eqn:Ek; cbn [fst andb]; [|auto].
    split; [reflexivity|]. intros c2 j2 P.
    pose proof (position_Some_lt _ _ _ P) as Hlt.
    apply position_nth_error in P.
    assert (Hx : nth_error (snd r) j2 = Some (pd.cell_of r j2)).
    { unfold pd.cell_of. apply nth_error_nth'. rewrite (W r Hr). exact Hlt. }
    unfold pd.cell_of at 1. cbn [snd].
    apply nth_error_nth.
    apply (map_nth_error
             (fun nc : string * cell => if String.eqb (fst nc) c then v else snd nc)
             j2 (combine (pd.columns d) (snd r)) (d := (c2, pd.cell_of r j2))).
    now apply nth_error_combine.
Qed.

Lemma loc_set_cell_cells k c v d :
  pd.well_formed d ->
  pd.well_formed (pd.loc_set_cell k c v d) /\
  In c (pd.columns (pd.loc_set_cell k c v d)) /\
  (forall c2 j2, pd.position c2 (pd.columns d) = Some j2 ->
     pd.position c2 (pd.columns (pd.loc_set_cell k c v d)) = Some j2 /\
     count_occ string_dec (pd.columns (pd.loc_set_cell k c v d)) c2
     = count_occ string_dec (pd.columns d) c2) /\
  exists H : pd.row -> pd.row,
    pd.rows (pd.loc_set_cell k c v d) = map H (pd.rows d) /\
    forall r, In r (pd.rows d) ->
      fst (H r) = fst r /\
      forall c2 j2, pd.position c2 (pd.columns d) = Some j2 ->
        pd.cell_of (H r) j2
        = if cell_eqb (fst r) k && String.eqb c2 c then v else pd.cell_of r j2.
Proof.
  intros W. destruct (in_dec string_dec c (pd.columns d)) as [Hc|Hc].
  - destruct (loc_set_cell_present k c v d W Hc) as (Hcols & W' & H & Hrows & Hcells).
    split; [exact W'|]. split; [now rewrite Hcols|]. split.
    + intros c2 j2 P. rewrite Hcols. auto.
    + exists H. auto.
  - set (d1 := pd.set_column c NaN d).
    assert (E : pd.loc_set_cell k c v d = pd.loc_set_cell k c v d1).
    { unfold pd.loc_set_cell. rewrite (proj2 (mem_name_false c (pd.columns d)) Hc).
      fold d1.
      assert (Hin1 : pd.mem_name c (pd.columns d1) = true).
      { apply mem_name_In. apply set_column_columns. now left. }
      rewrite Hin1. reflexivity. }
    assert (W1 : pd.well_formed d1) by now apply set_column_well_formed.
    assert (Hc1 : In c (pd.columns d1)) by (apply set_column_columns; now left).
    assert (D1 : d1 = pd.mkDF (pd.index_name d) (pd.columns d ++ [c])%list
                        (map (fun r : pd.row => (fst r, snd r ++ [NaN])%list) (pd.rows d))).
    { unfold d1, pd.set_column. now rewrite (position_absent _ _ Hc). }
    rewrite E.
    destruct (loc_set_cell_present k c v d1 W1 Hc1) as (Hcols & W' & H & Hrows & Hcells).
    split; [exact W'|]. split; [now rewrite Hcols|]. split.
    + intros c2 j2 P. rewrite Hcols, D1. cbn [pd.columns]. split.
      * now apply position_app_present.
      * apply count_occ_app_other. intros ->. apply position_nth_error in P.
        apply nth_error_In in P. contradiction.
    + exists (fun r => H (fst r, snd r ++ [NaN])%list). split.
      * rewrite Hrows, D1. cbn [pd.rows]. now rewrite map_map.
      * intros r Hr.
        assert (Hr1 : In (fst r, (snd r ++ [NaN])%list) (pd.rows d1)).
        { rewrite D1. cbn [pd.rows]. apply in_map_iff. exists r. auto. }
        destruct (Hcells _ Hr1) as (Hf & Hcs). split; [exact Hf|].
        intros c2 j2 P.
        assert (P1 : pd.position c2 (pd.columns d1) = Some j2)
          by (rewrite D1; cbn [pd.columns]; now apply position_app_present).
        rewrite (Hcs c2 j2 P1). cbn [fst].
        destruct (cell_eqb (fst r) k && String.eqb c2 c); [reflexivity|].
        unfold pd.cell_of. cbn [snd].
        apply app_nth1. unfold pd.well_formed in W. rewrite Forall_forall in W.
        rewrite (W r Hr). now apply (position_Some_lt c2).
Qed.

Lemma verdict_not_null polarity_scores partial_df r :
  isna (fst (verdict polarity_scores partial_df r)) = false.
Proof.
  unfold verdict. destruct (FMP.scores_of_row polarity_scores partial_df r) as [s|];
    [|reflexivity].
  unfold FMP.overall. destruct (Qle_bool (5 # 100) (FMP.compound s)); [reflexivity|].
  destruct (Qle_bool (FMP.compound s) (- (5 # 100))); reflexivity.
Qed.

Lemma add_sentiment_to_row_step polarity_scores partial_df r ds :
  FMP.add_sentiment_to_row polarity_scores partial_df r ds
  = (Ok tt, DataStorage.with_df ds
              (sentiment_step polarity_scores partial_df (DataStorage.df ds) r)).
Proof.
  unfold FMP.add_sentiment_to_row, sentiment_step, verdict.
  destruct (FMP.scores_of_row polarity_scores partial_df r) as [s|];
    [destruct (FMP.overall s)|]; reflexivity.
Qed.

Lemma for_each_news_rows polarity_scores partial_df : forall (l : list pd.row) ds,
  for_each l (FMP.add_sentiment_to_row polarity_scores partial_df) ds
  = (Ok tt, DataStorage.with_df ds
              (fold_left (sentiment_step polarity_scores partial_df) l
                         (DataStorage.df ds))).
Proof.
  induction l as [|r l IH]; intros ds; simpl.
  - unfold ret. now rewrite with_df_df.
  - unfold bind. rewrite add_sentiment_to_row_step. rewrite IH. reflexivity.
Qed.

(** The sentiment column through one turn of the loop. *)
Lemma sentiment_step_column polarity_scores partial_df d r j :
  pd.well_formed d ->
  pd.position "sentiment" (pd.columns d) = Some j ->
  pd.well_formed (sentiment_step polarity_scores partial_df d r) /\
  pd.position "sentiment" (pd.columns (sentiment_step polarity_scores partial_df d r))
  = Some j /\
  count_occ string_dec (pd.columns (sentiment_step polarity_scores partial_df d r))
            "sentiment"
  = count_occ string_dec (pd.columns d) "sentiment" /\
  map (fun x : pd.row => (fst x, pd.cell_of x j))
      (pd.rows (sentiment_step polarity_scores partial_df d r))
  = map (fun kc : cell * cell =>
           if cell_eqb (fst kc) (fst r)
           then (fst kc, fst (verdict polarity_scores partial_df r)) else kc)
        (map (fun x : pd.row => (fst x, pd.cell_of x j)) (pd.rows d)).
Proof.
  intros W P. unfold sentiment_step.
  set (o := fst (verdict polarity_scores partial_df r)).
  set (p := snd (verdict polarity_scores partial_df r)).
  destruct (loc_set_cell_cells (fst r) "sentiment" o d W)
    as (W1 & _ & Hpos1 & H1 & Hrows1 & Hcells1).
  destruct (Hpos1 _ _ P) as (P1 & C1).
  set (d1 := pd.loc_set_cell (fst r) "sentiment" o d) in *.
  destruct (loc_set_cell_cells (fst r) "sentiment_probability" p d1 W1)
    as (W2 & _ & Hpos2 & H2 & Hrows2 & Hcells2).
  destruct (Hpos2 _ _ P1) as (P2 & C2).
  split; [exact W2|]. split; [exact P2|]. split; [congruence|].
  rewrite Hrows2, Hrows1, !map_map. apply map_ext_in. intros x Hx. cbn [fst snd].
  assert (Hx1 : In (H1 x) (pd.rows d1)) by (rewrite Hrows1; now apply in_map).
  destruct (Hcells1 x Hx) as (F1 & Hc1). destruct (Hcells2 _ Hx1) as (F2 & Hc2).
  rewrite F2, F1, (Hc2 _ _ P1), (Hc1 _ _ P). rewrite F1.
  change (String.eqb "sentiment" "sentiment_probability") with false.
  change (String.eqb "sentiment" "sentiment") with true.
  rewrite andb_false_r, andb_true_r.
  destruct (cell_eqb (fst x) (fst r)); reflexivity.
Qed.

Lemma sentiment_fold_column polarity_scores partial_df j : forall (l : list pd.row) d,
  pd.well_formed d ->
  pd.position "sentiment" (pd.columns d) = Some j ->
  let d' := fold_left (sentiment_step polarity_scores partial_df) l d in
  pd.well_formed d' /\
  pd.position "sentiment" (pd.columns d') = Some j /\
  count_occ string_dec (pd.columns d') "sentiment"
  = count_occ string_dec (pd.columns d) "sentiment" /\
  map (fun x : pd.row => (fst x, pd.cell_of x j)) (pd.rows d')
  = map (fun kc : cell * cell =>
           fold_left (fun (kc : cell * cell) (r : pd.row) =>
                        if cell_eqb (fst kc) (fst r)
                        then (fst kc, fst (verdict polarity_scores partial_df r))
                        else kc) l kc)
        (map (fun x : pd.row => (fst x, pd.cell_of x j)) (pd.rows d)).
Proof.
  induction l as [|r l IH]; intros d W P; cbn [fold_left].
  - cbv zeta. repeat split; try assumption. rewrite map_map. reflexivity.
  - destruct (sentiment_step_column polarity_scores partial_df d r j W P)
      as (W1 & P1 & C1 & E1).
    destruct (IH _ W1 P1) as (W2 & P2 & C2 & E2). cbv zeta.
    split; [exact W2|]. split; [exact P2|]. split; [congruence|].
    rewrite E2, E1, !map_map. reflexivity.
Qed.

Lemma written_once (val : pd.row -> cell) : forall (l : list pd.row) (kc : cell * cell),
  (forall r, isna (val r) = false) ->
  let kc' := fold_left (fun (kc : cell * cell) (r : pd.row) =>
                          if cell_eqb (fst kc) (fst r) then (fst kc, val r) else kc)
                       l kc in
  fst kc' = fst kc /\
  (isna (snd kc) = false \/ In (fst kc) (map fst l) -> isna (snd kc') = false).
Proof.
  induction l as [|r l IH]; intros kc Hval; cbn [fold_left]; cbv zeta.
  - split; [reflexivity|]. intros [H|[]]. exact H.
  - destruct (IH (if cell_eqb (fst kc) (fst r) then (fst kc, val r) else kc) Hval)
      as (F & N). cbv zeta in F, N.
    split.
    + rewrite F. destruct (cell_eqb (fst kc) (fst r)); reflexivity.
    + intros H. apply N.
      destruct (cell_eqb (fst kc) (fst r)) eqn:E.
      * left. apply Hval.
      * destruct H as [H|[H|H]]; [left; exact H| |right; exact H].
        exfalso. symmetry in H. apply cell_eqb_eq in H. congruence.
Qed.

Lemma select_rows_of_column (f : cell -> bool) j d :
  pd.select_rows (map f (map (fun r : pd.row => pd.cell_of r j) (pd.rows d))) d
  = pd.mkDF (pd.index_name d) (pd.columns d)
            (filter (fun r : pd.row => f (pd.cell_of r j)) (pd.rows d)).
Proof. rewrite map_map. apply (select_rows_filter (fun r => f (pd.cell_of r j))). Qed.

Lemma select_nothing : forall (s : list cell) (rs : list pd.row),
  Forall (fun x => isna x = false) s ->
  map snd (filter fst (combine (map isna s) rs)) = [].
Proof.
  induction s as [|x s IH]; intros rs H; [reflexivity|].
  inversion H as [|? ? Hx Hs]; subst. destruct rs as [|r rs]; [reflexivity|].
  simpl. rewrite Hx. simpl. now apply IH.
Qed.

(** What a run of [add_sentiment_to_news] on a table with rows does. *)
Lemma sentiment_run polarity_scores (w w' : FMP.world) :
  let news_ds := FMP.news_ds (FMP.self w) in
  let news := DataStorage.df news_ds in
  pd.well_formed news ->
  pd.rows news <> [] ->
  FMP.add_sentiment_to_news polarity_scores w = (Ok tt, w') ->
  exists news' s',
    w' = FMP.mkWorld
           (FMP.mk (FMP.symbol (FMP.self w)) (DataStorage.with_df news_ds news')
                   (FMP.social_sentiment_ds (FMP.self w)))
           (DataStorage.save_data (DataStorage.with_df news_ds news') true None
                                  (FMP.files w)) /\
    pd.well_formed news' /\
    pd.index news' = pd.index news /\
    pd.get_col news' "sentiment" = Ok s' /\
    Forall (fun x => isna x = false) s'.
Proof.
  intros news_ds news W Hne.
  unfold FMP.add_sentiment_to_news, bind, get, lift. fold news_ds. fold news.
  destruct (Nat.eqb (List.length (pd.rows news)) 0) eqn:El.
  { apply Nat.eqb_eq in El. destruct (pd.rows news); [congruence|discriminate]. }
  destruct (pd.get_col news "sentiment") as [s|e] eqn:Hs; [|discriminate].
  pose proof Hs as Hs'. apply get_col_Ok in Hs'. destruct Hs' as (j & P & C & Es).
  set (partial_df := pd.select_rows (map isna s) news).
  unfold FMP.on_self, FMP.on_news. rewrite for_each_news_rows.
  fold news_ds. fold news. unfold put. cbn [FMP.self FMP.files FMP.news_ds].
  intros H. inversion H; subst w'. clear H.
  destruct (sentiment_fold_column polarity_scores partial_df j (pd.rows partial_df)
              news W P) as (W' & P' & C' & E').
  set (news' := fold_left (sentiment_step polarity_scores partial_df)
                          (pd.rows partial_df) news) in *.
  exists news', (map (fun r : pd.row => pd.cell_of r j) (pd.rows news')).
  split; [reflexivity|]. split; [exact W'|]. split; [|split].
  - unfold pd.index.
    transitivity (map fst (map (fun x : pd.row => (fst x, pd.cell_of x j))
                               (pd.rows news'))); [now rewrite map_map|].
    rewrite E', !map_map. apply map_ext. intros x.
    apply (written_once (fun r => fst (verdict polarity_scores partial_df r))).
    intros r. apply verdict_not_null.
  - apply get_col_Ok. exists j. split; [exact P'|]. split; [lia|reflexivity].
  - assert (Hcol : map (fun r : pd.row => pd.cell_of r j) (pd.rows news')
                   = map snd (map (fun x : pd.row => (fst x, pd.cell_of x j))
                                  (pd.rows news'))) by now rewrite map_map.
    rewrite Hcol, E', !map_map. apply Forall_forall. intros c Hc.
    apply in_map_iff in Hc. destruct Hc as (x & <- & Hx).
    apply (written_once (fun r => fst (verdict polarity_scores partial_df r)));
      [intros r; apply verdict_not_null|].
    cbn [fst snd]. destruct (isna (pd.cell_of x j)) eqn:En; [right|left; reflexivity].
    apply in_map. unfold partial_df. rewrite Es, select_rows_of_column.
    cbn [pd.rows]. apply filter_In. split; assumption.
Qed.

(** Property X21.  After a successful [add_sentiment_to_news] on a table with
    rows, one cell per column, no row is left without a sentiment: the
    column [sentiment] holds no null, the rows keep their labels, and the
    file of the news holds the table so completed, with its index. *)
Theorem every_news_row_gets_a_sentiment
        (polarity_scores : cell -> option FMP.scores) (w w' : FMP.world) :
  pd.well_formed (DataStorage.df (FMP.news_ds (FMP.self w))) ->
  pd.rows (DataStorage.df (FMP.news_ds (FMP.self w))) <> [] ->
  FMP.add_sentiment_to_news polarity_scores w = (Ok tt, w') ->
  let news := DataStorage.df (FMP.news_ds (FMP.self w)) in
  let news' := DataStorage.df (FMP.news_ds (FMP.self w')) in
  pd.index news' = pd.index news /\
  (exists s', pd.get_col news' "sentiment" = Ok s' /\
              Forall (fun x => isna x = false) s') /\
  read_file (DataStorage.file_path (FMP.news_ds (FMP.self w))) (FMP.files w')
  = Some (pd.to_csv news' true
            (match DataStorage.columns (FMP.news_ds (FMP.self w)) with
             | None => true
             | Some _ => false
             end)).
Proof.
  intros W Hne Hrun.
  destruct (sentiment_run polarity_scores w w' W Hne Hrun)
    as (news' & s' & -> & W' & Hidx & Hcol & Hall).
  cbv zeta. cbn [FMP.self FMP.files FMP.news_ds DataStorage.df DataStorage.with_df].
  split; [exact Hidx|]. split; [eauto|].
  exact (save_data_reads_back
           (DataStorage.with_df (FMP.news_ds (FMP.self w)) news') true (FMP.files w)).
Qed.

Lemma every_news_row_gets_a_sentiment_witness :
  exists w' s',
    FMP.add_sentiment_to_news (fun _ => None) (demo_world "BMW") = (Ok tt, w') /\
    pd.get_col (DataStorage.df (FMP.news_ds (FMP.self w'))) "sentiment" = Ok s' /\
    Forall (fun x => isna x = false) s'.
Proof.
  set (w' := snd (FMP.add_sentiment_to_news (fun _ => None) (demo_world "BMW"))).
  assert (H : FMP.add_sentiment_to_news (fun _ => None) (demo_world "BMW")
              = (Ok tt, w')) by reflexivity.
  assert (W : pd.well_formed
                (DataStorage.df (FMP.news_ds (FMP.self (demo_world "BMW")))))
    by (repeat constructor).
  assert (Hne : pd.rows (DataStorage.df (FMP.news_ds (FMP.self (demo_world "BMW"))))
                <> []) by discriminate.
  destruct (every_news_row_gets_a_sentiment (fun _ => None) (demo_world "BMW") w'
              W Hne H) as (_ & (s' & T1 & T2) & _).
  exists w', s'. split; [exact H|]. split; [exact T1|exact T2].
Defined.

(** Property X22.  [add_sentiment_to_news] is idempotent: run again after a
    successful run on a table with rows, it finds no row to fill, and leaves
    the object and the files as the first run left them. *)
Theorem sentiments_are_added_once
        (polarity_scores : cell -> option FMP.scores) (w w' : FMP.world) :
  pd.well_formed (DataStorage.df (FMP.news_ds (FMP.self w))) ->
  pd.rows (DataStorage.df (FMP.news_ds (FMP.self w))) <> [] ->
  FMP.add_sentiment_to_news polarity_scores w = (Ok tt, w') ->
  FMP.add_sentiment_to_news polarity_scores w' = (Ok tt, w').
Proof.
  intros W Hne Hrun.
  destruct (sentiment_run polarity_scores w w' W Hne Hrun)
    as (news' & s' & -> & W' & Hidx & Hcol & Hall).
  unfold FMP.add_sentiment_to_news, bind, get, lift.
  cbn [FMP.self FMP.files FMP.news_ds DataStorage.df DataStorage.with_df].
  assert (Hrows : pd.rows news' <> []).
  { intros E. apply Hne. unfold pd.index in Hidx. rewrite E in Hidx. simpl in Hidx.
    symmetry in Hidx. now apply map_eq_nil in Hidx. }
  destruct (Nat.eqb (List.length (pd.rows news')) 0) eqn:El.
  { apply Nat.eqb_eq in El. destruct (pd.rows news'); [congruence|discriminate]. }
  rewrite Hcol. unfold pd.select_rows. rewrite (select_nothing s' _ Hall).
  cbn [pd.rows for_each]. unfold FMP.on_self, FMP.on_news, ret, put.
  cbn [FMP.self FMP.files FMP.news_ds FMP.symbol FMP.social_sentiment_ds].
  f_equal. f_equal. unfold DataStorage.save_data.
  cbn [DataStorage.columns DataStorage.file_path DataStorage.with_df DataStorage.df].
  destruct (DataStorage.columns (FMP.news_ds (FMP.self w))); apply write_write_same.
Qed.

Lemma sentiments_are_added_once_witness :
  exists w',
    FMP.add_sentiment_to_news (fun _ => None) (demo_world "BMW") = (Ok tt, w') /\
    FMP.add_sentiment_to_news (fun _ => None) w' = (Ok tt, w').
Proof.
  set (w' := snd (FMP.add_sentiment_to_news (fun _ => None) (demo_world "BMW"))).
  assert (H : FMP.add_sentiment_to_news (fun _ => None) (demo_world "BMW")
              = (Ok tt, w')) by reflexivity.
  assert (W : pd.well_formed
                (DataStorage.df (FMP.news_ds (FMP.self (demo_world "BMW")))))
    by (repeat constructor).
  assert (Hne : pd.rows (DataStorage.df (FMP.news_ds (FMP.self (demo_world "BMW"))))
                <> []) by discriminate.
  exists w'. split; [exact H|].
  exact (sentiments_are_added_once (fun _ => None) (demo_world "BMW") w' W Hne H).
Defined.

(* ------------------------------------------------------------------ *)
(** ** printcontrol.py *)
(* ------------------------------------------------------------------ *)

Lemma spaces_length n : String.length (printcontrol.spaces n) = n.
Proof. induction n; simpl; auto. Qed.

Lemma print_calls_invariant : forall calls s,
  printcontrol._last_line_length s = String.length (printcontrol.last_line s) ->
  fst (print_calls calls s) = Ok tt /\
  printcontrol._last_line_length (snd (print_calls calls s))
  = String.length (printcontrol.last_line (snd (print_calls calls s))).
Proof.
  induction calls as [|c calls IH]; intros s Hs.
  - split; [reflexivity|exact Hs].
  - unfold print_calls. cbn [for_each]. unfold bind.
    destruct c as [text|].
    + unfold printcontrol.reprint at 1, printcontrol.write, bind, get, put.
      cbn [fst snd]. apply IH. reflexivity.
    + unfold printcontrol.new_line at 1, printcontrol.write, bind, get, put.
      cbn [fst snd]. apply IH. reflexivity.
Qed.


(* ------------------------------------------------------------------ *)
(** ** The name and the file of a storage *)
(* ------------------------------------------------------------------ *)

Lemma to_lower_to_upper c : to_lower (to_upper c) = to_lower c.
Proof. destruct c as [[] [] [] [] [] [] [] []]; reflexivity. Qed.

Lemma to_lower_underscore c : to_lower c = "_"%char -> c = "_"%char.
Proof.
  destruct c as [[] [] [] [] [] [] [] []]; cbv; intros H;
    first [reflexivity | discriminate H].
Qed.

Lemma lower_lower s : lower (lower s) = lower s.
Proof. apply lower_fixed, lower_no_upper. Qed.

Lemma lower_capitalize s : lower (capitalize s) = lower s.
Proof.
  destruct s as [|c s]; [reflexivity|]. simpl.
  now rewrite to_lower_to_upper, lower_lower.
Qed.

Lemma lower_app a b : lower (a ++ b) = lower a ++ lower b.
Proof. induction a as [|c a IH]; simpl; [reflexivity|]. now rewrite IH. Qed.

Lemma lower_concat_capitalize : forall l,
  lower (String.concat " " (map capitalize l)) = lower (String.concat " " l).
Proof.
  induction l as [|w l IH]; [reflexivity|].
  destruct l as [|w' l'].
  - simpl. apply lower_capitalize.
  - change (map capitalize (w :: w' :: l'))
      with (capitalize w :: map capitalize (w' :: l')).
    cbn [String.concat]. cbn [map] in IH |- *. cbn [String.concat].
    rewrite !lower_app. rewrite lower_capitalize. f_equal. f_equal. exact IH.
Qed.

Lemma split_on_nonempty sep s : split_on sep s <> [].
Proof.
  destruct s as [|c s]; simpl; [discriminate|].
  destruct (Ascii.eqb c sep); [discriminate|].
  destruct (split_on sep s); discriminate.
Qed.

(** Splitting at the underscores and joining with spaces is replacing the
    underscores by spaces. *)
Lemma join_split s :
  String.concat " " (split_on "_" s) = replace s "_" " ".
Proof.
  unfold replace.
  induction s as [|c s IH]; [reflexivity|].
  cbn [split_on replace_from].
  destruct (Ascii.eqb_spec c "_"%char) as [->|Hn].
  - pose proof (split_on_nonempty "_" s) as Hne.
    destruct (split_on "_" s) as [|w ws] eqn:E; [congruence|].
    assert (Hp : prefix "_" (String "_" s) = true).
    { cbn [prefix]. destruct (ascii_dec "_" "_"); [destruct s; reflexivity|congruence]. }
    rewrite Hp. change (String.length "_" - 1) with 0. rewrite <- IH. reflexivity.
  - pose proof (split_on_nonempty "_" s) as Hne.
    destruct (split_on "_" s) as [|w ws] eqn:E; [congruence|].
    assert (Hp : prefix "_" (String c s) = false).
    { cbn [prefix]. destruct (ascii_dec "_" c) as [e|]; [congruence|reflexivity]. }
    rewrite Hp, <- IH. destruct ws; reflexivity.
Qed.

Lemma replaced_underscores : forall s,
  ~ In "_"%char (list_ascii_of_string (replace s "_" " ")).
Proof.
  unfold replace. induction s as [|c s IH]; [simpl; tauto|].
  cbn [replace_from prefix].
  destruct (ascii_dec "_" c) as [e|Hn].
  - assert (Hp : prefix EmptyString s = true) by (destruct s; reflexivity).
    rewrite Hp. change (String.length "_" - 1) with 0.
    change (" " ++ replace_from "_" " " 0 s)
      with (String " " (replace_from "_" " " 0 s)).
    cbn [list_ascii_of_string]. intros [H|H]; [discriminate|now apply IH].
  - cbn [list_ascii_of_string]. intros [H|H]; [congruence|now apply IH].
Qed.

Lemma lower_keeps_underscores : forall s,
  In "_"%char (list_ascii_of_string s) ->
  In "_"%char (list_ascii_of_string (lower s)).
Proof.
  induction s as [|c s IH]; simpl; [tauto|].
  intros [->|H]; [left; reflexivity|right; now apply IH].
Qed.

Lemma lower_brings_no_underscore : forall s,
  In "_"%char (list_ascii_of_string (lower s)) ->
  In "_"%char (list_ascii_of_string s).
Proof.
  induction s as [|c s IH]; simpl; [tauto|].
  intros [H|H]; [left; now apply to_lower_underscore|right; now apply IH].
Qed.



